(** * Offline cache and sync queue of the CCSA mobile app

    A shallow embedding of the two services that make up the offline data
    layer:

    - [Cache]: [offlineCacheService] (fetch-with-cache engine over
      AsyncStorage, with per-entry expiry and a NetInfo listener);
    - [Sync]: [offlineSyncService] (durable queue of offline farms,
      sequential replay, retry accounting, automatic and manual retry).

    Asynchronous functions are written in a state-and-exception monad over
    an explicit world: [await e] is monadic bind, [throw] is rejection and
    [try/catch] is [tryCatch].  AsyncStorage is a reliable key-value store
    (its own failures are caught and logged by every function below, and are
    not modelled) whose operations complete at once; [Date.now()] reads the
    world's clock, which moves while a remote request or a timer is
    awaited, by the time the request or the timer takes. *)

From Stdlib Require Import ZArith Lia Bool.
From stdpp Require Import base option list gmap strings.

Local Open Scope Z_scope.

(** ** JSON payloads and JavaScript truthiness *)

#[warnings="-register-all"]
Inductive JSON : Type :=
| JNull
| JBool (b : bool)
| JNum (n : Z)
| JStr (s : string)
| JArr (items : list JSON)
| JObj (fields : list (string * JSON)).

(** [if (v)] in JavaScript: null, false, 0 and the empty string are falsy;
    every array and object (also the empty ones) is truthy. *)
Definition truthy (v : JSON) : bool :=
  match v with
  | JNull => false
  | JBool b => b
  | JNum n => negb (n =? 0)
  | JStr s => negb (String.eqb s EmptyString)
  | JArr _ => true
  | JObj _ => true
  end.

(** An optional number as JavaScript sees it: [None] is [null]. *)
Definition truthyNum (x : option Z) : bool :=
  match x with
  | Some n => negb (n =? 0)
  | None => false
  end.

(** [a || b] on optional numbers. *)
Definition jsOr (a b : option Z) : option Z :=
  if truthyNum a then a else b.

Definition truthyFlag (x : option bool) : bool :=
  match x with
  | Some b => b
  | None => false
  end.

(** What NetInfo reports; both fields are [boolean | null]. *)
Module NetInfo.
Record State : Type := mkState {
  isConnected : option bool;
  isInternetReachable : option bool
}.
End NetInfo.

Definition offline : NetInfo.State := NetInfo.mkState (Some false) (Some false).
Definition online : NetInfo.State := NetInfo.mkState (Some true) (Some true).

Definition Error : Type := string.

Inductive Result (A : Type) : Type :=
| Resolve (a : A)
| Reject (e : Error).
Arguments Resolve {A} a.
Arguments Reject {A} e.

(** ** The monad of asynchronous functions over a world [W] *)

Section AsyncMonad.
Context {W : Type}.

Definition Async (A : Type) : Type := W -> Result A * W.

Definition ret {A} (a : A) : Async A := fun w => (Resolve a, w).

Definition throw {A} (e : Error) : Async A := fun w => (Reject e, w).

Definition bind {A B} (m : Async A) (k : A -> Async B) : Async B :=
  fun w =>
    match m w with
    | (Resolve a, w') => k a w'
    | (Reject e, w') => (Reject e, w')
    end.

Definition tryCatch {A} (m : Async A) (handler : Error -> Async A) : Async A :=
  fun w =>
    match m w with
    | (Resolve a, w') => (Resolve a, w')
    | (Reject e, w') => handler e w'
    end.

Definition gets {A} (f : W -> A) : Async A := fun w => (Resolve (f w), w).

Definition modify (f : W -> W) : Async unit := fun w => (Resolve tt, f w).
End AsyncMonad.

Declare Scope async_scope.
Delimit Scope async_scope with async.
Notation "x <- m ;; k" := (bind m (fun x => k))
  (at level 100, m at next level, right associativity) : async_scope.
Notation "m ;;; k" := (bind m (fun _ => k))
  (at level 100, right associativity) : async_scope.

(** ** offlineCacheService *)

Module Cache.

(** The object [{ data, timestamp, expiryMs }] that [setCache] serialises. *)
Record CacheData : Type := mkCacheData {
  data : JSON;
  timestamp : Z;
  expiryMs : option Z
}.

(** [fetchFunction]: invoked at a time, it settles after some duration with
    a payload or a rejection. *)
Definition Fetcher : Type := Z -> Result JSON * Z.

(** A [refreshInBackground] call whose fetch has been issued and whose
    continuation has not run yet. *)
Record Refresh : Type := mkRefresh {
  refreshKey : string;
  refreshExpiry : option Z;
  refreshOutcome : Result JSON;
  refreshSettledAt : Z
}.

Record World : Type := mkWorld {
  storage : gmap string CacheData;   (* AsyncStorage *)
  clock : Z;                         (* Date.now() *)
  netInfo : NetInfo.State;           (* what NetInfo.fetch() resolves to *)
  isOnline : bool;                   (* this.isOnline *)
  fetchCalls : nat;                  (* invocations of a fetchFunction *)
  background : list Refresh;         (* refreshes still in flight *)
  syncAllCalls : nat                 (* invocations of this.syncAll() *)
}.

Definition setStorage (s : gmap string CacheData) (w : World) : World :=
  mkWorld s (clock w) (netInfo w) (isOnline w) (fetchCalls w)
          (background w) (syncAllCalls w).

Definition setIsOnline (b : bool) (w : World) : World :=
  mkWorld (storage w) (clock w) (netInfo w) b (fetchCalls w)
          (background w) (syncAllCalls w).

(** [state.isConnected && state.isInternetReachable !== false] *)
Definition onlineOf (s : NetInfo.State) : bool :=
  truthyFlag (NetInfo.isConnected s) &&
  match NetInfo.isInternetReachable s with
  | Some false => false
  | _ => true
  end.

Local Open Scope async_scope.

Definition checkOnline : Async (W := World) bool :=
  s <- gets netInfo ;;
  modify (setIsOnline (onlineOf s)) ;;;
  gets isOnline.

Definition setCache (key : string) (d : JSON) (expiry : option Z)
  : Async (W := World) unit :=
  now <- gets clock ;;
  modify (fun w => setStorage (<[key := mkCacheData d now expiry]> (storage w)) w).

(** [maxAge && age > maxAge] *)
Definition isExpired (maxAge : option Z) (age : Z) : bool :=
  match maxAge with
  | Some m => negb (m =? 0) && (age >? m)
  | None => false
  end.

Definition getCache (key : string) (expiry : option Z)
  : Async (W := World) JSON :=
  cachedJson <- gets (fun w => storage w !! key) ;;
  match cachedJson with
  | None => ret JNull
  | Some cached =>
      now <- gets clock ;;
      let age := now - timestamp cached in
      let maxAge := jsOr expiry (expiryMs cached) in
      if isExpired maxAge age then
        modify (fun w => setStorage (delete key (storage w)) w) ;;;
        ret JNull
      else ret (data cached)
  end.

(** Time passing between two calls. *)
Definition elapse (ms : Z) : Async (W := World) unit :=
  modify (fun w =>
    mkWorld (storage w) (clock w + ms) (netInfo w) (isOnline w)
            (fetchCalls w) (background w) (syncAllCalls w)).

Definition clearCache (key : string) : Async (W := World) unit :=
  modify (fun w => setStorage (delete key (storage w)) w).

(** [await fetchFunction()]: the call is counted and the clock moves to the
    moment the promise settles. *)
Definition awaitFetch (f : Fetcher) : Async (W := World) JSON :=
  fun w =>
    let '(r, d) := f (clock w) in
    (r, mkWorld (storage w) (clock w + d) (netInfo w) (isOnline w)
                (S (fetchCalls w)) (background w) (syncAllCalls w)).

(** [this.refreshInBackground(...)] without [await]: the body runs up to its
    first suspension, so [fetchFunction()] is invoked before the caller goes
    on; the rest of the body waits in [background]. *)
Definition refreshInBackground (key : string) (f : Fetcher) (expiry : option Z)
  : Async (W := World) unit :=
  modify (fun w =>
    let '(r, d) := f (clock w) in
    mkWorld (storage w) (clock w) (netInfo w) (isOnline w)
            (S (fetchCalls w))
            (background w ++ [mkRefresh key expiry r (clock w + d)])
            (syncAllCalls w)).

(** The continuation of one background refresh, once its fetch settled. *)
Definition settleRefresh (r : Refresh) : Async (W := World) unit :=
  modify (fun w =>
    mkWorld (storage w) (Z.max (clock w) (refreshSettledAt r)) (netInfo w)
            (isOnline w) (fetchCalls w) (background w) (syncAllCalls w)) ;;;
  match refreshOutcome r with
  | Resolve d => setCache (refreshKey r) d (refreshExpiry r)
  | Reject _ => ret tt
  end.

Definition fetchWithCache (cacheKey : string) (fetchFunction : Fetcher)
           (expiry : option Z) (forceRefresh : bool)
  : Async (W := World) JSON :=
  online <- checkOnline ;;
  if negb online then
    cachedData <- getCache cacheKey expiry ;;
    if truthy cachedData then ret cachedData
    else throw "No cached data available offline"%string
  else
    early <-
      (if negb forceRefresh then
         cachedData <- getCache cacheKey expiry ;;
         if truthy cachedData then
           refreshInBackground cacheKey fetchFunction expiry ;;;
           ret (Some cachedData)
         else ret None
       else ret None) ;;
    match early with
    | Some cachedData => ret cachedData
    | None =>
        tryCatch
          (d <- awaitFetch fetchFunction ;;
           setCache cacheKey d expiry ;;;
           ret d)
          (fun error =>
             cachedData <- getCache cacheKey None ;;
             if truthy cachedData then ret cachedData
             else throw error)
    end.

(** The NetInfo listener registered by [initialize]; listeners in
    [networkListeners] are callbacks of the UI and are not modelled.
    [this.syncAll()] is called without [await]: the listener returns once
    the call is issued, and the call is counted in [syncAllCalls].  What the
    call goes on to do after the listener has returned ([updateLastSync],
    which writes ['@cache_last_sync'] in a format of its own) is not part of
    this function and is not embedded: nothing is stated below about the
    store once a [syncAll] has been issued. *)
Definition networkListener (state : NetInfo.State) : Async (W := World) unit :=
  wasOffline <- gets (fun w => negb (isOnline w)) ;;
  modify (setIsOnline (onlineOf state)) ;;;
  nowOnline <- gets isOnline ;;
  if negb wasOffline && nowOnline then
    modify (fun w =>
      mkWorld (storage w) (clock w) (netInfo w) (isOnline w) (fetchCalls w)
              (background w) (S (syncAllCalls w)))
  else ret tt.

(** The service object as the module creates it: [isOnline: true]. *)
Definition initialWorld (now : Z) (net : NetInfo.State) : World :=
  mkWorld ∅ now net true 0 [] 0.

(** *** Notions and sample worlds used in the statements *)

(** A fetcher that always rejects and one that always resolves. *)
Definition rejecting (msg : Error) (took : Z) : Fetcher :=
  fun _ => (Reject msg, took).
Definition resolving (d : JSON) (took : Z) : Fetcher :=
  fun _ => (Resolve d, took).

(** A world whose store holds one entry, written at time 0 with a ttl of
    one second, read five seconds later. *)
Definition staleEntry : CacheData :=
  mkCacheData (JArr [JNum 1]) 0 (Some 1000).
Definition staleWorld (net : NetInfo.State) : World :=
  mkWorld {[ "farmers"%string := staleEntry ]} 5000 net true 0 [] 0.

(** The stale entry next to a second one that never expires. *)
Definition twoKeys (net : NetInfo.State) : World :=
  mkWorld (<[ "clusters"%string := mkCacheData (JArr []) 0 None ]>
             {[ "farmers"%string := staleEntry ]})
          5000 net true 0 [] 0.

Definition noCachedData : Error := "No cached data available offline"%string.

(** The world in which a second call is made: [setCache], then some time
    passes. *)
Definition afterSetCache (key : string) (v : JSON) (ttl : option Z)
           (elapsed : Z) (w : World) : World :=
  snd (elapse elapsed (snd (setCache key v ttl w))).

Definition freshWorld : World :=
  afterSetCache "farmers" (JArr [JNum 1]) (Some 1000) 0
                (mkWorld ∅ 0 online true 0 [] 0).

(** An entry written with a ttl of zero, read five thousand seconds later. *)
Definition zeroTtlWorld : World :=
  afterSetCache "farmers" (JArr [JNum 1]) (Some 0) 5000000
                (mkWorld ∅ 0 online true 0 [] 0).

(** A [getCache key expiry] made now would find the entry expired. *)
Definition expiredNow (key : string) (expiry : option Z) (w : World) : bool :=
  match storage w !! key with
  | Some cached =>
      isExpired (jsOr expiry (expiryMs cached)) (clock w - timestamp cached)
  | None => false
  end.

(** A [getCache key expiry] made now would return a truthy payload. *)
Definition freshHit (key : string) (expiry : option Z) (w : World) : bool :=
  match storage w !! key with
  | Some cached =>
      negb (isExpired (jsOr expiry (expiryMs cached)) (clock w - timestamp cached))
      && truthy (data cached)
  | None => false
  end.

End Cache.

(** ** offlineSyncService *)

Module Sync.

(** [status: 'pending'], and the other three the service writes:
    syncing, synced, failed. *)
Inductive Status : Type := Pending | Syncing | Synced | Failed.

#[global] Instance Status_eq_dec : EqDecision Status.
Proof. solve_decision. Defined.

(** An entry of the queue kept under [@offline_farms]. *)
Record OfflineFarm : Type := mkFarm {
  id : string;
  farmerId : string;
  farmData : JSON;
  farmer : JSON;
  timestamp : Z;
  status : Status;
  retryCount : Z;
  lastError : option string;
  lastAttempt : option Z
}.

(** What [syncSingleFarm] returns. *)
Record SyncResult : Type := mkResult {
  success : bool;
  farmId : string;
  error : option string
}.

Inductive Message : Type :=
| NoNetworkConnection            (* 'No network connection' *)
| NoFarmsToSync                  (* 'No farms to sync' *)
| FarmsSynced (syncedCount : nat). (* `${syncedCount} farms synced successfully` *)

(** What [syncAllFarms] returns. *)
Record Summary : Type := mkSummary {
  summarySuccess : bool;
  message : Message;
  synced : nat;
  failed : nat;
  pending : nat;
  results : option (list SyncResult)
}.

(** What an instrumented run observes of the remote writer and of the
    timer: a request issued at a time, a request settled at a time, a
    timer of [ms] milliseconds awaited. *)
Inductive Event : Type :=
| WriterCalled (time : Z) (farmerId : string) (farmData : JSON)
| WriterSettled (time : Z) (ok : bool)
| Delayed (ms : Z).

Record World (Api : Type) : Type := mkWorld {
  farms : list OfflineFarm;      (* AsyncStorage, @offline_farms *)
  lastSync : option Z;           (* AsyncStorage, @last_sync *)
  netInfo : NetInfo.State;       (* what NetInfo.fetch() resolves to *)
  clock : Z;                     (* Date.now() *)
  api : Api;                     (* state of the backend behind farmService *)
  trace : list Event
}.
Arguments mkWorld {Api}.
Arguments farms {Api}.
Arguments lastSync {Api}.
Arguments netInfo {Api}.
Arguments clock {Api}.
Arguments api {Api}.
Arguments trace {Api}.

Section Service.
Context {Api : Type}.

(** [farmService.createFarm(farmerId, farmData)]: the request settles,
    after some time, with an outcome (a rejection carries [error.message])
    and leaves the backend in a new state. *)
Variable createFarm : string -> JSON -> Api -> Result unit * Api * Z.

Local Open Scope async_scope.

Definition setFarms (fs : list OfflineFarm) (w : World Api) : World Api :=
  mkWorld fs (lastSync w) (netInfo w) (clock w) (api w) (trace w).

Definition emit (e : Event) (w : World Api) : World Api :=
  mkWorld (farms w) (lastSync w) (netInfo w) (clock w) (api w) (trace w ++ [e]).

Definition getOfflineFarms : Async (W := World Api) (list OfflineFarm) :=
  gets farms.

Definition isPendingOrFailed (f : OfflineFarm) : bool :=
  bool_decide (status f = Pending) || bool_decide (status f = Failed).

Definition getPendingCount : Async (W := World Api) nat :=
  fs <- getOfflineFarms ;;
  ret (length (List.filter isPendingOrFailed fs)).

Definition updateFarmStatus (offlineId : string) (st : Status)
           (err : option string) : Async (W := World Api) unit :=
  fs <- getOfflineFarms ;;
  now <- gets clock ;;
  let updatedFarms :=
    List.map (fun farm =>
      if String.eqb (id farm) offlineId then
        mkFarm (id farm) (farmerId farm) (farmData farm) (farmer farm)
               (timestamp farm) st
               (if bool_decide (st = Failed) then retryCount farm + 1
                else retryCount farm)
               err (Some now)
      else farm) fs in
  modify (setFarms updatedFarms).

Definition removeOfflineFarm (offlineId : string) : Async (W := World Api) unit :=
  fs <- getOfflineFarms ;;
  modify (setFarms (List.filter (fun farm => negb (String.eqb (id farm) offlineId)) fs)).

(** [netInfo.isConnected && netInfo.isInternetReachable], as a condition *)
Definition connectedOf (s : NetInfo.State) : bool :=
  truthyFlag (NetInfo.isConnected s) && truthyFlag (NetInfo.isInternetReachable s).

Definition isConnected : Async (W := World Api) bool :=
  s <- gets netInfo ;;
  ret (connectedOf s).

Definition isResolved {A : Type} (r : Result A) : bool :=
  match r with
  | Resolve _ => true
  | Reject _ => false
  end.

(** [await farmService.createFarm(...)], instrumented: the clock moves to
    the moment the request settles. *)
Definition awaitCreateFarm (fid : string) (fd : JSON) : Async (W := World Api) unit :=
  fun w =>
    let w1 := emit (WriterCalled (clock w) fid fd) w in
    let '(r, a, took) := createFarm fid fd (api w1) in
    let w2 := mkWorld (farms w1) (lastSync w1) (netInfo w1) (clock w1 + took) a
                      (trace w1) in
    (r, emit (WriterSettled (clock w2) (isResolved r)) w2).

Definition syncSingleFarm (offlineFarm : OfflineFarm)
  : Async (W := World Api) SyncResult :=
  tryCatch
    (updateFarmStatus (id offlineFarm) Syncing None ;;;
     awaitCreateFarm (farmerId offlineFarm) (farmData offlineFarm) ;;;
     updateFarmStatus (id offlineFarm) Synced None ;;;
     removeOfflineFarm (id offlineFarm) ;;;
     ret (mkResult true (id offlineFarm) None))
    (fun error =>
       updateFarmStatus (id offlineFarm) Failed (Some error) ;;;
       ret (mkResult false (id offlineFarm) (Some error))).

(** [await new Promise(resolve => setTimeout(resolve, ms))] *)
Definition sleep (ms : Z) : Async (W := World Api) unit :=
  modify (fun w =>
    mkWorld (farms w) (lastSync w) (netInfo w) (clock w + ms) (api w)
            (trace w ++ [Delayed ms])).

(** The [for (const farm of pendingFarms)] loop *)
Fixpoint syncEach (pendingFarms : list OfflineFarm)
  : Async (W := World Api) (list SyncResult) :=
  match pendingFarms with
  | [] => ret []
  | farm :: rest =>
      result <- syncSingleFarm farm ;;
      sleep 500 ;;;
      others <- syncEach rest ;;
      ret (result :: others)
  end.

(** [(f.status === 'pending' || f.status === 'failed') && f.retryCount < 5] *)
Definition isSelected (f : OfflineFarm) : bool :=
  isPendingOrFailed f && (retryCount f <? 5).

Definition syncAllFarms : Async (W := World Api) Summary :=
  connected <- isConnected ;;
  if negb connected then
    remaining <- getPendingCount ;;
    ret (mkSummary false NoNetworkConnection 0 0 remaining None)
  else
    fs <- getOfflineFarms ;;
    let pendingFarms := List.filter isSelected fs in
    if (length pendingFarms =? 0)%nat then
      ret (mkSummary true NoFarmsToSync 0 0 0 None)
    else
      rs <- syncEach pendingFarms ;;
      let syncedCount := length (List.filter success rs) in
      let failedCount := length (List.filter (fun r => negb (success r)) rs) in
      remainingPending <- getPendingCount ;;
      now <- gets clock ;;
      modify (fun w =>
        mkWorld (farms w) (Some now) (netInfo w) (clock w) (api w) (trace w)) ;;;
      ret (mkSummary (0 <? syncedCount)%nat (FarmsSynced syncedCount)
                     syncedCount failedCount remainingPending (Some rs)).

(** The listener of [setupNetworkListener]; [isFirstConnection] is the
    variable it closes over, returned with what is handed to [onSync]. *)
Definition networkListener (isFirstConnection : bool) (state : NetInfo.State)
  : Async (W := World Api) (bool * option Summary) :=
  if isFirstConnection then ret (false, None)
  else if connectedOf state then
    pendingCount <- getPendingCount ;;
    if (0 <? pendingCount)%nat then
      result <- syncAllFarms ;;
      ret (false, Some result)
    else ret (false, None)
  else ret (false, None).

(** NetInfo delivers a series of states to the listener: each becomes the
    current platform state, then the listener runs on it. *)
Fixpoint deliver (isFirstConnection : bool) (states : list NetInfo.State)
  : Async (W := World Api) (list (option Summary)) :=
  match states with
  | [] => ret []
  | state :: rest =>
      modify (fun w =>
        mkWorld (farms w) (lastSync w) state (clock w) (api w) (trace w)) ;;;
      r <- networkListener isFirstConnection state ;;
      others <- deliver (fst r) rest ;;
      ret (snd r :: others)
  end.

(** [setupNetworkListener]: the listener starts with
    [isFirstConnection = true]; run on the states NetInfo delivers. *)
Definition setupNetworkListener (states : list NetInfo.State)
  : Async (W := World Api) (list (option Summary)) :=
  deliver true states.

Definition retryFailedFarm (offlineId : string)
  : Async (W := World Api) SyncResult :=
  fs <- getOfflineFarms ;;
  match List.find (fun f => String.eqb (id f) offlineId) fs with
  | None => throw "Farm not found"%string
  | Some farm =>
      if negb (bool_decide (status farm = Failed)) then
        throw "Farm is not in failed state"%string
      else
        connected <- isConnected ;;
        if negb connected then throw "No network connection"%string
        else syncSingleFarm farm
  end.

(** [saveFarmOffline]; the fresh id is drawn by the caller. *)
Definition saveFarmOffline (offlineId fid : string) (fd fr : JSON)
  : Async (W := World Api) OfflineFarm :=
  now <- gets clock ;;
  let offlineFarm := mkFarm offlineId fid fd fr now Pending 0 None None in
  existingFarms <- getOfflineFarms ;;
  modify (setFarms (existingFarms ++ [offlineFarm])) ;;;
  ret offlineFarm.

End Service.

(** *** Notions used in the statements *)

Definition hasId (offlineId : string) (f : OfflineFarm) : bool :=
  String.eqb (id f) offlineId.

(** The queue entry with a given id, as [farms.find(f => f.id === id)]. *)
Definition findFarm (offlineId : string) (fs : list OfflineFarm)
  : option OfflineFarm :=
  List.find (hasId offlineId) fs.

(** A farm after a failed attempt made at time [now]. *)
Definition markFailed (msg : string) (now : Z) (farm : OfflineFarm) : OfflineFarm :=
  mkFarm (id farm) (farmerId farm) (farmData farm) (farmer farm)
         (timestamp farm) Failed (retryCount farm + 1) (Some msg) (Some now).

Definition onId (offlineId : string) (g : OfflineFarm -> OfflineFarm)
           (farm : OfflineFarm) : OfflineFarm :=
  if hasId offlineId farm then g farm else farm.

(** What the replay of farms one after the other, begun at time [now],
    adds to the trace, given what the writer answered to each and how long
    it took: the request, its settlement, a pause of 500 ms, and so on. *)
Fixpoint replayEvents (now : Z) (pendingFarms : list OfflineFarm)
         (outcomes : list (Result unit * Z)) : list Event :=
  match pendingFarms, outcomes with
  | farm :: rest, (r, took) :: outcomes' =>
      WriterCalled now (farmerId farm) (farmData farm)
        :: WriterSettled (now + took) (isResolved r)
        :: Delayed 500
        :: replayEvents (now + took + 500) rest outcomes'
  | _, _ => []
  end.

(** The time at which such a replay is over. *)
Fixpoint replayEnd (now : Z) (outcomes : list (Result unit * Z)) : Z :=
  match outcomes with
  | [] => now
  | (_, took) :: outcomes' => replayEnd (now + took + 500) outcomes'
  end.

(** The writer's invocations in a trace, in order. *)
Fixpoint writerCalls (t : list Event) : list (string * JSON) :=
  match t with
  | [] => []
  | WriterCalled _ fid fd :: t' => (fid, fd) :: writerCalls t'
  | _ :: t' => writerCalls t'
  end.

(** No writer invocation starts while another has not settled; [busy] tells
    whether one is in flight at the start of the trace. *)
Fixpoint oneAtATime (busy : bool) (t : list Event) : bool :=
  match t with
  | [] => true
  | WriterCalled _ _ _ :: t' => negb busy && oneAtATime true t'
  | WriterSettled _ _ :: t' => busy && oneAtATime false t'
  | Delayed _ :: t' => oneAtATime busy t'
  end.

(** Every settled invocation is followed by a timer of [ms], and by nothing
    else than the next invocation, issued [ms] after the settlement. *)
Fixpoint pausedAfterEach (ms : Z) (t : list Event) : bool :=
  match t with
  | [] => true
  | WriterSettled settled _ :: t' =>
      match t' with
      | Delayed d :: t'' =>
          (d =? ms)
          && match t'' with
             | [] => true
             | WriterCalled called _ _ :: _ => called =? settled + ms
             | _ :: _ => false
             end
          && pausedAfterEach ms t''
      | _ => false
      end
  | _ :: t' => pausedAfterEach ms t'
  end.

Definition countStatus (st : Status) (fs : list OfflineFarm) : nat :=
  length (List.filter (fun f => bool_decide (status f = st)) fs).

(** The number [getPendingCount] reads off the queue. *)
Definition pendingOrFailed {Api : Type} (w : World Api) : nat :=
  length (List.filter isPendingOrFailed (farms w)).

Section Passes.
Context {Api : Type}.
Variable createFarm : string -> JSON -> Api -> Result unit * Api * Z.

(** The writer rejects this farm whatever state the backend is in. *)
Definition alwaysRejected (farm : OfflineFarm) : Prop :=
  forall a, exists msg a' took,
    createFarm (farmerId farm) (farmData farm) a = (Reject msg, a', took).

(** The writer applied to the farms one after the other, each request
    reaching the backend as the one before left it: what it answers to each
    and how long it takes, and the backend at the end. *)
Fixpoint writeInOrder (pendingFarms : list OfflineFarm) (a : Api)
  : list (Result unit * Z) * Api :=
  match pendingFarms with
  | [] => ([], a)
  | farm :: rest =>
      let '(r, a', took) := createFarm (farmerId farm) (farmData farm) a in
      let '(outcomes, a'') := writeInOrder rest a' in
      ((r, took) :: outcomes, a'')
  end.

(** No request takes a negative time. *)
Definition takesTime : Prop :=
  forall fid fd a, 0 <= snd (createFarm fid fd a).

(** One automatic pass, and [n] of them in a row. *)
Definition pass (w : World Api) : World Api :=
  snd (syncAllFarms createFarm w).

Definition passes (n : nat) (w : World Api) : World Api :=
  Nat.iter n pass w.

End Passes.

(** *** Sample queues and writers *)

(** A writer that fails after 40 ms and one that succeeds after 30 ms. *)
Definition rejectAll : string -> JSON -> unit -> Result unit * unit * Z :=
  fun _ _ a => (Reject "Network request failed"%string, a, 40).

Definition acceptAll : string -> JSON -> unit -> Result unit * unit * Z :=
  fun _ _ a => (Resolve tt, a, 30).

Definition farm1 : OfflineFarm :=
  mkFarm "offline_1" "farmer-7" (JObj [("crop"%string, JStr "maize")]) JNull
         100 Pending 0 None None.

Definition farm2 : OfflineFarm :=
  mkFarm "offline_2" "farmer-9" (JObj [("crop"%string, JStr "rice")]) JNull
         200 Pending 0 None None.

(** A farm whose replay was interrupted: still marked as being synced. *)
Definition farm3 : OfflineFarm :=
  mkFarm "offline_3" "farmer-9" (JObj []) JNull 300 Syncing 0 None (Some 350).

(** A farm that used up its automatic retries. *)
Definition farm4 : OfflineFarm :=
  mkFarm "offline_4" "farmer-2" (JObj []) JNull 50 Failed 5
         (Some "Network request failed"%string) (Some 900).

Definition queue (fs : list OfflineFarm) (net : NetInfo.State) : World unit :=
  mkWorld fs None net 1000 tt [].

End Sync.

(** ** offlineCacheService: cache keys, typed helpers, subscribers *)

Module CacheHelpers.
Import Cache.
Local Open Scope async_scope.

(** [Object.values(CACHE_KEYS)] *)
Definition CACHE_KEYS : list string :=
  [ "@cache_farmers"; "@cache_farms_by_farmer"; "@cache_all_farms";
    "@cache_clusters"; "@cache_locations"; "@cache_user_profile";
    "@cache_last_sync"; "@cache_network_status" ]%string.

(** [CACHE_EXPIRY.FARMERS], [.CLUSTERS], [.LOCATIONS] *)
Definition EXPIRY_FARMERS : Z := 24 * 60 * 60 * 1000.
Definition EXPIRY_CLUSTERS : Z := 7 * 24 * 60 * 60 * 1000.
Definition EXPIRY_LOCATIONS : Z := 7 * 24 * 60 * 60 * 1000.

(** [AsyncStorage.multiRemove(keys)] *)
Definition clearAllCaches : Async (W := World) unit :=
  modify (fun w => setStorage (foldr delete (storage w) CACHE_KEYS) w).

Definition getCachedFarmers : Async (W := World) JSON :=
  getCache "@cache_farmers" (Some EXPIRY_FARMERS).

Definition cacheClusters (clusters : JSON) : Async (W := World) unit :=
  setCache "@cache_clusters" clusters (Some EXPIRY_CLUSTERS).

Definition getCachedClusters : Async (W := World) JSON :=
  getCache "@cache_clusters" (Some EXPIRY_CLUSTERS).

Definition cacheLocations (locations : JSON) : Async (W := World) unit :=
  setCache "@cache_locations" locations (Some EXPIRY_LOCATIONS).

Definition getCachedLocations : Async (W := World) JSON :=
  getCache "@cache_locations" (Some EXPIRY_LOCATIONS).

(** A subscriber of [onNetworkChange]: a function value, told apart by
    identity ([cb !== callback]). *)
Definition Callback : Type := nat.

(** [this.networkListeners.push(callback)] *)
Definition onNetworkChange (callback : Callback) (networkListeners : list Callback)
  : list Callback :=
  networkListeners ++ [callback].

(** The function [onNetworkChange] returns:
    [this.networkListeners.filter(cb => cb !== callback)] *)
Definition unsubscribe (callback : Callback) (networkListeners : list Callback)
  : list Callback :=
  List.filter (fun cb => negb (cb =? callback)%nat) networkListeners.

(** NetInfo reports a series of states to the listener of [initialize];
    the [syncAll] calls it issues are counted, what they do afterwards is
    left out (see [networkListener]). *)
Fixpoint deliverStates (states : list NetInfo.State) : Async (W := World) unit :=
  match states with
  | [] => ret tt
  | state :: rest => networkListener state ;;; deliverStates rest
  end.

(** Among the reported states, those that are online and follow an online
    one; [previous] is the flag before the first of them. *)
Fixpoint onlineAfterOnline (previous : bool) (states : list NetInfo.State) : nat :=
  match states with
  | [] => 0%nat
  | state :: rest =>
      ((if previous && onlineOf state then 1 else 0)
       + onlineAfterOnline (onlineOf state) rest)%nat
  end.

(** The platform's connectivity changes. *)
Definition setNetInfo (net : NetInfo.State) (w : World) : World :=
  mkWorld (storage w) (clock w) net (isOnline w) (fetchCalls w)
          (background w) (syncAllCalls w).

(** The value a [getCache] call made now would return. *)
Definition lookupValue (key : string) (expiry : option Z) (w : World) : JSON :=
  match fst (getCache key expiry w) with
  | Resolve v => v
  | Reject _ => JNull
  end.

(** The last part of [fetchWithCache], from "Fetch fresh data" on. *)
Definition fetchFresh (key : string) (f : Fetcher) (expiry : option Z)
  : Async (W := World) JSON :=
  tryCatch
    (d <- awaitFetch f ;;
     setCache key d expiry ;;;
     ret d)
    (fun error =>
       cachedData <- getCache key None ;;
       if truthy cachedData then ret cachedData
       else throw error).

(** The world once an awaited fetch has settled. *)
Definition fetchSettled (took : Z) (w : World) : World :=
  mkWorld (storage w) (clock w + took) (netInfo w) (isOnline w)
          (S (fetchCalls w)) (background w) (syncAllCalls w).

(** The key holds no entry, or one whose payload is falsy. *)
Definition nothingTruthy (key : string) (w : World) : bool :=
  match storage w !! key with
  | Some cached => negb (truthy (data cached))
  | None => true
  end.

(** [setCache], then time passes. *)
Definition setThenWait (key : string) (v : JSON) (ttl : option Z) (elapsed : Z)
           (w : World) : World :=
  snd (elapse elapsed (snd (setCache key v ttl w))).

End CacheHelpers.

(** ** Callers of the cache service: the farmer store and clusterService *)

Module Callers.
Import Cache CacheHelpers.
Local Open Scope async_scope.

(** [obj.name] on a parsed JSON value; [None] is [undefined]. *)
Fixpoint lookupField (name : string) (fields : list (string * JSON)) : option JSON :=
  match fields with
  | [] => None
  | (k, v) :: rest => if String.eqb k name then Some v else lookupField name rest
  end.

Definition field (name : string) (v : JSON) : option JSON :=
  match v with
  | JObj fields => lookupField name fields
  | _ => None
  end.

(** The body of the closure [fetchFarmers] hands to [fetchWithCache], after
    [farmerService.getFarmers(1, 1000)] has answered: the list is the
    response itself, or its [farmers], or its [data], or empty. *)
Definition extractFarmers (response : JSON) : list JSON :=
  if truthy response then
    match response with
    | JArr items => items
    | _ =>
        match field "farmers" response with
        | Some (JArr items) => items
        | _ =>
            match field "data" response with
            | Some (JArr items) => items
            | _ => []
            end
        end
    end
  else [].

(** [farmerService.getFarmers] or [clusterService.getClusters]: asked at a
    time, it answers after some duration or rejects. *)
Definition Remote : Type := Z -> Result JSON * Z.

Definition farmersClosure (getFarmers : Remote) : Fetcher :=
  fun t =>
    let '(r, d) := getFarmers t in
    (match r with
     | Resolve response => Resolve (JArr (extractFarmers response))
     | Reject e => Reject e
     end, d).

(** The state of [useFarmerStore] that [fetchFarmers] writes. *)
Record StoreState : Type := mkStore {
  farmers : JSON;
  loading : bool;
  error : option string;
  isOffline : bool
}.

Record StoreWorld : Type := mkStoreWorld {
  cache : Cache.World;
  store : StoreState;
  currentUser : bool          (* auth.currentUser is set *)
}.

Definition liftCache {A} (m : Async (W := Cache.World) A) : Async (W := StoreWorld) A :=
  fun w =>
    let '(r, c) := m (cache w) in
    (r, mkStoreWorld c (store w) (currentUser w)).

(** [set(partial)] merges the given fields into the state. *)
Definition set (f : StoreState -> StoreState) : Async (W := StoreWorld) unit :=
  modify (fun w => mkStoreWorld (cache w) (f (store w)) (currentUser w)).

(** The [catch] block of [fetchFarmers]. *)
Definition fetchFarmersCatch (err : Error) : Async (W := StoreWorld) JSON :=
  cachedFarmers <- liftCache getCachedFarmers ;;
  if truthy cachedFarmers then
    set (fun _ => mkStore cachedFarmers false (Some "Using offline data"%string) true) ;;;
    ret cachedFarmers
  else
    set (fun _ => mkStore (JArr []) false (Some err) true) ;;;
    throw err.

Definition fetchFarmers (getFarmers : Remote) (forceRefresh : bool)
  : Async (W := StoreWorld) JSON :=
  tryCatch
    (set (fun s => mkStore (farmers s) true None (isOffline s)) ;;;
     user <- gets currentUser ;;
     if negb user then throw "User not authenticated"%string
     else
       fetched <- liftCache (fetchWithCache "@cache_farmers" (farmersClosure getFarmers)
                                            (Some (24 * 60 * 60 * 1000)) forceRefresh) ;;
       online <- liftCache checkOnline ;;
       set (fun s => mkStore fetched false (error s) (negb online)) ;;;
       ret fetched)
    fetchFarmersCatch.

(** The closure [getClustersForDropdown] hands to [fetchWithCache]: it
    resolves to the array [data.clusters.map(...)] builds, or rejects;
    [formatted] stands for [getClusters] followed by that formatting. *)
Definition clustersClosure (formatted : Z -> Result (list JSON) * Z) : Fetcher :=
  fun t =>
    let '(r, d) := formatted t in
    (match r with
     | Resolve items => Resolve (JArr items)
     | Reject e => Reject e
     end, d).

Definition getClustersForDropdown (formatted : Z -> Result (list JSON) * Z)
           (forceRefresh : bool) : Async (W := Cache.World) JSON :=
  tryCatch
    (fetchWithCache "@cache_clusters_dropdown" (clustersClosure formatted)
                    (Some (7 * 24 * 60 * 60 * 1000)) forceRefresh)
    (fun err =>
       cached <- getCache "@cache_clusters_dropdown" None ;;
       if truthy cached then ret cached
       else throw (String.append "Failed to load clusters: " err)).

(** *** Sample worlds *)

Definition signedOut (c : Cache.World) : StoreWorld :=
  mkStoreWorld c (mkStore (JArr []) false None false) false.

Definition signedIn (c : Cache.World) : StoreWorld :=
  mkStoreWorld c (mkStore (JArr []) false None false) true.

Definition apiDown : Remote := fun _ => (Reject "Network request failed"%string, 20).

Definition apiAnswers (response : JSON) : Remote := fun _ => (Resolve response, 20).

End Callers.

(** ** offlineSyncService: the rest of the farm queue *)

Module SyncStatus.
(** What [getSyncStatus] returns. *)
Record t : Type := mk {
  connected : bool;
  lastSync : option Z;
  total : nat;
  pending : nat;
  syncing : nat;
  failed : nat;
  synced : nat;
  farms : list Sync.OfflineFarm
}.
End SyncStatus.

Module Queue.
Import Sync.
Local Open Scope async_scope.

Section Service.
Context {Api : Type}.
Variable createFarm : string -> JSON -> Api -> Result unit * Api * Z.

Definition clearSyncedFarms : Async (W := World Api) unit :=
  fs <- getOfflineFarms ;;
  modify (setFarms (List.filter (fun f => negb (bool_decide (status f = Synced))) fs)).

Definition getLastSyncTime : Async (W := World Api) (option Z) :=
  gets lastSync.

Definition getSyncStatus : Async (W := World Api) SyncStatus.t :=
  fs <- getOfflineFarms ;;
  last <- getLastSyncTime ;;
  connected <- isConnected ;;
  ret (SyncStatus.mk connected last (length fs)
         (countStatus Pending fs) (countStatus Syncing fs)
         (countStatus Failed fs) (countStatus Synced fs) fs).



(** The writer accepts every farm, whatever state the backend is in. *)
Definition alwaysAccepted : Prop :=
  forall fid fd a, exists a' took, createFarm fid fd a = (Resolve tt, a', took).

End Service.

(** The ids of the farms a pass selects. *)
Definition selectedIds (fs : list OfflineFarm) : list string :=
  List.map id (List.filter isSelected fs).

Definition inList (x : string) (l : list string) : bool :=
  List.existsb (String.eqb x) l.

(** The same entry, apart from what a replay writes on it. *)
Definition samePayload (f g : OfflineFarm) : Prop :=
  id f = id g /\ farmerId f = farmerId g /\ farmData f = farmData g
  /\ farmer f = farmer g /\ timestamp f = timestamp g.

(** Every entry of [after] is an entry of [before], untouched, or one of
    them marked failed with more retries. *)
Definition untouchedOrFailed (before after : list OfflineFarm) : Prop :=
  forall g, List.In g after ->
    List.In g before
    \/ (status g = Failed
        /\ exists f, List.In f before /\ samePayload f g
                     /\ retryCount f < retryCount g).

End Queue.

(** ** offlineSyncService: the queue of generic operations *)

Module Operations.
Local Open Scope async_scope.

(** An entry of the queue kept under [@offline_operations]. *)
Record Operation : Type := mkOperation {
  id : string;
  type : string;              (* 'create', 'update', 'delete' *)
  entityType : string;        (* 'farmer', 'farm' *)
  data : JSON;
  timestamp : Z;
  status : Sync.Status;
  retryCount : Z;
  lastError : option string;
  syncedAt : option Z
}.

Record World (Api : Type) : Type := mkWorld {
  queue : Sync.World Api;           (* the farm queue, the clock, the backend *)
  operations : list Operation       (* AsyncStorage, @offline_operations *)
}.
Arguments mkWorld {Api}.
Arguments queue {Api}.
Arguments operations {Api}.

Section Service.
Context {Api : Type}.
Variable createFarm : string -> JSON -> Api -> Result unit * Api * Z.

Definition liftQueue {A} (m : Async (W := Sync.World Api) A)
  : Async (W := World Api) A :=
  fun w =>
    let '(r, q) := m (queue w) in
    (r, mkWorld q (operations w)).

Definition setOperations (ops : list Operation) (w : World Api) : World Api :=
  mkWorld (queue w) ops.

Definition dateNow : Async (W := World Api) Z :=
  gets (fun w => Sync.clock (queue w)).

Definition getOfflineOperations : Async (W := World Api) (list Operation) :=
  gets operations.

(** [saveOfflineOperation]; the fresh id is drawn by the caller. *)
Definition saveOfflineOperation (opId type entityType : string) (data : JSON)
  : Async (W := World Api) Operation :=
  ops <- getOfflineOperations ;;
  now <- dateNow ;;
  let operation :=
    mkOperation opId type entityType data now Sync.Pending 0 None None in
  modify (setOperations (ops ++ [operation])) ;;;
  ret operation.

Definition isPending (op : Operation) : bool :=
  bool_decide (status op = Sync.Pending).

Definition getTotalPendingCount : Async (W := World Api) nat :=
  fs <- liftQueue Sync.getOfflineFarms ;;
  ops <- getOfflineOperations ;;
  let pendingFarms :=
    length (List.filter (fun f => bool_decide (Sync.status f = Sync.Pending)) fs) in
  let pendingOps := length (List.filter isPending ops) in
  ret (pendingFarms + pendingOps)%nat.

(** [op.status !== 'synced' ||
     Date.now() - new Date(op.syncedAt).getTime() < 24 * 60 * 60 * 1000];
    without [syncedAt] the difference is NaN and the comparison false. *)
Definition isKept (now : Z) (op : Operation) : bool :=
  negb (bool_decide (status op = Sync.Synced))
  || match syncedAt op with
     | Some t => now - t <? 24 * 60 * 60 * 1000
     | None => false
     end.

Definition markSynced (opId : string) (now : Z) (op : Operation) : Operation :=
  if String.eqb (id op) opId then
    mkOperation (id op) (type op) (entityType op) (data op) (timestamp op)
                Sync.Synced (retryCount op) (lastError op) (Some now)
  else op.

Definition markOperationFailed (opId : string) (msg : string) (op : Operation)
  : Operation :=
  if String.eqb (id op) opId then
    mkOperation (id op) (type op) (entityType op) (data op) (timestamp op)
                Sync.Failed (retryCount op + 1) (Some msg) (syncedAt op)
  else op.

Definition syncSingleOperation (operation : Operation) : Async (W := World Api) bool :=
  tryCatch
    (ops <- getOfflineOperations ;;
     now <- dateNow ;;
     let updated := List.map (markSynced (id operation) now) ops in
     modify (setOperations updated) ;;;
     now' <- dateNow ;;
     let cleaned := List.filter (isKept now') updated in
     (if negb (length cleaned =? length updated)%nat
      then modify (setOperations cleaned)
      else ret tt) ;;;
     ret true)
    (fun err =>
       ops <- getOfflineOperations ;;
       modify (setOperations (List.map (markOperationFailed (id operation) err) ops)) ;;;
       throw err).

(** The [for (const operation of pending)] loop with its two counters. *)
Fixpoint syncEachOperation (pending : list Operation) (synced failed : nat)
  : Async (W := World Api) (nat * nat) :=
  match pending with
  | [] => ret (synced, failed)
  | operation :: rest =>
      counts <- tryCatch
                  (syncSingleOperation operation ;;;
                   ret (S synced, failed))
                  (fun _ => ret (synced, S failed)) ;;
      syncEachOperation rest (fst counts) (snd counts)
  end.

Definition syncAllOperations : Async (W := World Api) (nat * nat) :=
  ops <- getOfflineOperations ;;
  let pending := List.filter isPending ops in
  if (length pending =? 0)%nat then ret (0%nat, 0%nat)
  else syncEachOperation pending 0 0.

Definition syncAll : Async (W := World Api) (Sync.Summary * (nat * nat)) :=
  farms <- liftQueue (Sync.syncAllFarms createFarm) ;;
  ops <- syncAllOperations ;;
  ret (farms, ops).

(** [clearAllOfflineData]: the four keys are removed ([@sync_status] is
    never written). *)
Definition clearAllOfflineData : Async (W := World Api) unit :=
  modify (fun w =>
    mkWorld (Sync.mkWorld [] None (Sync.netInfo (queue w)) (Sync.clock (queue w))
                          (Sync.api (queue w)) (Sync.trace (queue w)))
            []).

End Service.

(** *** Sample operations *)

Definition op1 : Operation :=
  mkOperation "op_1" "update" "farmer" (JObj []) 10 Sync.Pending 0 None None.

(** An operation synced two days before the clock of [Sync.queue]. *)
Definition op2 : Operation :=
  mkOperation "op_2" "delete" "farm" (JObj []) 5 Sync.Synced 0 None
              (Some (1000 - 2 * 24 * 60 * 60 * 1000)).

Definition opsWorld (fs : list Sync.OfflineFarm) (ops : list Operation)
  : World unit :=
  mkWorld (Sync.queue fs online) ops.

End Operations.

(** ** Properties of the cache service *)

Module CacheFacts.
Import Cache CacheHelpers.

Ltac unfold_async :=
  unfold fetchWithCache, checkOnline, getCache, setCache, refreshInBackground,
    awaitFetch, networkListener, settleRefresh, tryCatch, bind, gets,
    modify, ret, throw in *; simpl in *.

Lemma getCache_absent (w : World) key expiry :
  storage w !! key = None -> getCache key expiry w = (Resolve JNull, w).
Proof. intros H. unfold_async. by rewrite H. Qed.

Lemma getCache_present (w : World) key expiry cached :
  storage w !! key = Some cached ->
  getCache key expiry w =
    if isExpired (jsOr expiry (expiryMs cached)) (clock w - timestamp cached)
    then (Resolve JNull, setStorage (delete key (storage w)) w)
    else (Resolve (data cached), w).
Proof.
  intros H. unfold_async. rewrite H.
  by destruct (isExpired _ _).
Qed.

(** C9, as stated, fails: an entry stored with a ttl of zero is stored with
    a ttl, and for it [null || 0] is falsy: read with a null or zero
    override it is returned, and left in the store, however old it is. *)
Lemma zero_ttl_switches_expiry_off :
  storage zeroTtlWorld !! "farmers"%string
    = Some (mkCacheData (JArr [JNum 1]) 0 (Some 0))
  /\ clock zeroTtlWorld = 5000000
  /\ getCache "farmers" None zeroTtlWorld = (Resolve (JArr [JNum 1]), zeroTtlWorld)
  /\ getCache "farmers" (Some 0) zeroTtlWorld
       = (Resolve (JArr [JNum 1]), zeroTtlWorld).
Proof. vm_compute. repeat split. Qed.

(** C9, amended: [getCache] takes [expiryMs || cached.expiryMs] as the max
    age.  For an entry stored with a non-zero ttl a truthy override
    replaces the stored ttl, a null or zero override falls back to it, and
    in every case the max age is truthy: the entry is dropped as soon as its
    age exceeds it, so no override switches the expiry check off. *)
Theorem getCache_override_or_stored_ttl
  (w : World) (key : string) (cached : CacheData) (ttl : Z) (override : option Z) :
  storage w !! key = Some cached ->
  expiryMs cached = Some ttl ->
  ttl <> 0 ->
  let maxAge := jsOr override (expiryMs cached) in
  maxAge = (if truthyNum override then override else Some ttl)
  /\ truthyNum maxAge = true
  /\ getCache key override w =
       (if isExpired maxAge (clock w - timestamp cached)
        then (Resolve JNull, setStorage (delete key (storage w)) w)
        else (Resolve (data cached), w))
  /\ (truthyNum override = false ->
       getCache key override w =
         (if clock w - timestamp cached >? ttl
          then (Resolve JNull, setStorage (delete key (storage w)) w)
          else (Resolve (data cached), w))).
Proof.
  intros Hk Httl Hnz maxAge. subst maxAge.
  assert (Hstored : truthyNum (Some ttl) = true).
  { simpl. apply negb_true_iff, Z.eqb_neq, Hnz. }
  rewrite Httl. split; [| split; [| split]].
  - unfold jsOr. reflexivity.
  - unfold jsOr. destruct (truthyNum override) eqn:Hov; [by rewrite Hov | exact Hstored].
  - rewrite (getCache_present w key override cached Hk), Httl. reflexivity.
  - intros Hov.
    rewrite (getCache_present w key override cached Hk), Httl.
    unfold jsOr. rewrite Hov. unfold isExpired.
    simpl in Hstored. rewrite Hstored. reflexivity.
Qed.

Lemma getCache_override_or_stored_ttl_witness :
  getCache "farmers" None (staleWorld offline) =
    (Resolve JNull, setStorage (delete "farmers"%string (storage (staleWorld offline)))
                               (staleWorld offline)).
Proof.
  refine (proj2 (proj2 (proj2
    (getCache_override_or_stored_ttl (staleWorld offline) "farmers" staleEntry
       1000 None _ _ _))) _); [reflexivity | reflexivity | lia | reflexivity].
Defined.

(** *** Offline reads *)

(** C1, as stated, fails: offline, with an entry cached for the key whose
    ttl has run out, [fetchWithCache] rejects with the no-cached-data error
    (and the entry is gone afterwards). *)
Lemma offline_expired_entry_is_rejected :
  storage (staleWorld offline) !! "farmers"%string = Some staleEntry
  /\ onlineOf (netInfo (staleWorld offline)) = false
  /\ fst (fetchWithCache "farmers" (resolving (JArr []) 10) (Some 1000) false
                         (staleWorld offline))
     = Reject noCachedData
  /\ storage (snd (fetchWithCache "farmers" (resolving (JArr []) 10) (Some 1000)
                                  false (staleWorld offline)))
       !! "farmers"%string = None.
Proof. vm_compute. repeat split. Qed.

(** C1, amended: offline, [fetchWithCache] never invokes the fetch function;
    it returns a value [v] exactly when the entry of the key is present, is
    not expired under [expiryMs || cached.expiryMs] and holds the truthy
    payload [v]; in every other case it rejects, and the rejection is the
    no-cached-data error. *)
Theorem fetchWithCache_offline
  (w : World) (key : string) (f : Fetcher) (expiry : option Z) (force : bool) :
  onlineOf (netInfo w) = false ->
  let '(r, w') := fetchWithCache key f expiry force w in
  fetchCalls w' = fetchCalls w
  /\ background w' = background w
  /\ (forall v,
        r = Resolve v <->
        exists cached,
          storage w !! key = Some cached
          /\ isExpired (jsOr expiry (expiryMs cached))
                       (clock w - timestamp cached) = false
          /\ data cached = v
          /\ truthy v = true)
  /\ (forall e, r = Reject e -> e = noCachedData).
Proof.
  intros Hoff. unfold_async. rewrite Hoff. simpl. unfold noCachedData.
  destruct (storage w !! key) as [cached|] eqn:Hk; simpl;
    [destruct (isExpired _ _) eqn:Hexp; simpl;
     [| destruct (truthy (data cached)) eqn:Htr; simpl] |];
    (split; [reflexivity |]); (split; [reflexivity |]);
    (split; [intros v; split | intros e He; by simplify_eq]).
  all: try (intros He; discriminate He).
  - intros (c & Hc & Hfresh & _). simplify_eq. congruence.
  - intros He. simplify_eq. by exists cached.
  - intros (c & Hc & _ & Hv & _). by simplify_eq.
  - intros (c & Hc & _ & Hv & Hyes). simplify_eq. congruence.
  - intros (c & Hc & _). discriminate Hc.
Qed.

Lemma fetchWithCache_offline_witness :
  let '(r, w') := fetchWithCache "farmers" (resolving (JArr []) 10) None true
                                 (staleWorld offline) in
  fetchCalls w' = fetchCalls (staleWorld offline)
  /\ forall e, r = Reject e -> e = noCachedData.
Proof.
  pose proof (fetchWithCache_offline (staleWorld offline) "farmers"
                (resolving (JArr []) 10) None true eq_refl) as H.
  destruct (fetchWithCache "farmers" (resolving (JArr []) 10) None true
                           (staleWorld offline)) as [r w'].
  destruct H as (Hcalls & _ & _ & Hrej). split; [exact Hcalls | exact Hrej].
Defined.

(** *** Fallback after a failed fetch *)

(** C2 at its failing input: online, the fetch rejects, an entry past its
    ttl is in the store; the fallback lookup passes [null] to ignore the
    expiry, [getCache] falls back to the stored ttl, drops the entry, and
    the rejection reaches the caller. *)
Theorem fetch_failure_loses_expired_fallback :
  storage (staleWorld online) !! "farmers"%string = Some staleEntry
  /\ onlineOf (netInfo (staleWorld online)) = true
  /\ fst (fetchWithCache "farmers" (rejecting "Network request failed" 10)
                         (Some 1000) true (staleWorld online))
     = Reject "Network request failed"%string
  /\ fst (fetchWithCache "farmers" (rejecting "Network request failed" 10)
                         (Some 1000) false (staleWorld online))
     = Reject "Network request failed"%string
  /\ storage (snd (fetchWithCache "farmers" (rejecting "Network request failed" 10)
                                  (Some 1000) true (staleWorld online)))
       !! "farmers"%string = None.
Proof. vm_compute. repeat split. Qed.

(** *** Fresh hits *)

(** C6, as stated, fails: right after [setCache] with an unexpired ttl,
    online and without [forceRefresh], the cached value comes back, and the
    fetch function has been invoked once all the same. *)
Lemma fresh_hit_invokes_fetch :
  fst (fetchWithCache "farmers" (resolving (JArr []) 10) (Some 1000) false
                      freshWorld) = Resolve (JArr [JNum 1])
  /\ fetchCalls freshWorld = 0%nat
  /\ fetchCalls (snd (fetchWithCache "farmers" (resolving (JArr []) 10)
                                     (Some 1000) false freshWorld)) = 1%nat.
Proof. vm_compute. repeat split. Qed.

(** A call that passes a shorter ttl of its own finds the entry expired
    although the ttl it was stored with has not elapsed: the entry is
    dropped and the fetched payload comes back. *)
Lemma shorter_call_ttl_evicts_fresh_entry :
  let w1 := afterSetCache "farmers" (JArr [JNum 1]) (Some 1000) 500
                          (mkWorld ∅ 0 online true 0 [] 0) in
  fst (fetchWithCache "farmers" (resolving (JArr []) 10) (Some 100) false w1)
    = Resolve (JArr [])
  /\ fst (fetchWithCache "farmers" (rejecting "timeout" 10) (Some 100) false w1)
       = Reject "timeout"%string.
Proof. vm_compute. split; reflexivity. Qed.

(** C6, amended: after [setCache key v ttl], online and without
    [forceRefresh], a call whose effective max age (the ttl passed to
    [fetchWithCache] when it is truthy, or else the ttl given to
    [setCache]) is null, zero or not exceeded by the time elapsed returns a
    truthy [v] from the store, which is left as it is, and starts one
    background refresh: the fetch function is invoked once, its outcome
    waits in [background]. *)
Theorem fresh_hit_returns_cached_and_refreshes
  (w : World) (key : string) (v : JSON) (ttl callTtl : option Z) (elapsed : Z)
  (f : Fetcher) :
  onlineOf (netInfo w) = true ->
  truthy v = true ->
  (forall m, jsOr callTtl ttl = Some m -> m <> 0 -> elapsed <= m) ->
  let w1 := afterSetCache key v ttl elapsed w in
  let '(r, w2) := fetchWithCache key f callTtl false w1 in
  r = Resolve v
  /\ storage w2 = storage w1
  /\ fetchCalls w2 = S (fetchCalls w1)
  /\ background w2 =
       background w1 ++
         [mkRefresh key callTtl (fst (f (clock w1)))
                    (clock w1 + snd (f (clock w1)))].
Proof.
  intros Hon Hv Hmax.
  assert (Hfresh : isExpired (jsOr callTtl ttl) (clock w + elapsed - clock w) = false).
  { replace (clock w + elapsed - clock w) with elapsed by lia.
    destruct (jsOr callTtl ttl) as [m|] eqn:Hm; simpl; [| reflexivity].
    destruct (m =? 0) eqn:Hz; simpl; [reflexivity |].
    apply Z.eqb_neq in Hz. specialize (Hmax m eq_refl Hz).
    rewrite Z.gtb_ltb. by apply Z.ltb_ge. }
  unfold afterSetCache, elapse. unfold_async.
  rewrite Hon. simpl. rewrite lookup_insert_eq. simpl.
  rewrite Hfresh. simpl. rewrite Hv. simpl.
  destruct (f (clock w + elapsed)) as [r d]. simpl. done.
Qed.

Lemma fresh_hit_returns_cached_and_refreshes_witness :
  let w1 := afterSetCache "farmers" (JArr [JNum 1]) (Some 1000) 400
                          (mkWorld ∅ 0 online true 0 [] 0) in
  let '(r, w2) := fetchWithCache "farmers" (rejecting "timeout" 30) (Some 60000)
                                 false w1 in
  r = Resolve (JArr [JNum 1])
  /\ storage w2 = storage w1
  /\ fetchCalls w2 = S (fetchCalls w1)
  /\ background w2 =
       background w1 ++
         [mkRefresh "farmers" (Some 60000)
            (fst (rejecting "timeout" 30 (clock w1)))
            (clock w1 + snd (rejecting "timeout" 30 (clock w1)))].
Proof.
  refine (fresh_hit_returns_cached_and_refreshes
            (mkWorld ∅ 0 online true 0 [] 0) "farmers" (JArr [JNum 1])
            (Some 1000) (Some 60000) 400 (rejecting "timeout" 30)
            eq_refl eq_refl _).
  intros m Hm _. inversion Hm. lia.
Defined.

(** *** The stages of [fetchWithCache] *)

Lemma getCache_resolves (w : World) (key : string) (expiry : option Z) :
  getCache key expiry w = (Resolve (lookupValue key expiry w), snd (getCache key expiry w)).
Proof.
  unfold lookupValue, getCache, bind, gets, modify, ret. simpl.
  destruct (storage w !! key) as [cached|]; simpl; [| reflexivity].
  destruct (isExpired _ _); reflexivity.
Qed.

Lemma getCache_setIsOnline (w : World) (key : string) (expiry : option Z) (b : bool) :
  getCache key expiry (setIsOnline b w)
    = (Resolve (lookupValue key expiry w), setIsOnline b (snd (getCache key expiry w))).
Proof.
  unfold lookupValue, getCache, bind, gets, modify, ret. simpl.
  destruct (storage w !! key) as [cached|]; simpl; [| reflexivity].
  destruct (isExpired _ _); reflexivity.
Qed.

Lemma fetchWithCache_forced (w : World) (key : string) (f : Fetcher)
      (expiry : option Z) :
  onlineOf (netInfo w) = true ->
  fetchWithCache key f expiry true w = fetchFresh key f expiry (setIsOnline true w).
Proof.
  intros Hon. unfold fetchWithCache, checkOnline, fetchFresh.
  unfold bind at 1. unfold bind at 1. unfold bind at 1.
  unfold gets at 1. unfold modify at 1. unfold gets at 1. simpl.
  rewrite Hon. simpl. unfold bind at 1. unfold ret at 1. reflexivity.
Qed.

Lemma fetchWithCache_missed (w : World) (key : string) (f : Fetcher)
      (expiry : option Z) :
  onlineOf (netInfo w) = true ->
  truthy (lookupValue key expiry w) = false ->
  fetchWithCache key f expiry false w
    = fetchFresh key f expiry (setIsOnline true (snd (getCache key expiry w))).
Proof.
  intros Hon Hmiss. unfold fetchWithCache, checkOnline, fetchFresh.
  unfold bind at 1. unfold bind at 1. unfold bind at 1.
  unfold gets at 1. unfold modify at 1. unfold gets at 1. simpl.
  rewrite Hon. simpl. unfold bind at 1. unfold bind at 1.
  change {| storage := storage w; clock := clock w; netInfo := netInfo w;
            isOnline := true; fetchCalls := fetchCalls w;
            background := background w; syncAllCalls := syncAllCalls w |}
    with (setIsOnline true w).
  rewrite getCache_setIsOnline, Hmiss. reflexivity.
Qed.

Lemma fetchWithCache_hit (w : World) (key : string) (f : Fetcher)
      (expiry : option Z) :
  onlineOf (netInfo w) = true ->
  truthy (lookupValue key expiry w) = true ->
  fst (fetchWithCache key f expiry false w) = Resolve (lookupValue key expiry w).
Proof.
  intros Hon Hhit. unfold fetchWithCache, checkOnline.
  unfold bind at 1. unfold bind at 1. unfold bind at 1.
  unfold gets at 1. unfold modify at 1. unfold gets at 1. simpl.
  rewrite Hon. simpl. unfold bind at 1. unfold bind at 1.
  change {| storage := storage w; clock := clock w; netInfo := netInfo w;
            isOnline := true; fetchCalls := fetchCalls w;
            background := background w; syncAllCalls := syncAllCalls w |}
    with (setIsOnline true w).
  rewrite getCache_setIsOnline, Hhit. reflexivity.
Qed.

Lemma fetchWithCache_offline_run (w : World) (key : string) (f : Fetcher)
      (expiry : option Z) (force : bool) :
  onlineOf (netInfo w) = false ->
  fetchWithCache key f expiry force w =
    (if truthy (lookupValue key expiry w)
     then Resolve (lookupValue key expiry w)
     else Reject noCachedData,
     setIsOnline false (snd (getCache key expiry w))).
Proof.
  intros Hoff. unfold fetchWithCache, checkOnline.
  unfold bind at 1. unfold bind at 1. unfold bind at 1.
  unfold gets at 1. unfold modify at 1. unfold gets at 1. simpl.
  rewrite Hoff. simpl. unfold bind at 1.
  change {| storage := storage w; clock := clock w; netInfo := netInfo w;
            isOnline := false; fetchCalls := fetchCalls w;
            background := background w; syncAllCalls := syncAllCalls w |}
    with (setIsOnline false w).
  rewrite getCache_setIsOnline.
  by destruct (truthy (lookupValue key expiry w)).
Qed.

Lemma fetchFresh_resolved (w : World) (key : string) (f : Fetcher)
      (expiry : option Z) (d : JSON) (took : Z) :
  f (clock w) = (Resolve d, took) ->
  fetchFresh key f expiry w =
    (Resolve d,
     setStorage (<[key := mkCacheData d (clock w + took) expiry]> (storage w))
                (fetchSettled took w)).
Proof.
  intros Hf. unfold fetchFresh, tryCatch, awaitFetch, setCache, bind, gets,
    modify, ret. cbv beta. rewrite Hf. reflexivity.
Qed.

Lemma fetchFresh_rejected (w : World) (key : string) (f : Fetcher)
      (expiry : option Z) (e : Error) (took : Z) :
  f (clock w) = (Reject e, took) ->
  fetchFresh key f expiry w =
    (if truthy (lookupValue key None (fetchSettled took w))
     then Resolve (lookupValue key None (fetchSettled took w))
     else Reject e,
     snd (getCache key None (fetchSettled took w))).
Proof.
  intros Hf. unfold fetchFresh, tryCatch, awaitFetch.
  unfold bind at 1. cbv beta. rewrite Hf.
  unfold bind at 1. fold (fetchSettled took w).
  rewrite getCache_resolves. simpl.
  by destruct (truthy (lookupValue key None (fetchSettled took w))).
Qed.

Lemma getCache_world (w : World) (key : string) (expiry : option Z) :
  snd (getCache key expiry w) = w
  \/ snd (getCache key expiry w) = setStorage (delete key (storage w)) w.
Proof.
  unfold getCache, bind, gets, modify, ret. simpl.
  destruct (storage w !! key) as [cached|]; simpl; [| by left].
  destruct (isExpired _ _); simpl; [by right | by left].
Qed.

Lemma getCache_clock (w : World) (key : string) (expiry : option Z) :
  clock (snd (getCache key expiry w)) = clock w
  /\ fetchCalls (snd (getCache key expiry w)) = fetchCalls w
  /\ background (snd (getCache key expiry w)) = background w.
Proof. destruct (getCache_world w key expiry) as [-> | ->]; done. Qed.

Lemma lookupValue_present (w : World) (key : string) (expiry : option Z)
      (cached : CacheData) :
  storage w !! key = Some cached ->
  lookupValue key expiry w =
    if isExpired (jsOr expiry (expiryMs cached)) (clock w - timestamp cached)
    then JNull else data cached.
Proof.
  intros Hk. unfold lookupValue. rewrite (getCache_present w key expiry cached Hk).
  by destruct (isExpired _ _).
Qed.

Lemma lookupValue_absent (w : World) (key : string) (expiry : option Z) :
  storage w !! key = None -> lookupValue key expiry w = JNull.
Proof. intros Hk. unfold lookupValue. by rewrite (getCache_absent w key expiry Hk). Qed.

Lemma freshHit_lookupValue (w : World) (key : string) (expiry : option Z) :
  freshHit key expiry w = truthy (lookupValue key expiry w).
Proof.
  unfold freshHit. destruct (storage w !! key) as [cached|] eqn:Hk.
  - rewrite (lookupValue_present w key expiry cached Hk).
    by destruct (isExpired _ _).
  - by rewrite (lookupValue_absent w key expiry Hk).
Qed.

Lemma getCache_storage_key (w : World) (key : string) (expiry : option Z) :
  storage (snd (getCache key expiry w)) !! key
    = if expiredNow key expiry w then None else storage w !! key.
Proof.
  unfold expiredNow. destruct (storage w !! key) as [cached|] eqn:Hk.
  - rewrite (getCache_present w key expiry cached Hk).
    destruct (isExpired _ _); simpl; [apply lookup_delete_eq | exact Hk].
  - by rewrite (getCache_absent w key expiry Hk).
Qed.

Lemma fetchWithCache_hit_storage (w : World) (key : string) (f : Fetcher)
      (expiry : option Z) :
  onlineOf (netInfo w) = true ->
  freshHit key expiry w = true ->
  storage (snd (fetchWithCache key f expiry false w)) = storage w.
Proof.
  intros Hon Hhit.
  assert (Hsame : snd (getCache key expiry w) = w).
  { unfold freshHit in Hhit. destruct (storage w !! key) as [cached|] eqn:Hk;
      [| discriminate Hhit].
    apply andb_true_iff in Hhit as [Hfresh _]. apply negb_true_iff in Hfresh.
    by rewrite (getCache_present w key expiry cached Hk), Hfresh. }
  rewrite freshHit_lookupValue in Hhit.
  unfold fetchWithCache, checkOnline.
  unfold bind at 1. unfold bind at 1. unfold bind at 1.
  unfold gets at 1. unfold modify at 1. unfold gets at 1. simpl.
  rewrite Hon. simpl. unfold bind at 1. unfold bind at 1.
  change {| storage := storage w; clock := clock w; netInfo := netInfo w;
            isOnline := true; fetchCalls := fetchCalls w;
            background := background w; syncAllCalls := syncAllCalls w |}
    with (setIsOnline true w).
  rewrite getCache_setIsOnline, Hhit, Hsame.
  unfold bind, refreshInBackground, modify, ret. simpl.
  by destruct (f (clock w)).
Qed.

(** Online, when the fetch is reached: the world in which it is issued. *)
Lemma fetchWithCache_reached (w : World) (key : string) (f : Fetcher)
      (expiry : option Z) (force : bool) :
  onlineOf (netInfo w) = true ->
  force = true \/ freshHit key expiry w = false ->
  exists w0,
    fetchWithCache key f expiry force w = fetchFresh key f expiry w0
    /\ clock w0 = clock w
    /\ storage w0 !! key
         = if negb force && expiredNow key expiry w then None else storage w !! key.
Proof.
  intros Hon Hreached. destruct force.
  - exists (setIsOnline true w).
    by rewrite (fetchWithCache_forced w key f expiry Hon).
  - destruct Hreached as [Hforce | Hmiss]; [discriminate Hforce |].
    rewrite freshHit_lookupValue in Hmiss.
    exists (setIsOnline true (snd (getCache key expiry w))).
    rewrite (fetchWithCache_missed w key f expiry Hon Hmiss).
    split; [reflexivity |].
    split; [exact (proj1 (getCache_clock w key expiry)) |].
    cbn [negb andb setIsOnline storage]. apply getCache_storage_key.
Qed.

(** *** What [fetchWithCache] does to the store *)

(** C5, as stated, fails: the entry for the key was in the store before the
    call and is not there after it, offline as well as online. *)
Lemma fetchWithCache_deletes_expired_entry :
  is_Some (storage (staleWorld offline) !! "farmers"%string)
  /\ storage (snd (fetchWithCache "farmers" (resolving JNull 10) None false
                                  (staleWorld offline)))
       !! "farmers"%string = None
  /\ storage (snd (fetchWithCache "farmers" (rejecting "timeout" 10) None false
                                  (staleWorld online)))
       !! "farmers"%string = None.
Proof. split; [by eexists | vm_compute; split; reflexivity]. Qed.

Lemma settleRefresh_keeps_entries (rf : Refresh) (w : World) (k : string) :
  is_Some (storage w !! k) ->
  is_Some (storage (snd (settleRefresh rf w)) !! k).
Proof.
  intros Hk. unfold_async. destruct (refreshOutcome rf); simpl; [| done].
  destruct (decide (refreshKey rf = k)) as [->|Hne].
  - rewrite lookup_insert_eq. by eexists.
  - by rewrite lookup_insert_ne.
Qed.

(** C5, amended: [fetchWithCache] leaves the entries of all other keys as
    they are.  The entry of the key itself: offline, the lookup removes it
    when it finds it expired under [expiryMs || cached.expiryMs] and leaves
    it as it is otherwise; online on a cache hit it is left as it is; online
    when the fetch is reached and resolves, it is the fetched payload,
    stamped with the time the fetch settled and the ttl passed, whatever was
    there before; when the fetch rejects nothing is written: an entry the
    first lookup found expired is gone, an entry that lookup did not remove
    and that is within its own stored ttl when the fetch settles is left as
    it is, and any entry there afterwards is the one from before.  The
    continuation of a background refresh removes nothing. *)
Theorem fetchWithCache_storage_frame
  (w : World) (key : string) (f : Fetcher) (expiry : option Z) (force : bool) :
  let '(r, w') := fetchWithCache key f expiry force w in
  (forall k, k <> key -> storage w' !! k = storage w !! k)
  /\ (onlineOf (netInfo w) = false ->
      storage w' !! key
        = if expiredNow key expiry w then None else storage w !! key)
  /\ (onlineOf (netInfo w) = true -> force = false ->
      freshHit key expiry w = true ->
      storage w' !! key = storage w !! key)
  /\ (onlineOf (netInfo w) = true ->
      force = true \/ freshHit key expiry w = false ->
      match f (clock w) with
      | (Resolve d, took) =>
          r = Resolve d
          /\ storage w' !! key = Some (mkCacheData d (clock w + took) expiry)
      | (Reject e, took) =>
          (force = false -> expiredNow key expiry w = true ->
           storage w' !! key = None)
          /\ (forall cached,
                storage w !! key = Some cached ->
                force = true \/ expiredNow key expiry w = false ->
                isExpired (expiryMs cached) (clock w + took - timestamp cached)
                  = false ->
                storage w' !! key = Some cached)
          /\ (forall cached,
                storage w' !! key = Some cached ->
                storage w !! key = Some cached)
      end)
  /\ (forall rf k,
        is_Some (storage w' !! k) ->
        is_Some (storage (snd (settleRefresh rf w')) !! k)).
Proof.
  destruct (fetchWithCache key f expiry force w) as [r w'] eqn:Hrun.
  assert (Hr : r = fst (fetchWithCache key f expiry force w)) by (by rewrite Hrun).
  assert (Hw : w' = snd (fetchWithCache key f expiry force w)) by (by rewrite Hrun).
  clear Hrun. subst r w'.
  split; [| split; [| split; [| split]]];
    [| | | | intros rf k; apply settleRefresh_keeps_entries].
  - intros k Hne. unfold_async.
    repeat (case_match; simpl in *; simplify_eq);
      repeat (rewrite ?lookup_insert_ne, ?lookup_delete_ne by done; simpl);
      done.
  - intros Hoff. rewrite (fetchWithCache_offline_run w key f expiry force Hoff).
    cbn [snd setIsOnline storage]. apply getCache_storage_key.
  - intros Hon -> Hhit. by rewrite (fetchWithCache_hit_storage w key f expiry Hon Hhit).
  - intros Hon Hreached.
    destruct (fetchWithCache_reached w key f expiry force Hon Hreached)
      as (w0 & -> & Hclock & Hkey).
    destruct (f (clock w)) as [[d|e] took] eqn:Hf.
    + rewrite (fetchFresh_resolved w0 key f expiry d took) by (by rewrite Hclock).
      cbn [fst snd setStorage storage]. rewrite Hclock.
      split; [reflexivity | apply lookup_insert_eq].
    + rewrite (fetchFresh_rejected w0 key f expiry e took) by (by rewrite Hclock).
      cbn [snd]. rewrite getCache_storage_key.
      assert (Hexp : expiredNow key None (fetchSettled took w0)
                     = match storage w0 !! key with
                       | Some c => isExpired (expiryMs c) (clock w + took - timestamp c)
                       | None => false
                       end).
      { unfold expiredNow. cbn [fetchSettled storage clock]. by rewrite Hclock. }
      assert (Hst : storage (fetchSettled took w0) = storage w0) by reflexivity.
      rewrite Hexp, Hst, Hkey. clear Hexp Hst Hkey.
      split; [| split].
      * intros -> ->. reflexivity.
      * intros cached Hk Hkept Hfresh.
        assert (Hnot : negb force && expiredNow key expiry w = false).
        { destruct Hkept as [-> | ->]; [reflexivity | apply andb_false_r]. }
        by rewrite Hnot, Hk, Hfresh.
      * intros cached.
        destruct (negb force && expiredNow key expiry w); [discriminate |].
        destruct (storage w !! key) as [c|]; [| discriminate].
        by destruct (isExpired _ _).
Qed.

Lemma fetchWithCache_storage_frame_witness :
  storage (snd (fetchWithCache "farmers" (rejecting "timeout" 10) None false
                               (twoKeys offline)))
    !! "clusters"%string
  = storage (twoKeys offline) !! "clusters"%string.
Proof.
  pose proof (fetchWithCache_storage_frame (twoKeys offline) "farmers"
                (rejecting "timeout" 10) None false) as H.
  destruct (fetchWithCache "farmers" (rejecting "timeout" 10) None false
                           (twoKeys offline)) as [r w'].
  destruct H as (Hothers & _). simpl. apply Hothers. discriminate.
Defined.

End CacheFacts.

(** ** Properties of the sync queue *)

Module SyncFacts.
Import Sync.

Section Facts.
Context {Api : Type}.
Variable createFarm : string -> JSON -> Api -> Result unit * Api * Z.

Local Abbreviation alwaysRejected := (Sync.alwaysRejected createFarm).
Local Abbreviation pass := (Sync.pass createFarm).
Local Abbreviation passes := (Sync.passes createFarm).

Ltac unfold_sync :=
  unfold syncSingleFarm, awaitCreateFarm, updateFarmStatus, removeOfflineFarm,
    getPendingCount, getOfflineFarms, isConnected, sleep, emit, setFarms,
    tryCatch, bind, gets, modify, ret, throw in *; simpl in *.

Lemma syncSingleFarm_rejected (w : World Api) (farm : OfflineFarm) msg a took :
  createFarm (farmerId farm) (farmData farm) (api w) = (Reject msg, a, took) ->
  syncSingleFarm createFarm farm w =
    (Resolve (mkResult false (id farm) (Some msg)),
     mkWorld (List.map (onId (id farm) (markFailed msg (clock w + took))) (farms w))
             (lastSync w) (netInfo w) (clock w + took) a
             (trace w ++ [WriterCalled (clock w) (farmerId farm) (farmData farm);
                          WriterSettled (clock w + took) false])).
Proof.
  intros Hc. unfold_sync. rewrite Hc. simpl.
  rewrite <- app_assoc. simpl. f_equal. f_equal.
  rewrite List.map_map. apply List.map_ext. intros f.
  unfold onId, hasId, markFailed. simpl.
  destruct (String.eqb (id f) (id farm)) eqn:E; simpl; [by rewrite E | by rewrite E].
Qed.

Lemma syncSingleFarm_resolved (w : World Api) (farm : OfflineFarm) a took :
  createFarm (farmerId farm) (farmData farm) (api w) = (Resolve tt, a, took) ->
  syncSingleFarm createFarm farm w =
    (Resolve (mkResult true (id farm) None),
     mkWorld (List.filter (fun f => negb (hasId (id farm) f)) (farms w))
             (lastSync w) (netInfo w) (clock w + took) a
             (trace w ++ [WriterCalled (clock w) (farmerId farm) (farmData farm);
                          WriterSettled (clock w + took) true])).
Proof.
  intros Hc. unfold_sync. rewrite Hc. simpl.
  rewrite <- app_assoc. simpl. f_equal. f_equal.
  generalize (farms w) as fs. induction fs as [|f fs IH]; simpl; [done |].
  unfold hasId in *.
  destruct (String.eqb (id f) (id farm)) eqn:E; simpl; rewrite ?E; simpl;
    rewrite ?E; simpl; [exact IH | by rewrite IH].
Qed.

(** One replay, whatever the writer answers: the request goes to the
    backend as it is, and the clock stops where the request settles. *)
Lemma syncSingleFarm_runs (w : World Api) (farm : OfflineFarm) :
  exists r a took err fs,
    createFarm (farmerId farm) (farmData farm) (api w) = (r, a, took)
    /\ syncSingleFarm createFarm farm w =
         (Resolve (mkResult (isResolved r) (id farm) err),
          mkWorld fs (lastSync w) (netInfo w) (clock w + took) a
                  (trace w ++ [WriterCalled (clock w) (farmerId farm) (farmData farm);
                               WriterSettled (clock w + took) (isResolved r)])).
Proof.
  destruct (createFarm (farmerId farm) (farmData farm) (api w))
    as [[[[]|msg] a] took] eqn:Hc.
  - rewrite (syncSingleFarm_resolved w farm a took Hc). by eexists _, _, _, _, _.
  - rewrite (syncSingleFarm_rejected w farm msg a took Hc). by eexists _, _, _, _, _.
Qed.

(** The loop against the writer applied in order: same answers, same
    backend at the end, and a trace and a clock made of the requests and of
    the pauses, nothing else. *)
Lemma syncEach_run (pendingFarms : list OfflineFarm) :
  forall w : World Api,
  exists rs w',
    syncEach createFarm pendingFarms w = (Resolve rs, w')
    /\ List.map success rs
         = List.map (fun o => isResolved (fst o))
                    (fst (writeInOrder createFarm pendingFarms (api w)))
    /\ List.map farmId rs = List.map id pendingFarms
    /\ api w' = snd (writeInOrder createFarm pendingFarms (api w))
    /\ clock w' = replayEnd (clock w) (fst (writeInOrder createFarm pendingFarms (api w)))
    /\ trace w' =
         trace w ++ replayEvents (clock w) pendingFarms
                      (fst (writeInOrder createFarm pendingFarms (api w)))
    /\ netInfo w' = netInfo w
    /\ lastSync w' = lastSync w.
Proof.
  induction pendingFarms as [|farm rest IH]; intros w.
  - exists [], w. simpl. unfold ret. rewrite app_nil_r. by repeat split.
  - cbn [syncEach writeInOrder].
    destruct (syncSingleFarm_runs w farm) as (r & a & took & err & fs & Hc & Hrun).
    unfold bind at 1. rewrite Hrun.
    unfold bind at 1. unfold sleep, modify at 1. cbv beta iota.
    unfold bind at 1. rewrite Hc.
    match goal with |- context [syncEach createFarm rest ?w1] =>
      destruct (IH w1) as (rs & w' & Hrest & Hok & Hids & Hapi & Hclock & Htr
                           & Hnet & Hlast) end.
    rewrite Hrest. unfold ret. cbn [api clock trace netInfo lastSync] in *.
    destruct (writeInOrder createFarm rest a) as [outcomes a''] eqn:Hrestw.
    cbn [fst snd] in *.
    eexists _, _. split; [reflexivity |].
    cbn [List.map success farmId fst replayEnd replayEvents].
    split; [by rewrite Hok |]. split; [by rewrite Hids |].
    split; [exact Hapi |]. split; [exact Hclock |].
    split; [| split; [exact Hnet | exact Hlast]].
    rewrite Htr. rewrite <- !app_assoc. reflexivity.
Qed.

Lemma writeInOrder_length (pendingFarms : list OfflineFarm) :
  forall a : Api,
  length (fst (writeInOrder createFarm pendingFarms a)) = length pendingFarms.
Proof.
  induction pendingFarms as [|farm rest IH]; intros a; [reflexivity |].
  cbn [writeInOrder].
  destruct (createFarm (farmerId farm) (farmData farm) a) as [[r a'] took].
  specialize (IH a'). destruct (writeInOrder createFarm rest a') as [outcomes a''].
  simpl in *. by rewrite IH.
Qed.

Lemma replayEvents_calls (pendingFarms : list OfflineFarm) :
  forall now outcomes, length outcomes = length pendingFarms ->
  writerCalls (replayEvents now pendingFarms outcomes) =
    List.map (fun f => (farmerId f, farmData f)) pendingFarms.
Proof.
  induction pendingFarms as [|farm rest IH]; intros now [|[r took] outcomes] Hlen;
    simpl in *; try lia; [reflexivity |].
  f_equal. apply IH. lia.
Qed.

Lemma replayEvents_oneAtATime (pendingFarms : list OfflineFarm) :
  forall now outcomes,
  oneAtATime false (replayEvents now pendingFarms outcomes) = true.
Proof.
  induction pendingFarms as [|farm rest IH]; intros now [|[r took] outcomes];
    simpl; auto.
Qed.

Lemma replayEvents_paused (pendingFarms : list OfflineFarm) :
  forall now outcomes,
  pausedAfterEach 500 (replayEvents now pendingFarms outcomes) = true.
Proof.
  induction pendingFarms as [|farm rest IH]; intros now [|[r took] outcomes];
    try reflexivity.
  cbn [replayEvents pausedAfterEach]. rewrite IH, Z.eqb_refl.
  destruct rest as [|next rest']; [reflexivity |].
  destruct outcomes as [|[r' took'] outcomes']; [reflexivity |].
  cbn [replayEvents]. by rewrite Z.eqb_refl.
Qed.

Lemma filter_length_map {A : Type} (p : A -> bool) (l : list A) :
  length (List.filter p l) = length (List.filter (fun b : bool => b) (List.map p l)).
Proof.
  induction l as [|x l IH]; simpl; [reflexivity |].
  destruct (p x); simpl; by rewrite IH.
Qed.

(** The counters of a summary, read off any two lists that agree on who
    succeeded. *)
Lemma same_successes {A B : Type} (p : A -> bool) (q : B -> bool)
      (l : list A) (m : list B) :
  List.map p l = List.map q m ->
  length (List.filter p l) = length (List.filter q m)
  /\ length (List.filter (fun x => negb (p x)) l)
     = length (List.filter (fun y => negb (q y)) m).
Proof.
  intros Hsame. split.
  - by rewrite (filter_length_map p), (filter_length_map q), Hsame.
  - rewrite (filter_length_map (fun x => negb (p x))),
      (filter_length_map (fun y => negb (q y))).
    rewrite <- (List.map_map p negb), <- (List.map_map q negb). by rewrite Hsame.
Qed.

(** An online pass with its summary, against the writer applied in order. *)
Lemma syncAllFarms_online_run (w : World Api) :
  connectedOf (netInfo w) = true ->
  let pendingFarms := List.filter isSelected (farms w) in
  let outcomes := fst (writeInOrder createFarm pendingFarms (api w)) in
  exists (summary : Summary) (w' : World Api),
    syncAllFarms createFarm w = (Resolve summary, w')
    /\ api w' = snd (writeInOrder createFarm pendingFarms (api w))
    /\ synced summary = length (List.filter (fun o => isResolved (fst o)) outcomes)
    /\ failed summary
       = length (List.filter (fun o => negb (isResolved (fst o))) outcomes)
    /\ clock w' = replayEnd (clock w) outcomes
    /\ trace w' = trace w ++ replayEvents (clock w) pendingFarms outcomes
    /\ (pendingFarms <> [] -> lastSync w' = Some (clock w')).
Proof.
  intros Hon pendingFarms outcomes. subst outcomes.
  unfold syncAllFarms, isConnected.
  unfold bind at 1. unfold bind at 1. unfold gets at 1. unfold ret at 1.
  rewrite Hon. simpl.
  unfold bind at 1. unfold getOfflineFarms, gets at 1.
  fold pendingFarms.
  destruct (length pendingFarms =? 0)%nat eqn:Hzero.
  - apply Nat.eqb_eq in Hzero.
    assert (Hnil : pendingFarms = []) by (by destruct pendingFarms).
    exists (mkSummary true NoFarmsToSync 0 0 0 None), w.
    rewrite Hnil. simpl. rewrite app_nil_r. by repeat split.
  - destruct (syncEach_run pendingFarms w)
      as (rs & w1 & Hrun & Hok & _ & Hapi & Hclock & Htr & _).
    unfold bind at 1. rewrite Hrun.
    unfold getPendingCount, getOfflineFarms, bind, gets, modify, ret. simpl.
    destruct (same_successes success (fun o => isResolved (fst o)) rs _ Hok)
      as [Hsynced Hfailed].
    eexists _, _. split; [reflexivity |]. simpl.
    split; [exact Hapi |]. split; [exact Hsynced |]. split; [exact Hfailed |].
    split; [exact Hclock |]. split; [exact Htr | reflexivity].
Qed.

(** C7: online, one [syncAllFarms] call replays the selected farms (status
    pending or failed, fewer than 5 retries) in queue order against the
    writer: each farm's request is issued once, to the backend as the
    request before left it, and the pass reports what the writer answered;
    the next request is issued 500 ms after the one before has settled, and
    the pass ends 500 ms after the last has.  So the writer is invoked
    exactly once per selected farm, and no two requests are in flight
    together. *)
Theorem syncAllFarms_replays_sequentially (w : World Api) :
  connectedOf (netInfo w) = true ->
  let pendingFarms := List.filter isSelected (farms w) in
  let outcomes := fst (writeInOrder createFarm pendingFarms (api w)) in
  let newEvents := replayEvents (clock w) pendingFarms outcomes in
  exists (summary : Summary) (w' : World Api),
    syncAllFarms createFarm w = (Resolve summary, w')
    /\ length outcomes = length pendingFarms
    /\ api w' = snd (writeInOrder createFarm pendingFarms (api w))
    /\ synced summary = length (List.filter (fun o => isResolved (fst o)) outcomes)
    /\ failed summary
       = length (List.filter (fun o => negb (isResolved (fst o))) outcomes)
    /\ clock w' = replayEnd (clock w) outcomes
    /\ trace w' = trace w ++ newEvents
    /\ writerCalls newEvents =
         List.map (fun f => (farmerId f, farmData f)) pendingFarms
    /\ oneAtATime false newEvents = true
    /\ pausedAfterEach 500 newEvents = true.
Proof.
  intros Hon pendingFarms outcomes newEvents.
  destruct (syncAllFarms_online_run w Hon)
    as (summary & w' & Hrun & Hapi & Hsynced & Hfailed & Hclock & Htr & _).
  assert (Hlen : length outcomes = length pendingFarms)
    by apply writeInOrder_length.
  exists summary, w'.
  split; [exact Hrun |]. split; [exact Hlen |]. split; [exact Hapi |].
  split; [exact Hsynced |]. split; [exact Hfailed |]. split; [exact Hclock |].
  split; [exact Htr |].
  split; [by apply replayEvents_calls |].
  split; [apply replayEvents_oneAtATime | apply replayEvents_paused].
Qed.

(** *** The pending count *)

Lemma countStatus_total (fs : list OfflineFarm) :
  (countStatus Pending fs + countStatus Failed fs
   + countStatus Syncing fs + countStatus Synced fs = length fs)%nat.
Proof.
  unfold countStatus. induction fs as [|f fs IH]; simpl; [done |].
  destruct (status f); simpl; lia.
Qed.

(** C8, amended: [getPendingCount] counts the farms whose status is
    pending or failed; farms being synced and farms already synced are
    left out, so the count is the queue length minus those two groups. *)
Theorem getPendingCount_counts_pending_and_failed (w : World Api) :
  exists n : nat,
    getPendingCount w = (Resolve n, w)
    /\ n = (countStatus Pending (farms w) + countStatus Failed (farms w))%nat
    /\ (n + countStatus Syncing (farms w) + countStatus Synced (farms w)
        = length (farms w))%nat.
Proof.
  exists (countStatus Pending (farms w) + countStatus Failed (farms w))%nat.
  split; [| split; [reflexivity | apply countStatus_total]].
  unfold getPendingCount, getOfflineFarms, bind, gets, ret. simpl.
  f_equal. f_equal. unfold countStatus, isPendingOrFailed.
  induction (farms w) as [|f fs IH]; simpl; [done |].
  destruct (status f); simpl; lia.
Qed.

(** *** Looking a farm up after a replay *)

Lemma findFarm_map_same (i : string) (g : OfflineFarm -> OfflineFarm)
      (fs : list OfflineFarm) :
  (forall f, id (g f) = id f) ->
  findFarm i (List.map (onId i g) fs) = g <$> findFarm i fs.
Proof.
  intros Hid. unfold findFarm, onId.
  induction fs as [|f fs IH]; simpl; [done |].
  destruct (hasId i f) eqn:E; simpl.
  - unfold hasId in *. by rewrite Hid, E.
  - by rewrite E.
Qed.

Lemma findFarm_map_other (i j : string) (g : OfflineFarm -> OfflineFarm)
      (fs : list OfflineFarm) :
  i <> j ->
  (forall f, id (g f) = id f) ->
  findFarm i (List.map (onId j g) fs) = findFarm i fs.
Proof.
  intros Hne Hid. unfold findFarm, onId.
  induction fs as [|f fs IH]; simpl; [done |].
  destruct (hasId j f) eqn:Ej; simpl.
  - unfold hasId in *. rewrite Hid.
    apply String.eqb_eq in Ej.
    assert (Ei : String.eqb (id f) i = false)
      by (apply String.eqb_neq; congruence).
    by rewrite Ei.
  - by rewrite IH.
Qed.

Lemma findFarm_filter_other (i j : string) (fs : list OfflineFarm) :
  i <> j ->
  findFarm i (List.filter (fun f => negb (hasId j f)) fs) = findFarm i fs.
Proof.
  intros Hne. unfold findFarm.
  induction fs as [|f fs IH]; simpl; [done |].
  destruct (hasId j f) eqn:Ej; simpl.
  - unfold hasId in *. apply String.eqb_eq in Ej.
    assert (Ei : String.eqb (id f) i = false)
      by (apply String.eqb_neq; congruence).
    by rewrite Ei.
  - by rewrite IH.
Qed.

Lemma findFarm_Some (i : string) (fs : list OfflineFarm) (f : OfflineFarm) :
  findFarm i fs = Some f -> f ∈ fs /\ id f = i.
Proof.
  unfold findFarm. intros H. apply List.find_some in H as [Hin Hid].
  split; [by apply list_elem_of_In | by apply String.eqb_eq].
Qed.

(** *** Manual retry *)

Lemma retryFailedFarm_run (w : World Api) (offlineId : string) :
  retryFailedFarm createFarm offlineId w =
    match findFarm offlineId (farms w) with
    | None => (Reject "Farm not found"%string, w)
    | Some farm =>
        if bool_decide (status farm = Failed) then
          if connectedOf (netInfo w) then syncSingleFarm createFarm farm w
          else (Reject "No network connection"%string, w)
        else (Reject "Farm is not in failed state"%string, w)
    end.
Proof.
  unfold retryFailedFarm, getOfflineFarms, isConnected, findFarm, hasId,
    bind, gets, ret, throw. simpl.
  destruct (List.find _ (farms w)) as [farm|]; [| reflexivity].
  destruct (bool_decide (status farm = Failed)); simpl; [| reflexivity].
  destruct (connectedOf (netInfo w)); reflexivity.
Qed.

(** C10: [retryFailedFarm] tests, in this order, that the id is in the
    queue ('Farm not found'), that the farm is in failed state ('Farm is
    not in failed state') and that the network is reachable ('No network
    connection'), and then replays the farm whatever its retry count; a
    replay the writer rejects leaves the farm failed with its retry count
    one higher, stamped with the time the request settled. *)
Theorem retryFailedFarm_preconditions (w : World Api) (offlineId : string) :
  match findFarm offlineId (farms w) with
  | None =>
      retryFailedFarm createFarm offlineId w = (Reject "Farm not found"%string, w)
  | Some farm =>
      if bool_decide (status farm = Failed) then
        if connectedOf (netInfo w) then
          retryFailedFarm createFarm offlineId w = syncSingleFarm createFarm farm w
          /\ (forall msg a took,
                createFarm (farmerId farm) (farmData farm) (api w)
                  = (Reject msg, a, took) ->
                let w' := snd (retryFailedFarm createFarm offlineId w) in
                farms w' =
                  List.map (onId offlineId (markFailed msg (clock w + took)))
                           (farms w)
                /\ exists retried,
                     findFarm offlineId (farms w') = Some retried
                     /\ status retried = Failed
                     /\ retryCount retried = retryCount farm + 1)
        else
          retryFailedFarm createFarm offlineId w
            = (Reject "No network connection"%string, w)
      else
        retryFailedFarm createFarm offlineId w
          = (Reject "Farm is not in failed state"%string, w)
  end.
Proof.
  rewrite (retryFailedFarm_run w offlineId).
  destruct (findFarm offlineId (farms w)) as [farm|] eqn:Hfind; [| reflexivity].
  destruct (bool_decide (status farm = Failed)); [| reflexivity].
  destruct (connectedOf (netInfo w)); [| reflexivity].
  split; [reflexivity |].
  intros msg a took Hrej w'. subst w'.
  destruct (findFarm_Some _ _ _ Hfind) as [_ Hid].
  rewrite (syncSingleFarm_rejected w farm msg a took Hrej). simpl.
  rewrite Hid. split; [reflexivity |].
  exists (markFailed msg (clock w + took) farm).
  rewrite findFarm_map_same by reflexivity.
  rewrite Hfind. by repeat split.
Qed.

(** *** Automatic sync *)

Lemma syncAllFarms_run (w : World Api) :
  exists summary w',
    syncAllFarms createFarm w = (Resolve summary, w')
    /\ netInfo w' = netInfo w
    /\ farms w' =
         if connectedOf (netInfo w)
         then farms (snd (syncEach createFarm (List.filter isSelected (farms w)) w))
         else farms w.
Proof.
  unfold syncAllFarms, isConnected, getPendingCount, getOfflineFarms.
  unfold bind at 1. unfold bind at 1. unfold gets at 1. unfold ret at 1.
  destruct (connectedOf (netInfo w)) eqn:Hon; simpl.
  - unfold bind at 1. unfold gets at 1.
    destruct (length (List.filter isSelected (farms w)) =? 0)%nat eqn:Hzero.
    + apply Nat.eqb_eq in Hzero.
      destruct (List.filter isSelected (farms w)); [| done].
      by eexists _, _.
    + destruct (syncEach_run (List.filter isSelected (farms w)) w)
        as (rs & w1 & Hrun & _ & _ & _ & _ & _ & Hnet & _).
      unfold bind at 1. rewrite Hrun.
      unfold bind, gets, modify, ret. simpl.
      by eexists _, _.
  - unfold bind, gets, ret. simpl. by eexists _, _.
Qed.

Lemma networkListener_run (w : World Api) (isFirstConnection : bool)
      (state : NetInfo.State) :
  networkListener createFarm isFirstConnection state w =
    if negb isFirstConnection && connectedOf state && (0 <? pendingOrFailed w)%nat
    then match syncAllFarms createFarm w with
         | (Resolve result, w') => (Resolve (false, Some result), w')
         | (Reject e, w') => (Reject e, w')
         end
    else (Resolve (false, None), w).
Proof.
  unfold networkListener, pendingOrFailed, getPendingCount, getOfflineFarms.
  destruct isFirstConnection; simpl; [reflexivity |].
  destruct (connectedOf state); simpl; [| reflexivity].
  unfold bind at 1. unfold bind at 1. unfold gets at 1. unfold ret at 1.
  destruct (0 <? _)%nat; [| reflexivity].
  unfold bind. destruct (syncAllFarms createFarm w) as [[r|e] w']; reflexivity.
Qed.

Lemma networkListener_runs (w : World Api) (isFirstConnection : bool)
      (state : NetInfo.State) :
  exists handed w',
    networkListener createFarm isFirstConnection state w
      = (Resolve (false, handed), w')
    /\ (isFirstConnection = true -> handed = None /\ w' = w).
Proof.
  rewrite networkListener_run.
  destruct isFirstConnection; simpl; [by eexists _, _ |].
  destruct (connectedOf state && (0 <? pendingOrFailed w)%nat);
    [| by eexists _, _].
  destruct (syncAllFarms_run w) as (summary & w' & Hrun & _).
  rewrite Hrun. by eexists _, _.
Qed.

Lemma deliver_runs (states : list NetInfo.State) :
  forall (isFirstConnection : bool) (w : World Api),
  exists handed w',
    deliver createFarm isFirstConnection states w = (Resolve handed, w')
    /\ length handed = length states.
Proof.
  induction states as [|state rest IH]; intros flag w; simpl.
  - by exists [], w.
  - unfold bind at 1. unfold modify at 1. unfold bind at 1.
    match goal with |- context [networkListener createFarm flag state ?w1] =>
      destruct (networkListener_runs w1 flag state) as (h & w2 & Hrun & _) end.
    rewrite Hrun. simpl.
    destruct (IH false w2) as (hs & w3 & Hrest & Hlen).
    unfold bind at 1. rewrite Hrest. unfold ret.
    exists (h :: hs), w3. simpl. by rewrite Hlen.
Qed.

(** The first state NetInfo delivers after [setupNetworkListener] starts no
    replay, whatever it reports. *)
Lemma setupNetworkListener_skips_first (state : NetInfo.State)
      (rest : list NetInfo.State) (w : World Api) :
  exists handed w',
    setupNetworkListener createFarm (state :: rest) w
      = (Resolve (None :: handed), w')
    /\ length handed = length rest.
Proof.
  unfold setupNetworkListener. simpl.
  unfold bind at 1. unfold modify at 1. unfold bind at 1.
  unfold ret at 1. simpl. unfold bind at 1.
  match goal with |- context [deliver createFarm false rest ?w1] =>
    destruct (deliver_runs rest false w1) as (hs & w3 & Hrest & Hlen) end.
  rewrite Hrest. unfold ret.
  by exists hs, w3.
Qed.

(** C3, amended: the listener of [setupNetworkListener] never starts a
    replay on the first state it receives; on every later state it calls
    [syncAllFarms], and hands the result to [onSync], exactly when that
    state is connected with the internet reachable and [getPendingCount]
    is positive, whatever the state before was. *)
Theorem networkListener_trigger (w : World Api) (isFirstConnection : bool)
        (state : NetInfo.State) :
  exists (handed : option Summary) (w' : World Api),
    networkListener createFarm isFirstConnection state w
      = (Resolve (false, handed), w')
    /\ (is_Some handed <->
          isFirstConnection = false
          /\ connectedOf state = true
          /\ (0 < pendingOrFailed w)%nat)
    /\ match handed with
       | Some result => syncAllFarms createFarm w = (Resolve result, w')
       | None => w' = w
       end.
Proof.
  rewrite networkListener_run.
  destruct isFirstConnection; simpl.
  { exists None, w. split; [reflexivity |]. split; [| reflexivity].
    split; [intros [? ?]; done | intros [? _]; done]. }
  destruct (connectedOf state); simpl.
  2:{ exists None, w. split; [reflexivity |]. split; [| reflexivity].
      split; [intros [? ?]; done | intros (_ & ? & _); done]. }
  destruct (0 <? pendingOrFailed w)%nat eqn:Hp.
  - destruct (syncAllFarms_run w) as (summary & w' & Hrun & _).
    rewrite Hrun. exists (Some summary), w'.
    split; [reflexivity |]. split; [| reflexivity].
    apply Nat.ltb_lt in Hp. split; [done | by eexists].
  - exists None, w. split; [reflexivity |]. split; [| reflexivity].
    apply Nat.ltb_ge in Hp.
    split; [intros [? ?]; done | intros (_ & _ & ?); lia].
Qed.

(** *** Retry accounting across passes *)

Lemma syncEach_cons_world (farm : OfflineFarm) (rest : list OfflineFarm)
      (w : World Api) :
  snd (syncEach createFarm (farm :: rest) w) =
    snd (syncEach createFarm rest
           (snd (sleep 500 (snd (syncSingleFarm createFarm farm w))))).
Proof.
  simpl. destruct (syncSingleFarm_runs w farm)
    as (r & a & took & err & fs & _ & Hrun).
  unfold bind at 1. rewrite Hrun.
  unfold bind at 1. unfold sleep, modify. simpl.
  unfold bind at 1.
  match goal with |- context [syncEach createFarm rest ?w1] =>
    destruct (syncEach_run rest w1) as (rs & w' & Hrest & _) end.
  rewrite Hrest. reflexivity.
Qed.

Lemma syncSingleFarm_find_other (i : string) (farm : OfflineFarm) (w : World Api) :
  i <> id farm ->
  findFarm i (farms (snd (sleep 500 (snd (syncSingleFarm createFarm farm w)))))
    = findFarm i (farms w).
Proof.
  intros Hne.
  destruct (createFarm (farmerId farm) (farmData farm) (api w))
    as [[[[]|msg] a] took] eqn:Hc.
  - rewrite (syncSingleFarm_resolved w farm a took Hc). simpl.
    by apply findFarm_filter_other.
  - rewrite (syncSingleFarm_rejected w farm msg a took Hc). simpl.
    by apply findFarm_map_other.
Qed.

Lemma map_id_onId (j : string) (g : OfflineFarm -> OfflineFarm)
      (fs : list OfflineFarm) :
  (forall f, id (g f) = id f) ->
  List.map id (List.map (onId j g) fs) = List.map id fs.
Proof.
  intros Hid. rewrite List.map_map. apply List.map_ext. intros f.
  unfold onId. destruct (hasId j f); [apply Hid | reflexivity].
Qed.

Lemma NoDup_map_id_filter (p : OfflineFarm -> bool) (fs : list OfflineFarm) :
  List.NoDup (List.map id fs) -> List.NoDup (List.map id (List.filter p fs)).
Proof.
  induction fs as [|f fs IH]; simpl; intros Hnd; [exact Hnd |].
  apply List.NoDup_cons_iff in Hnd as [Hnin Hnd].
  destruct (p f); simpl; [| by apply IH].
  apply List.NoDup_cons; [| by apply IH].
  intros Hin. apply Hnin.
  apply List.in_map_iff in Hin as (g & Hg & Hgin).
  apply List.filter_In in Hgin as [Hgin _].
  apply List.in_map_iff. by exists g.
Qed.

Lemma syncSingleFarm_NoDup (farm : OfflineFarm) (w : World Api) :
  List.NoDup (List.map id (farms w)) ->
  List.NoDup (List.map id
    (farms (snd (sleep 500 (snd (syncSingleFarm createFarm farm w)))))).
Proof.
  intros Hnd.
  destruct (createFarm (farmerId farm) (farmData farm) (api w))
    as [[[[]|msg] a] took] eqn:Hc.
  - rewrite (syncSingleFarm_resolved w farm a took Hc). simpl.
    by apply NoDup_map_id_filter.
  - rewrite (syncSingleFarm_rejected w farm msg a took Hc). simpl.
    by rewrite map_id_onId.
Qed.

Lemma syncEach_find_other (i : string) (pendingFarms : list OfflineFarm) :
  forall w : World Api,
  ~ List.In i (List.map id pendingFarms) ->
  findFarm i (farms (snd (syncEach createFarm pendingFarms w)))
    = findFarm i (farms w).
Proof.
  induction pendingFarms as [|farm rest IH]; intros w Hnin; [reflexivity |].
  rewrite syncEach_cons_world. simpl in Hnin.
  rewrite IH by tauto.
  apply syncSingleFarm_find_other. intros ->. tauto.
Qed.

Lemma syncEach_NoDup (pendingFarms : list OfflineFarm) :
  forall w : World Api,
  List.NoDup (List.map id (farms w)) ->
  List.NoDup (List.map id (farms (snd (syncEach createFarm pendingFarms w)))).
Proof.
  induction pendingFarms as [|farm rest IH]; intros w Hnd; [exact Hnd |].
  rewrite syncEach_cons_world. apply IH. by apply syncSingleFarm_NoDup.
Qed.

Lemma syncEach_find_rejected (farm : OfflineFarm)
      (pendingFarms : list OfflineFarm) :
  forall w : World Api,
  List.NoDup (List.map id pendingFarms) ->
  List.In farm pendingFarms ->
  alwaysRejected farm ->
  exists msg now,
    findFarm (id farm) (farms (snd (syncEach createFarm pendingFarms w)))
      = markFailed msg now <$> findFarm (id farm) (farms w).
Proof.
  induction pendingFarms as [|f rest IH]; intros w Hnd Hin Hrej; [done |].
  simpl in Hnd. apply List.NoDup_cons_iff in Hnd as [Hnin Hnd].
  rewrite syncEach_cons_world.
  destruct Hin as [-> | Hin].
  - destruct (Hrej (api w)) as (msg & a' & took & Hc).
    exists msg, (clock w + took).
    rewrite syncEach_find_other by exact Hnin.
    rewrite (syncSingleFarm_rejected w farm msg a' took Hc). simpl.
    by apply findFarm_map_same.
  - destruct (IH (snd (sleep 500 (snd (syncSingleFarm createFarm f w))))
                Hnd Hin Hrej) as (msg & now & Hfind).
    exists msg, now. rewrite Hfind. f_equal.
    apply syncSingleFarm_find_other.
    intros Heq. apply Hnin. rewrite <- Heq. by apply List.in_map.
Qed.

Lemma same_id_same_farm (fs : list OfflineFarm) (f g : OfflineFarm) :
  List.NoDup (List.map id fs) ->
  List.In f fs -> List.In g fs -> id f = id g -> f = g.
Proof.
  induction fs as [|h fs IH]; simpl; intros Hnd Hf Hg Hid; [done |].
  apply List.NoDup_cons_iff in Hnd as [Hnin Hnd].
  destruct Hf as [-> | Hf], Hg as [-> | Hg]; [done | | | by apply IH].
  - exfalso. apply Hnin. rewrite Hid. by apply List.in_map.
  - exfalso. apply Hnin. rewrite <- Hid. by apply List.in_map.
Qed.

Lemma pass_netInfo (w : World Api) : netInfo (pass w) = netInfo w.
Proof.
  unfold Sync.pass. destruct (syncAllFarms_run w) as (summary & w' & Hrun & Hnet & _).
  by rewrite Hrun.
Qed.

Lemma pass_farms (w : World Api) :
  farms (pass w) =
    if connectedOf (netInfo w)
    then farms (snd (syncEach createFarm (List.filter isSelected (farms w)) w))
    else farms w.
Proof.
  unfold Sync.pass. destruct (syncAllFarms_run w) as (summary & w' & Hrun & _ & Hfs).
  by rewrite Hrun.
Qed.

Lemma pass_NoDup (w : World Api) :
  List.NoDup (List.map id (farms w)) ->
  List.NoDup (List.map id (farms (pass w))).
Proof.
  intros Hnd. rewrite pass_farms.
  destruct (connectedOf (netInfo w)); [by apply syncEach_NoDup | exact Hnd].
Qed.

(** A farm the selection leaves out is not touched by a pass. *)
Lemma pass_excluded (w : World Api) (f : OfflineFarm) :
  List.NoDup (List.map id (farms w)) ->
  findFarm (id f) (farms w) = Some f ->
  isSelected f = false ->
  findFarm (id f) (farms (pass w)) = Some f.
Proof.
  intros Hnd Hfind Hsel. rewrite pass_farms.
  destruct (connectedOf (netInfo w)); [| exact Hfind].
  rewrite syncEach_find_other; [exact Hfind |].
  intros Hin. apply List.in_map_iff in Hin as (g & Hid & Hg).
  apply List.filter_In in Hg as [Hg Hgsel].
  destruct (findFarm_Some _ _ _ Hfind) as [Hf _].
  apply list_elem_of_In in Hf.
  assert (g = f) by (by apply (same_id_same_farm (farms w))).
  congruence.
Qed.

(** A selected farm the writer rejects comes out failed, one retry up. *)
Lemma pass_rejected (w : World Api) (f : OfflineFarm) :
  List.NoDup (List.map id (farms w)) ->
  findFarm (id f) (farms w) = Some f ->
  isSelected f = true ->
  connectedOf (netInfo w) = true ->
  alwaysRejected f ->
  exists msg now,
    findFarm (id f) (farms (pass w)) = Some (markFailed msg now f).
Proof.
  intros Hnd Hfind Hsel Hon Hrej. rewrite pass_farms, Hon.
  destruct (findFarm_Some _ _ _ Hfind) as [Hf _].
  apply list_elem_of_In in Hf.
  destruct (syncEach_find_rejected f (List.filter isSelected (farms w)) w)
    as (msg & now & Hafter).
  - by apply NoDup_map_id_filter.
  - apply List.filter_In. by split.
  - exact Hrej.
  - exists msg, now. by rewrite Hafter, Hfind.
Qed.

Lemma passes_rejected (n : nat) :
  forall (w : World Api) (f : OfflineFarm),
  List.NoDup (List.map id (farms w)) ->
  findFarm (id f) (farms w) = Some f ->
  isPendingOrFailed f = true ->
  retryCount f + Z.of_nat n <= 5 ->
  connectedOf (netInfo w) = true ->
  alwaysRejected f ->
  exists f',
    findFarm (id f) (farms (passes n w)) = Some f'
    /\ id f' = id f
    /\ retryCount f' = retryCount f + Z.of_nat n
    /\ match n with O => f' = f | S _ => status f' = Failed end
    /\ List.NoDup (List.map id (farms (passes n w))).
Proof.
  induction n as [|n IH]; intros w f Hnd Hfind Hpf Hle Hon Hrej.
  - exists f. simpl. repeat split; [exact Hfind | lia | exact Hnd].
  - assert (Hsel : isSelected f = true).
    { unfold isSelected. rewrite Hpf. simpl. apply Z.ltb_lt. lia. }
    destruct (pass_rejected w f Hnd Hfind Hsel Hon Hrej) as (msg & now & H1).
    replace (passes (S n) w) with (passes n (pass w))
      by (unfold Sync.passes; by rewrite Nat.iter_succ_r).
    destruct (IH (pass w) (markFailed msg now f))
      as (f' & H2 & Hid & Hrc & Hst & Hnd').
    + by apply pass_NoDup.
    + exact H1.
    + reflexivity.
    + simpl. lia.
    + by rewrite pass_netInfo.
    + exact Hrej.
    + exists f'. simpl in *.
      repeat split; [exact H2 | exact Hid | lia | | exact Hnd'].
      destruct n; [by subst f' | exact Hst].
Qed.

(** C4: a farm queued with no retries yet, which the writer rejects on each
    of five automatic passes, is then in the queue with status failed and
    retry count 5; and from any queue that holds it in that state, a
    further automatic pass (whatever the network and the writer do)
    leaves it exactly as it is. *)
Theorem retry_ceiling (w : World Api) (farm : OfflineFarm) :
  List.NoDup (List.map id (farms w)) ->
  findFarm (id farm) (farms w) = Some farm ->
  isPendingOrFailed farm = true ->
  retryCount farm = 0 ->
  connectedOf (netInfo w) = true ->
  alwaysRejected farm ->
  exists exhausted,
    findFarm (id farm) (farms (passes 5 w)) = Some exhausted
    /\ status exhausted = Failed
    /\ retryCount exhausted = 5
    /\ isSelected exhausted = false
    /\ (forall n, findFarm (id farm) (farms (passes (5 + n) w)) = Some exhausted)
    /\ (forall w' : World Api,
          List.NoDup (List.map id (farms w')) ->
          findFarm (id farm) (farms w') = Some exhausted ->
          findFarm (id farm) (farms (pass w')) = Some exhausted).
Proof.
  intros Hnd Hfind Hpf Hzero Hon Hrej.
  destruct (passes_rejected 5 w farm Hnd Hfind Hpf ltac:(lia) Hon Hrej)
    as (f' & H5 & Hid & Hrc & Hst & Hnd5).
  exists f'. rewrite Hzero in Hrc. simpl in Hrc.
  assert (Hsel : isSelected f' = false).
  { unfold isSelected. rewrite Hrc. simpl. apply andb_false_r. }
  split; [exact H5 |]. split; [exact Hst |]. split; [exact Hrc |].
  split; [exact Hsel |]. split.
  - intros n. induction n as [|n IH].
    + by rewrite Nat.add_0_r.
    + replace (5 + S n)%nat with (S (5 + n)) by lia.
      change (passes (S (5 + n)) w) with (pass (passes (5 + n) w)).
      rewrite <- Hid. apply pass_excluded; [| by rewrite Hid | exact Hsel].
      clear IH. induction n as [|n IHn]; [by rewrite Nat.add_0_r |].
      replace (5 + S n)%nat with (S (5 + n)) by lia.
      change (passes (S (5 + n)) w) with (pass (passes (5 + n) w)).
      by apply pass_NoDup.
  - intros w' Hnd' Hfind'. rewrite <- Hid.
    apply pass_excluded; [exact Hnd' | by rewrite Hid | exact Hsel].
Qed.

End Facts.

(** *** The theorems at concrete queues *)

Lemma NoDup_two_farms : List.NoDup (List.map id [farm1; farm2]).
Proof.
  apply List.NoDup_cons; [simpl; intros [H | []]; discriminate |].
  apply List.NoDup_cons; [simpl; tauto | apply List.NoDup_nil].
Qed.

Lemma retry_ceiling_witness :
  exists exhausted,
    findFarm "offline_1" (farms (passes rejectAll 5 (queue [farm1; farm2] online)))
      = Some exhausted
    /\ status exhausted = Failed
    /\ retryCount exhausted = 5
    /\ findFarm "offline_1"
         (farms (passes rejectAll 6 (queue [farm1; farm2] online)))
       = Some exhausted.
Proof.
  destruct (retry_ceiling rejectAll (queue [farm1; farm2] online) farm1)
    as (exhausted & H5 & Hst & Hrc & _ & Hlater & _).
  - exact NoDup_two_farms.
  - reflexivity.
  - reflexivity.
  - reflexivity.
  - reflexivity.
  - intros a. by eexists _, _, _.
  - exists exhausted. repeat split; [exact H5 | exact Hst | exact Hrc |].
    exact (Hlater 1%nat).
Defined.

Lemma syncAllFarms_replays_sequentially_witness :
  exists summary w',
    syncAllFarms acceptAll (queue [farm1; farm3; farm2; farm4] online)
      = (Resolve summary, w')
    /\ synced summary = 2%nat
    /\ clock w' = 2060
    /\ trace w' =
         [WriterCalled 1000 "farmer-7" (JObj [("crop"%string, JStr "maize")]);
          WriterSettled 1030 true; Delayed 500;
          WriterCalled 1530 "farmer-9" (JObj [("crop"%string, JStr "rice")]);
          WriterSettled 1560 true; Delayed 500].
Proof.
  destruct (syncAllFarms_replays_sequentially acceptAll
              (queue [farm1; farm3; farm2; farm4] online) eq_refl)
    as (summary & w' & Hrun & _ & _ & Hsynced & _ & Hclock & Htr & _).
  exists summary, w'.
  split; [exact Hrun |]. split; [exact Hsynced |].
  split; [exact Hclock | exact Htr].
Defined.

(** C8, as stated, fails: a farm that is being synced is not yet synced,
    and [getPendingCount] does not count it. *)
Lemma getPendingCount_skips_syncing :
  fst (getPendingCount (queue [farm3] online)) = Resolve 0%nat
  /\ length (List.filter (fun f => negb (bool_decide (status f = Synced)))
                         (farms (queue [farm3] online))) = 1%nat.
Proof. split; reflexivity. Qed.

(** C3, as stated, fails.  On the sync queue's listener: with a farm
    pending, a second connected state right after a first connected one
    starts a replay, with no offline state in between; and a first state
    offline followed by a connected one starts none when nothing is pending.
    On the cache service's listener: the very first state, when connected,
    invokes [syncAll], and a connected state arriving while the service is
    offline does not. *)
Lemma auto_sync_not_tied_to_reconnection :
  (exists summary w',
      setupNetworkListener acceptAll [online; online] (queue [farm1] online)
        = (Resolve [None; Some summary], w')
      /\ synced summary = 1%nat)
  /\ fst (setupNetworkListener acceptAll [offline; online] (queue [farm3] offline))
       = Resolve [None; None]
  /\ Cache.syncAllCalls
       (snd (Cache.networkListener online (Cache.initialWorld 0 online))) = 1%nat
  /\ Cache.syncAllCalls
       (snd (Cache.networkListener online
               (Cache.setIsOnline false (Cache.initialWorld 0 offline)))) = 0%nat.
Proof.
  split; [| split; [| split]]; try reflexivity.
  eexists _, _. split; reflexivity.
Qed.

Lemma networkListener_trigger_witness :
  exists handed w',
    networkListener acceptAll false online (queue [farm1; farm4] online)
      = (Resolve (false, handed), w')
    /\ is_Some handed.
Proof.
  destruct (networkListener_trigger acceptAll (queue [farm1; farm4] online)
              false online) as (handed & w' & Hrun & Hiff & _).
  exists handed, w'. split; [exact Hrun |].
  apply Hiff. repeat split. unfold pendingOrFailed. simpl. lia.
Defined.

Lemma retryFailedFarm_preconditions_witness :
  retryFailedFarm rejectAll "offline_4" (queue [farm1; farm4] online)
    = syncSingleFarm rejectAll farm4 (queue [farm1; farm4] online)
  /\ exists retried,
       findFarm "offline_4"
         (farms (snd (retryFailedFarm rejectAll "offline_4"
                        (queue [farm1; farm4] online)))) = Some retried
       /\ status retried = Failed
       /\ retryCount retried = 6.
Proof.
  pose proof (retryFailedFarm_preconditions rejectAll
                (queue [farm1; farm4] online) "offline_4") as H.
  simpl in H. destruct H as [Hrun Hrej]. split; [exact Hrun |].
  destruct (Hrej "Network request failed"%string tt 40 eq_refl)
    as (_ & retried & Hfind & Hst & Hrc).
  exists retried. repeat split; [exact Hfind | exact Hst | exact Hrc].
Defined.

End SyncFacts.

(** ** More properties of the cache service *)

Module CacheHelpersFacts.
Import Cache CacheHelpers CacheFacts.

Lemma getCache_after_setCache (w : World) (key : string) (v : JSON)
      (ttl override : option Z) (elapsed : Z) :
  getCache key override (setThenWait key v ttl elapsed w) =
    if isExpired (jsOr override ttl) elapsed
    then (Resolve JNull,
          setStorage (delete key (storage (setThenWait key v ttl elapsed w)))
                     (setThenWait key v ttl elapsed w))
    else (Resolve v, setThenWait key v ttl elapsed w).
Proof.
  rewrite (getCache_present _ key override (mkCacheData v (clock w) ttl)).
  - simpl. replace (clock w + elapsed - clock w) with elapsed by lia. reflexivity.
  - unfold setThenWait, elapse, setCache, bind, gets, modify. simpl.
    apply lookup_insert_eq.
Qed.

(** X1: what [setCache] stored is what [getCache] returns, with the store
    left as it is, as long as the effective max age (the ttl passed to
    [getCache], or else the stored one) is null, zero, or not exceeded by
    the time elapsed; an age equal to the max age still counts as fresh. *)
Theorem setCache_getCache_roundtrip
  (w : World) (key : string) (v : JSON) (ttl override : option Z) (elapsed : Z) :
  (forall m, jsOr override ttl = Some m -> m <> 0 -> elapsed <= m) ->
  getCache key override (setThenWait key v ttl elapsed w)
    = (Resolve v, setThenWait key v ttl elapsed w).
Proof.
  intros Hfresh. rewrite getCache_after_setCache.
  destruct (jsOr override ttl) as [m|] eqn:Hm; simpl; [| reflexivity].
  destruct (m =? 0) eqn:Hz; simpl; [reflexivity |].
  apply Z.eqb_neq in Hz. specialize (Hfresh m eq_refl Hz).
  rewrite Z.gtb_ltb. apply Z.ltb_ge in Hfresh. by rewrite Hfresh.
Qed.

Lemma setCache_getCache_roundtrip_witness :
  getCache "farmers" None
           (setThenWait "farmers" (JArr [JNum 1]) (Some 1000) 1000
                        (initialWorld 0 online))
    = (Resolve (JArr [JNum 1]),
       setThenWait "farmers" (JArr [JNum 1]) (Some 1000) 1000 (initialWorld 0 online)).
Proof.
  apply (setCache_getCache_roundtrip (initialWorld 0 online) "farmers"
           (JArr [JNum 1]) (Some 1000) None 1000).
  intros m Hm _. vm_compute in Hm. inversion Hm. lia.
Defined.

(** X2: once the time elapsed exceeds a non-zero effective max age,
    [getCache] returns null and the entry is gone from the store, so that
    a later lookup with any ttl finds nothing; a negative ttl makes an
    entry expire at once. *)
Theorem getCache_evicts_expired
  (w : World) (key : string) (v : JSON) (ttl override : option Z)
  (elapsed m : Z) :
  jsOr override ttl = Some m ->
  m <> 0 ->
  m < elapsed ->
  let '(r, w') := getCache key override (setThenWait key v ttl elapsed w) in
  r = Resolve JNull
  /\ storage w' !! key = None
  /\ (forall later, getCache key later w' = (Resolve JNull, w')).
Proof.
  intros Hm Hnz Hlt. rewrite getCache_after_setCache, Hm. simpl.
  apply Z.eqb_neq in Hnz. rewrite Hnz. simpl.
  assert (Hgt : (elapsed >? m) = true) by (rewrite Z.gtb_ltb; by apply Z.ltb_lt).
  rewrite Hgt. split; [reflexivity |].
  assert (Hgone : storage
            (setStorage (delete key (storage (setThenWait key v ttl elapsed w)))
                        (setThenWait key v ttl elapsed w)) !! key = None)
    by apply lookup_delete_eq.
  split; [exact Hgone |].
  intros later. by apply getCache_absent.
Qed.

Lemma getCache_evicts_expired_witness :
  fst (getCache "farmers" None
         (setThenWait "farmers" (JArr [JNum 1]) (Some (-5)) 0 (initialWorld 0 online)))
    = Resolve JNull.
Proof.
  pose proof (getCache_evicts_expired (initialWorld 0 online) "farmers"
                (JArr [JNum 1]) (Some (-5)) None 0 (-5) eq_refl) as H.
  destruct (getCache "farmers" None
              (setThenWait "farmers" (JArr [JNum 1]) (Some (-5)) 0
                           (initialWorld 0 online))) as [r w'].
  apply H; lia.
Defined.

(** X3: [clearCache] removes the entry of its key and of no other; a lookup
    of a cleared (or never written) key returns null and changes nothing. *)
Theorem clearCache_then_getCache (w : World) (key : string) (override : option Z) :
  let w' := snd (clearCache key w) in
  getCache key override w' = (Resolve JNull, w')
  /\ (forall k, k <> key -> storage w' !! k = storage w !! k).
Proof.
  simpl. split.
  - apply getCache_absent. unfold clearCache, modify. simpl. apply lookup_delete_eq.
  - intros k Hne. unfold clearCache, modify. simpl. by apply lookup_delete_ne.
Qed.

Lemma clearCache_then_getCache_witness :
  storage (snd (clearCache "farmers" (twoKeys online))) !! "clusters"%string
    = storage (twoKeys online) !! "clusters"%string.
Proof.
  apply (clearCache_then_getCache (twoKeys online) "farmers" None). discriminate.
Defined.

Lemma lookup_foldr_delete (keys : list string) (m : gmap string CacheData)
      (k : string) :
  foldr delete m keys !! k = if decide (k ∈ keys) then None else m !! k.
Proof.
  induction keys as [|key keys IH]; simpl.
  - destruct (decide (k ∈ [])) as [Hin|]; [by apply elem_of_nil in Hin | done].
  - destruct (decide (key = k)) as [->|Hne].
    + rewrite lookup_delete_eq.
      destruct (decide (k ∈ k :: keys)) as [|Hnin]; [done |].
      exfalso. apply Hnin. apply list_elem_of_here.
    + rewrite lookup_delete_ne by done. rewrite IH.
      destruct (decide (k ∈ keys)) as [Hin|Hnin];
        destruct (decide (k ∈ key :: keys)) as [Hin'|Hnin']; try done.
      * exfalso. apply Hnin'. by apply list_elem_of_further.
      * exfalso. apply elem_of_cons in Hin' as [->|Hin']; [done | by apply Hnin].
Qed.

(** X4: [clearAllCaches] removes the entries of the eight keys of
    [CACHE_KEYS] and leaves every other key as it is; the dropdown list that
    clusterService caches under ['@cache_clusters_dropdown'] is one of
    those it does not clear. *)
Theorem clearAllCaches_clears_listed_keys_only (w : World) :
  let w' := snd (clearAllCaches w) in
  (forall k, k ∈ CACHE_KEYS -> storage w' !! k = None)
  /\ (forall k, k ∉ CACHE_KEYS -> storage w' !! k = storage w !! k)
  /\ storage w' !! "@cache_clusters_dropdown"%string
       = storage w !! "@cache_clusters_dropdown"%string.
Proof.
  assert (Hst : storage (snd (clearAllCaches w))
                = foldr delete (storage w) CACHE_KEYS) by reflexivity.
  cbv zeta. rewrite Hst. clear Hst.
  split; [| split].
  - intros k Hin. rewrite lookup_foldr_delete. by destruct (decide (k ∈ CACHE_KEYS)).
  - intros k Hnin. rewrite lookup_foldr_delete. by destruct (decide (k ∈ CACHE_KEYS)).
  - rewrite lookup_foldr_delete.
    destruct (decide ("@cache_clusters_dropdown"%string ∈ CACHE_KEYS)) as [Hin|];
      [| done].
    exfalso. unfold CACHE_KEYS in Hin.
    repeat (apply elem_of_cons in Hin as [Hin|Hin]; [discriminate Hin |]).
    by apply elem_of_nil in Hin.
Qed.

Lemma clearAllCaches_clears_listed_keys_only_witness :
  storage (snd (clearAllCaches (setThenWait "@cache_clusters" (JArr []) None 0
                                            (initialWorld 0 online))))
    !! "@cache_clusters"%string = None.
Proof.
  destruct (clearAllCaches_clears_listed_keys_only
              (setThenWait "@cache_clusters" (JArr []) None 0 (initialWorld 0 online)))
    as (Hlisted & _ & _).
  apply Hlisted.
  unfold CACHE_KEYS. do 3 apply list_elem_of_further. apply list_elem_of_here.
Defined.

(** *** [fetchWithCache] when the fetch is reached *)

Lemma miss_leaves_nothingTruthy (w : World) (key : string) (expiry : option Z) :
  truthy (lookupValue key expiry w) = false ->
  nothingTruthy key (snd (getCache key expiry w)) = true.
Proof.
  unfold nothingTruthy. destruct (storage w !! key) as [cached|] eqn:Hk.
  - rewrite (lookupValue_present w key expiry cached Hk).
    rewrite (getCache_present w key expiry cached Hk).
    destruct (isExpired _ _); simpl; intros Hv.
    + by rewrite lookup_delete_eq.
    + by rewrite Hk, Hv.
  - intros _. rewrite (getCache_absent w key expiry Hk). simpl. by rewrite Hk.
Qed.

Lemma nothingTruthy_lookupValue (w : World) (key : string) (expiry : option Z) :
  nothingTruthy key w = true -> truthy (lookupValue key expiry w) = false.
Proof.
  unfold nothingTruthy. destruct (storage w !! key) as [cached|] eqn:Hk.
  - rewrite (lookupValue_present w key expiry cached Hk).
    destruct (isExpired _ _); [done |]. by intros ->%negb_true_iff.
  - intros _. by rewrite (lookupValue_absent w key expiry Hk).
Qed.

Lemma fetch_resolved_world
  (w : World) (key : string) (f : Fetcher) (expiry : option Z) (force : bool)
  (d : JSON) (took : Z) :
  onlineOf (netInfo w) = true ->
  f (clock w) = (Resolve d, took) ->
  force = true \/ truthy (lookupValue key expiry w) = false ->
  let '(r, w') := fetchWithCache key f expiry force w in
  r = Resolve d
  /\ storage w' !! key = Some (mkCacheData d (clock w + took) expiry)
  /\ clock w' = clock w + took
  /\ fetchCalls w' = S (fetchCalls w)
  /\ background w' = background w.
Proof.
  intros Hon Hf Hreached.
  destruct force.
  - rewrite (fetchWithCache_forced w key f expiry Hon).
    rewrite (fetchFresh_resolved (setIsOnline true w) key f expiry d took Hf).
    simpl. by rewrite lookup_insert_eq.
  - destruct Hreached as [Hforce | Hmiss]; [discriminate Hforce |].
    rewrite (fetchWithCache_missed w key f expiry Hon Hmiss).
    destruct (getCache_clock w key expiry) as (Hclock & Hcalls & Hbg).
    rewrite (fetchFresh_resolved
               (setIsOnline true (snd (getCache key expiry w))) key f expiry d took);
      simpl.
    + rewrite lookup_insert_eq, Hclock, Hcalls, Hbg. done.
    + by rewrite Hclock.
Qed.

(** X5: online, when the fetch is reached (a forced refresh, or no fresh
    truthy entry) and resolves, [fetchWithCache] returns the fetched payload
    and the store holds it under the key, stamped with the time the fetch
    settled and with the ttl passed; the fetch ran once, in the foreground. *)
Theorem fetchWithCache_stores_fetched
  (w : World) (key : string) (f : Fetcher) (expiry : option Z) (force : bool)
  (d : JSON) (took : Z) :
  onlineOf (netInfo w) = true ->
  f (clock w) = (Resolve d, took) ->
  force = true \/ truthy (lookupValue key expiry w) = false ->
  let '(r, w') := fetchWithCache key f expiry force w in
  r = Resolve d
  /\ storage w' !! key = Some (mkCacheData d (clock w + took) expiry)
  /\ fetchCalls w' = S (fetchCalls w)
  /\ background w' = background w.
Proof.
  intros Hon Hf Hreached.
  pose proof (fetch_resolved_world w key f expiry force d took Hon Hf Hreached) as H.
  destruct (fetchWithCache key f expiry force w) as [r w'].
  destruct H as (Hr & Hst & _ & Hcalls & Hbg). done.
Qed.

Lemma fetchWithCache_stores_fetched_witness :
  let '(r, w') := fetchWithCache "farmers" (resolving (JArr [JNum 7]) 10)
                                 (Some 1000) false (staleWorld online) in
  r = Resolve (JArr [JNum 7])
  /\ storage w' !! "farmers"%string
       = Some (mkCacheData (JArr [JNum 7]) 5010 (Some 1000)).
Proof.
  pose proof (fetchWithCache_stores_fetched (staleWorld online) "farmers"
                (resolving (JArr [JNum 7]) 10) (Some 1000) false
                (JArr [JNum 7]) 10 eq_refl eq_refl (or_intror eq_refl)) as H.
  destruct (fetchWithCache "farmers" (resolving (JArr [JNum 7]) 10)
                           (Some 1000) false (staleWorld online)) as [r w'].
  destruct H as (Hr & Hst & _). split; [exact Hr | exact Hst].
Defined.

(** X6: a payload fetched online is served offline afterwards: once the
    fetch has resolved to a truthy payload and the connection is lost, a
    further [fetchWithCache] on the key returns that payload without calling
    its fetch function, as long as the time since the fetch settled does not
    exceed the effective max age of the offline call: the ttl that call
    passes when it is truthy, or else the ttl of the online call (no limit
    when both are null or zero). *)
Theorem fetched_then_served_offline
  (w : World) (key : string) (f g : Fetcher) (expiry later : option Z)
  (force force' : bool) (d : JSON) (took elapsed : Z) (net : NetInfo.State) :
  onlineOf (netInfo w) = true ->
  f (clock w) = (Resolve d, took) ->
  force = true \/ truthy (lookupValue key expiry w) = false ->
  truthy d = true ->
  onlineOf net = false ->
  (forall m, jsOr later expiry = Some m -> m <> 0 -> elapsed <= m) ->
  let w1 := snd (fetchWithCache key f expiry force w) in
  let w2 := setNetInfo net (snd (elapse elapsed w1)) in
  let '(r, w3) := fetchWithCache key g later force' w2 in
  r = Resolve d /\ fetchCalls w3 = fetchCalls w1.
Proof.
  intros Hon Hf Hreached Hd Hoff Hfresh.
  pose proof (fetch_resolved_world w key f expiry force d took Hon Hf Hreached) as H.
  destruct (fetchWithCache key f expiry force w) as [r1 w1].
  destruct H as (_ & Hst & Hclock & _). cbv zeta. cbn [snd].
  set (w2 := setNetInfo net (snd (elapse elapsed w1))).
  assert (Hst2 : storage w2 !! key = Some (mkCacheData d (clock w + took) expiry))
    by exact Hst.
  assert (Hv : lookupValue key later w2 = d).
  { rewrite (lookupValue_present w2 key later _ Hst2). simpl. rewrite Hclock.
    replace (clock w + took + elapsed - (clock w + took)) with elapsed by lia.
    destruct (jsOr later expiry) as [m|] eqn:Hm; simpl; [| reflexivity].
    destruct (m =? 0) eqn:Hz; simpl; [reflexivity |].
    apply Z.eqb_neq in Hz. specialize (Hfresh m eq_refl Hz).
    rewrite Z.gtb_ltb. apply Z.ltb_ge in Hfresh. by rewrite Hfresh. }
  rewrite (fetchWithCache_offline_run w2 key g later force' Hoff).
  rewrite Hv, Hd. split; [reflexivity |]. simpl.
  by destruct (getCache_clock w2 key later) as (_ & -> & _).
Qed.

Lemma fetched_then_served_offline_witness :
  fst (fetchWithCache "farmers" (rejecting "unreachable" 5) (Some 7200000) false
         (setNetInfo offline
            (snd (elapse 3600000
               (snd (fetchWithCache "farmers" (resolving (JArr [JNum 1]) 10)
                                    (Some 86400000) false
                                    (initialWorld 0 online)))))))
    = Resolve (JArr [JNum 1]).
Proof.
  assert (Hfresh : forall m : Z,
            jsOr (Some 7200000) (Some 86400000) = Some m -> m <> 0 -> 3600000 <= m)
    by (intros m Hm _; inversion Hm; lia).
  pose proof (fetched_then_served_offline (initialWorld 0 online) "farmers"
                (resolving (JArr [JNum 1]) 10) (rejecting "unreachable" 5)
                (Some 86400000) (Some 7200000) false false (JArr [JNum 1]) 10
                3600000 offline
                eq_refl eq_refl (or_intror eq_refl) eq_refl eq_refl Hfresh) as H.
  cbv zeta in H.
  destruct (fetchWithCache "farmers" (rejecting "unreachable" 5) (Some 7200000) false
         (setNetInfo offline
            (snd (elapse 3600000
               (snd (fetchWithCache "farmers" (resolving (JArr [JNum 1]) 10)
                                    (Some 86400000) false
                                    (initialWorld 0 online))))))) as [r w3].
  apply H.
Defined.

(** X7: the fallback that does work: on a forced refresh whose fetch
    rejects, an entry that is not expired under its own stored ttl at that
    moment, with a truthy payload, is returned and left in the store. *)
Theorem forced_refresh_falls_back_to_unexpired
  (w : World) (key : string) (f : Fetcher) (expiry : option Z)
  (cached : CacheData) (e : Error) (took : Z) :
  onlineOf (netInfo w) = true ->
  f (clock w) = (Reject e, took) ->
  storage w !! key = Some cached ->
  truthy (data cached) = true ->
  isExpired (expiryMs cached) (clock w + took - timestamp cached) = false ->
  let '(r, w') := fetchWithCache key f expiry true w in
  r = Resolve (data cached)
  /\ storage w' = storage w
  /\ fetchCalls w' = S (fetchCalls w).
Proof.
  intros Hon Hf Hk Hv Hfresh.
  rewrite (fetchWithCache_forced w key f expiry Hon).
  rewrite (fetchFresh_rejected (setIsOnline true w) key f expiry e took Hf).
  set (w1 := fetchSettled took (setIsOnline true w)).
  assert (Hk1 : storage w1 !! key = Some cached) by exact Hk.
  rewrite (lookupValue_present w1 key None cached Hk1).
  rewrite (getCache_present w1 key None cached Hk1).
  change (jsOr None (expiryMs cached)) with (expiryMs cached).
  change (clock w1) with (clock w + took).
  rewrite Hfresh, Hv. done.
Qed.

Lemma forced_refresh_falls_back_to_unexpired_witness :
  fst (fetchWithCache "farmers" (rejecting "timeout" 10) None true
                      (setThenWait "farmers" (JArr [JNum 1]) (Some 1000) 500
                                   (initialWorld 0 online)))
    = Resolve (JArr [JNum 1]).
Proof.
  pose proof (forced_refresh_falls_back_to_unexpired
                (setThenWait "farmers" (JArr [JNum 1]) (Some 1000) 500
                             (initialWorld 0 online))
                "farmers" (rejecting "timeout" 10) None
                (mkCacheData (JArr [JNum 1]) 0 (Some 1000)) "timeout" 10
                eq_refl eq_refl eq_refl eq_refl eq_refl) as H.
  destruct (fetchWithCache "farmers" (rejecting "timeout" 10) None true
              (setThenWait "farmers" (JArr [JNum 1]) (Some 1000) 500
                           (initialWorld 0 online))) as [r w'].
  apply H.
Defined.

Lemma nothingTruthy_same_storage (key : string) (w w' : World) :
  storage w' = storage w -> nothingTruthy key w' = nothingTruthy key w.
Proof. unfold nothingTruthy. by intros ->. Qed.

(** What a rejected [fetchWithCache] tells: where the error comes from, and
    that the key is left without a truthy payload. *)
Lemma fetchWithCache_rejected (w : World) (key : string) (f : Fetcher)
      (expiry : option Z) (force : bool) (e : Error) :
  fst (fetchWithCache key f expiry force w) = Reject e ->
  ((onlineOf (netInfo w) = false /\ e = noCachedData)
   \/ (onlineOf (netInfo w) = true /\ fst (f (clock w)) = Reject e))
  /\ nothingTruthy key (snd (fetchWithCache key f expiry force w)) = true.
Proof.
  destruct (onlineOf (netInfo w)) eqn:Hon.
  - assert (Hstage : forall w0,
              clock w0 = clock w ->
              fst (fetchFresh key f expiry w0) = Reject e ->
              fst (f (clock w)) = Reject e
              /\ nothingTruthy key (snd (fetchFresh key f expiry w0)) = true).
    { intros w0 Hclock. destruct (f (clock w)) as [[d|e'] took] eqn:Hf.
      - rewrite (fetchFresh_resolved w0 key f expiry d took); [discriminate |].
        by rewrite Hclock.
      - rewrite (fetchFresh_rejected w0 key f expiry e' took) by (by rewrite Hclock).
        simpl.
        destruct (truthy (lookupValue key None (fetchSettled took w0))) eqn:Hv;
          [discriminate |].
        intros [= ->]. split; [reflexivity |].
        by apply miss_leaves_nothingTruthy. }
    destruct force.
    + rewrite (fetchWithCache_forced w key f expiry Hon). intros Hrej.
      destruct (Hstage (setIsOnline true w) eq_refl Hrej) as [Hf Hnt].
      split; [right; by split | exact Hnt].
    + destruct (truthy (lookupValue key expiry w)) eqn:Hv.
      * rewrite (fetchWithCache_hit w key f expiry Hon Hv). discriminate.
      * rewrite (fetchWithCache_missed w key f expiry Hon Hv). intros Hrej.
        destruct (getCache_clock w key expiry) as (Hclock & _).
        destruct (Hstage (setIsOnline true (snd (getCache key expiry w))) Hclock Hrej)
          as [Hf Hnt].
        split; [right; by split | exact Hnt].
  - rewrite (fetchWithCache_offline_run w key f expiry force Hon). simpl.
    destruct (truthy (lookupValue key expiry w)) eqn:Hv; [discriminate |].
    intros [= <-]. split; [left; by split |].
    rewrite (nothingTruthy_same_storage key (snd (getCache key expiry w))) by done.
    by apply miss_leaves_nothingTruthy.
Qed.

(** X8: an error of [fetchWithCache] is either the no-cached-data error,
    and then the call was made offline, or the very rejection of the fetch
    function, unwrapped, and then the call was made online. *)
Theorem fetchWithCache_error_origin (w : World) (key : string) (f : Fetcher)
        (expiry : option Z) (force : bool) (e : Error) :
  fst (fetchWithCache key f expiry force w) = Reject e ->
  (onlineOf (netInfo w) = false /\ e = noCachedData)
  \/ (onlineOf (netInfo w) = true /\ fst (f (clock w)) = Reject e).
Proof. intros Hrej. by destruct (fetchWithCache_rejected w key f expiry force e Hrej). Qed.

Lemma fetchWithCache_error_origin_witness :
  (onlineOf (netInfo (staleWorld online)) = false /\ "timeout"%string = noCachedData)
  \/ (onlineOf (netInfo (staleWorld online)) = true
      /\ fst (rejecting "timeout" 10 (clock (staleWorld online))) = Reject "timeout"%string).
Proof.
  exact (fetchWithCache_error_origin (staleWorld online) "farmers"
           (rejecting "timeout" 10) (Some 1000) false "timeout" eq_refl).
Defined.

(** X9: after [fetchWithCache] has rejected, the key holds no truthy
    payload: whatever ttl is passed and however much time passes, [getCache]
    on that key returns a falsy value, so a caller that falls back to the
    cache after the error finds nothing to show. *)
Theorem rejected_fetch_leaves_no_fallback (w : World) (key : string) (f : Fetcher)
        (expiry : option Z) (force : bool) (e : Error) :
  fst (fetchWithCache key f expiry force w) = Reject e ->
  forall (later : option Z) (elapsed : Z),
    truthy (lookupValue key later
              (snd (elapse elapsed (snd (fetchWithCache key f expiry force w)))))
      = false.
Proof.
  intros Hrej later elapsed.
  destruct (fetchWithCache_rejected w key f expiry force e Hrej) as [_ Hnt].
  apply nothingTruthy_lookupValue.
  by rewrite (nothingTruthy_same_storage key (snd (fetchWithCache key f expiry force w))).
Qed.

Lemma rejected_fetch_leaves_no_fallback_witness :
  truthy (lookupValue "farmers" None
            (snd (elapse 0 (snd (fetchWithCache "farmers" (rejecting "timeout" 10)
                                                (Some 1000) false
                                                (staleWorld online))))))
    = false.
Proof.
  exact (rejected_fetch_leaves_no_fallback (staleWorld online) "farmers"
           (rejecting "timeout" 10) (Some 1000) false "timeout" eq_refl None 0).
Defined.

(** *** The listener of [initialize] and the subscribers *)

Lemma networkListener_step (state : NetInfo.State) (w : World) :
  networkListener state w =
    (Resolve tt,
     mkWorld (storage w) (clock w) (netInfo w) (onlineOf state) (fetchCalls w)
             (background w)
             (if isOnline w && onlineOf state then S (syncAllCalls w)
              else syncAllCalls w)).
Proof.
  unfold networkListener, bind, gets, modify, ret, setIsOnline. simpl.
  rewrite negb_involutive.
  by destruct (isOnline w), (onlineOf state).
Qed.

Lemma last_nonempty_default (l : list bool) :
  forall b d d', List.last (b :: l) d = List.last (b :: l) d'.
Proof.
  induction l as [|c l IH]; intros b d d'; [reflexivity |].
  change (List.last (c :: l) d = List.last (c :: l) d'). apply IH.
Qed.

Lemma deliverStates_cons (state : NetInfo.State) (rest : list NetInfo.State)
      (w : World) :
  snd (deliverStates (state :: rest) w)
    = snd (deliverStates rest (snd (networkListener state w))).
Proof.
  cbn [deliverStates]. unfold bind at 1. by rewrite networkListener_step.
Qed.

(** X10: the listener that [initialize] registers invokes [syncAll] once for
    every state reported online while the service already held itself
    online, and for no other: never for a state that follows an offline
    one.  Afterwards [isOnline] is what the last state reported. *)
Theorem initialize_listener_counts_online_after_online
  (states : list NetInfo.State) :
  forall w : World,
    let w' := snd (deliverStates states w) in
    syncAllCalls w' = (syncAllCalls w + onlineAfterOnline (isOnline w) states)%nat
    /\ isOnline w' = List.last (List.map onlineOf states) (isOnline w).
Proof.
  induction states as [|state rest IH]; intros w.
  - simpl. split; [lia | reflexivity].
  - cbv zeta. rewrite deliverStates_cons.
    specialize (IH (snd (networkListener state w))). cbv zeta in IH.
    destruct IH as (Hcalls & Hlast).
    rewrite Hcalls, Hlast. rewrite networkListener_step.
    cbn [snd syncAllCalls isOnline onlineAfterOnline].
    split.
    + destruct (isOnline w && onlineOf state); lia.
    + cbn [List.map]. destruct (List.map onlineOf rest) as [|b l] eqn:Hrest;
        [reflexivity |].
      change (List.last (onlineOf state :: b :: l) (isOnline w))
        with (List.last (b :: l) (isOnline w)).
      apply last_nonempty_default.
Qed.

(** X11: the function [onNetworkChange] returns removes every registration
    of its callback, also an earlier one of the same function, and keeps the
    other subscribers in their order; for a callback that was not registered
    before, subscribing and unsubscribing gives the list back. *)
Theorem unsubscribe_removes_all_registrations
  (callback : Callback) (networkListeners : list Callback) :
  ~ List.In callback (unsubscribe callback (onNetworkChange callback networkListeners))
  /\ unsubscribe callback (onNetworkChange callback networkListeners)
     = unsubscribe callback networkListeners
  /\ (forall other,
        other <> callback ->
        unsubscribe callback (onNetworkChange other networkListeners)
          = onNetworkChange other (unsubscribe callback networkListeners))
  /\ (~ List.In callback networkListeners ->
      unsubscribe callback (onNetworkChange callback networkListeners)
        = networkListeners).
Proof.
  unfold unsubscribe, onNetworkChange.
  assert (Hself : (callback =? callback)%nat = true) by apply Nat.eqb_refl.
  split; [| split; [| split]].
  - intros Hin. apply List.filter_In in Hin as [_ Hne]. by rewrite Hself in Hne.
  - rewrite List.filter_app. simpl. rewrite Hself. simpl. apply app_nil_r.
  - intros other Hne. rewrite List.filter_app. simpl.
    assert (Hother : (other =? callback)%nat = false) by (by apply Nat.eqb_neq).
    by rewrite Hother.
  - intros Hnin. rewrite List.filter_app. simpl. rewrite Hself. simpl.
    rewrite app_nil_r. induction networkListeners as [|cb rest IH]; simpl; [done |].
    destruct (cb =? callback)%nat eqn:Heq.
    + exfalso. apply Hnin. left. by apply Nat.eqb_eq.
    + simpl. f_equal. apply IH. intros Hin. apply Hnin. by right.
Qed.

Lemma unsubscribe_removes_all_registrations_witness :
  unsubscribe 3%nat (onNetworkChange 3%nat [1%nat; 2%nat]) = [1%nat; 2%nat].
Proof.
  destruct (unsubscribe_removes_all_registrations 3%nat [1%nat; 2%nat])
    as (_ & _ & _ & Hfresh).
  apply Hfresh. simpl. intros [H | [H | []]]; discriminate H.
Defined.

End CacheHelpersFacts.

(** ** Properties of the callers of the cache service *)

Module CallersFacts.
Import Cache CacheHelpers Callers CacheFacts CacheHelpersFacts.

(** X12: [getClustersForDropdown] returns what [fetchWithCache] returns, and
    when [fetchWithCache] rejects it rejects too, with 'Failed to load
    clusters: ' put before the message: its own lookup of the cache after
    the error never yields a list. *)
Theorem getClustersForDropdown_follows_fetchWithCache
  (w : World) (formatted : Z -> Result (list JSON) * Z) (force : bool) :
  match fetchWithCache "@cache_clusters_dropdown" (clustersClosure formatted)
                       (Some (7 * 24 * 60 * 60 * 1000)) force w with
  | (Resolve v, w') =>
      getClustersForDropdown formatted force w = (Resolve v, w')
  | (Reject e, _) =>
      fst (getClustersForDropdown formatted force w)
        = Reject (String.append "Failed to load clusters: " e)
  end.
Proof.
  unfold getClustersForDropdown, tryCatch.
  destruct (fetchWithCache "@cache_clusters_dropdown" (clustersClosure formatted)
              (Some (7 * 24 * 60 * 60 * 1000)) force w) as [[v|e] w'] eqn:Hrun;
    [reflexivity |].
  assert (Hrej : fst (fetchWithCache "@cache_clusters_dropdown"
                        (clustersClosure formatted)
                        (Some (7 * 24 * 60 * 60 * 1000)) force w) = Reject e)
    by (by rewrite Hrun).
  destruct (fetchWithCache_rejected _ _ _ _ _ _ Hrej) as [_ Hnt].
  rewrite Hrun in Hnt. simpl in Hnt.
  unfold bind. rewrite getCache_resolves.
  by rewrite (nothingTruthy_lookupValue w' _ None Hnt).
Qed.

Lemma fetchFarmersCatch_run (err : Error) (w : StoreWorld) :
  fetchFarmersCatch err w =
    let v := lookupValue "@cache_farmers" (Some EXPIRY_FARMERS) (cache w) in
    let c := snd (getCachedFarmers (cache w)) in
    if truthy v
    then (Resolve v,
          mkStoreWorld c (mkStore v false (Some "Using offline data"%string) true)
                       (currentUser w))
    else (Reject err,
          mkStoreWorld c (mkStore (JArr []) false (Some err) true) (currentUser w)).
Proof.
  unfold fetchFarmersCatch, liftCache, getCachedFarmers.
  unfold bind at 1. rewrite getCache_resolves. cbv zeta.
  destruct (truthy (lookupValue "@cache_farmers" (Some EXPIRY_FARMERS) (cache w)));
    reflexivity.
Qed.

Lemma fetchFarmers_signed_out (w : StoreWorld) (getFarmers : Remote) (force : bool) :
  currentUser w = false ->
  fetchFarmers getFarmers force w =
    fetchFarmersCatch "User not authenticated"
      (mkStoreWorld (cache w)
         (mkStore (farmers (store w)) true None (isOffline (store w))) false).
Proof.
  intros Hout. unfold fetchFarmers, tryCatch, set.
  unfold bind at 1. unfold modify at 1. unfold bind at 1. unfold gets at 1.
  cbn [currentUser]. rewrite Hout. reflexivity.
Qed.

Lemma fetchFarmers_signed_in (w : StoreWorld) (getFarmers : Remote) (force : bool) :
  currentUser w = true ->
  fetchFarmers getFarmers force w =
    match fetchWithCache "@cache_farmers" (farmersClosure getFarmers)
                         (Some (24 * 60 * 60 * 1000)) force (cache w) with
    | (Resolve v, c) =>
        (Resolve v,
         mkStoreWorld (snd (checkOnline c))
                      (mkStore v false None (negb (onlineOf (netInfo c)))) true)
    | (Reject e, c) =>
        fetchFarmersCatch e
          (mkStoreWorld c
             (mkStore (farmers (store w)) true None (isOffline (store w))) true)
    end.
Proof.
  intros Hin. unfold fetchFarmers, tryCatch, set.
  unfold bind at 1. unfold modify at 1. unfold bind at 1. unfold gets at 1.
  cbn [currentUser]. rewrite Hin. cbn [negb]. cbv iota.
  unfold bind at 1. unfold liftCache at 1. cbn [cache].
  destruct (fetchWithCache "@cache_farmers" (farmersClosure getFarmers)
              (Some (24 * 60 * 60 * 1000)) force (cache w)) as [[v|e] c];
    [| reflexivity].
  reflexivity.
Qed.

(** X13: whatever happens, [fetchFarmers] leaves [loading] false, and the
    store agrees with the outcome: on success [farmers] is the list
    returned; on failure [farmers] is empty, [isOffline] is set and [error]
    is the message of the error thrown. *)
Theorem fetchFarmers_settles_the_store
  (w : StoreWorld) (getFarmers : Remote) (force : bool) :
  let '(r, w') := fetchFarmers getFarmers force w in
  loading (store w') = false
  /\ match r with
     | Resolve v => farmers (store w') = v
     | Reject e =>
         farmers (store w') = JArr []
         /\ isOffline (store w') = true
         /\ error (store w') = Some e
     end.
Proof.
  destruct (currentUser w) eqn:Huser.
  - rewrite (fetchFarmers_signed_in w getFarmers force Huser).
    destruct (fetchWithCache _ _ _ _ _) as [[v|e] c]; [done |].
    rewrite fetchFarmersCatch_run. cbv zeta.
    by destruct (truthy _).
  - rewrite (fetchFarmers_signed_out w getFarmers force Huser).
    rewrite fetchFarmersCatch_run. cbv zeta.
    by destruct (truthy _).
Qed.

(** X14: signed out, [fetchFarmers] never calls the API; it still answers
    with the cached list when ['@cache_farmers'] holds a truthy payload
    younger than 24 hours (put in the store, marked 'Using offline data'
    and offline), and fails with 'User not authenticated' otherwise. *)
Theorem fetchFarmers_signed_out_serves_cache
  (w : StoreWorld) (getFarmers : Remote) (force : bool) :
  currentUser w = false ->
  let '(r, w') := fetchFarmers getFarmers force w in
  let cached := lookupValue "@cache_farmers" (Some EXPIRY_FARMERS) (cache w) in
  fetchCalls (cache w') = fetchCalls (cache w)
  /\ (truthy cached = true ->
       r = Resolve cached
       /\ farmers (store w') = cached
       /\ error (store w') = Some "Using offline data"%string
       /\ isOffline (store w') = true)
  /\ (truthy cached = false -> r = Reject "User not authenticated"%string).
Proof.
  intros Huser.
  rewrite (fetchFarmers_signed_out w getFarmers force Huser).
  rewrite fetchFarmersCatch_run. cbv zeta. cbn [cache currentUser].
  destruct (getCache_clock (cache w) "@cache_farmers" (Some EXPIRY_FARMERS))
    as (_ & Hcalls & _).
  destruct (truthy (lookupValue "@cache_farmers" (Some EXPIRY_FARMERS) (cache w)));
    cbn [cache store error isOffline farmers]; (split; [exact Hcalls |]); split; done.
Qed.

Lemma fetchFarmers_signed_out_serves_cache_witness :
  fst (fetchFarmers apiDown false
         (signedOut (setThenWait "@cache_farmers" (JArr [JNum 1]) (Some EXPIRY_FARMERS)
                                 3600000 (initialWorld 0 online))))
    = Resolve (JArr [JNum 1]).
Proof.
  pose proof (fetchFarmers_signed_out_serves_cache
                (signedOut (setThenWait "@cache_farmers" (JArr [JNum 1])
                                        (Some EXPIRY_FARMERS) 3600000
                                        (initialWorld 0 online)))
                apiDown false eq_refl) as H.
  destruct (fetchFarmers apiDown false
              (signedOut (setThenWait "@cache_farmers" (JArr [JNum 1])
                                      (Some EXPIRY_FARMERS) 3600000
                                      (initialWorld 0 online)))) as [r w'].
  destruct H as (_ & Hhit & _). apply Hhit. reflexivity.
Defined.

(** X15: signed in, [fetchFarmers] succeeds or fails exactly as
    [fetchWithCache] on ['@cache_farmers'] does, with the same value or the
    same error: its own fallback to the cache after an error changes
    nothing. *)
Theorem fetchFarmers_signed_in_follows_fetchWithCache
  (w : StoreWorld) (getFarmers : Remote) (force : bool) :
  currentUser w = true ->
  fst (fetchFarmers getFarmers force w)
    = fst (fetchWithCache "@cache_farmers" (farmersClosure getFarmers)
                          (Some (24 * 60 * 60 * 1000)) force (cache w)).
Proof.
  intros Huser.
  rewrite (fetchFarmers_signed_in w getFarmers force Huser).
  destruct (fetchWithCache "@cache_farmers" (farmersClosure getFarmers)
              (Some (24 * 60 * 60 * 1000)) force (cache w)) as [[v|e] c] eqn:Hrun;
    [reflexivity |].
  assert (Hrej : fst (fetchWithCache "@cache_farmers" (farmersClosure getFarmers)
                        (Some (24 * 60 * 60 * 1000)) force (cache w)) = Reject e)
    by (by rewrite Hrun).
  destruct (fetchWithCache_rejected _ _ _ _ _ _ Hrej) as [_ Hnt].
  rewrite Hrun in Hnt. cbn [snd] in Hnt.
  rewrite fetchFarmersCatch_run. cbv zeta. cbn [cache].
  by rewrite (nothingTruthy_lookupValue c _ (Some EXPIRY_FARMERS) Hnt).
Qed.

Lemma fetchFarmers_signed_in_follows_fetchWithCache_witness :
  fst (fetchFarmers apiDown false (signedIn (staleWorld online)))
    = fst (fetchWithCache "@cache_farmers" (farmersClosure apiDown)
             (Some (24 * 60 * 60 * 1000)) false (staleWorld online)).
Proof.
  apply (fetchFarmers_signed_in_follows_fetchWithCache
           (signedIn (staleWorld online)) apiDown false eq_refl).
Defined.

(** X16: signed in and online, a forced [fetchFarmers] whose API call
    answers returns the list found in the response (the response itself, its
    [farmers] or its [data] when that is an array, the empty list
    otherwise), puts it in the store with [isOffline] and [error] cleared,
    and caches it under ['@cache_farmers'] for 24 hours. *)
Theorem fetchFarmers_refresh_stores_the_list
  (w : StoreWorld) (getFarmers : Remote) (response : JSON) (took : Z) :
  currentUser w = true ->
  onlineOf (netInfo (cache w)) = true ->
  getFarmers (clock (cache w)) = (Resolve response, took) ->
  let list := JArr (extractFarmers response) in
  let '(r, w') := fetchFarmers getFarmers true w in
  r = Resolve list
  /\ store w' = mkStore list false None false
  /\ storage (cache w') !! "@cache_farmers"%string
       = Some (mkCacheData list (clock (cache w) + took) (Some EXPIRY_FARMERS)).
Proof.
  intros Huser Hon Hresp. cbv zeta.
  rewrite (fetchFarmers_signed_in w getFarmers true Huser).
  assert (Hf : farmersClosure getFarmers (clock (cache w))
               = (Resolve (JArr (extractFarmers response)), took))
    by (unfold farmersClosure; by rewrite Hresp).
  pose proof (fetch_resolved_world (cache w) "@cache_farmers"
                (farmersClosure getFarmers) (Some (24 * 60 * 60 * 1000)) true
                _ took Hon Hf (or_introl eq_refl)) as H.
  destruct (fetchWithCache "@cache_farmers" (farmersClosure getFarmers)
              (Some (24 * 60 * 60 * 1000)) true (cache w)) as [r c] eqn:Hrun.
  destruct H as (-> & Hst & _).
  assert (Hnet : netInfo c = netInfo (cache w)).
  { assert (Hc : c = snd (fetchWithCache "@cache_farmers" (farmersClosure getFarmers)
                            (Some (24 * 60 * 60 * 1000)) true (cache w)))
      by (by rewrite Hrun).
    rewrite Hc, (fetchWithCache_forced (cache w) _ _ _ Hon).
    by rewrite (fetchFresh_resolved (setIsOnline true (cache w)) _ _ _ _ took Hf). }
  rewrite Hnet, Hon. cbn [negb store cache].
  split; [reflexivity |]. split; [reflexivity |]. exact Hst.
Qed.

Lemma fetchFarmers_refresh_stores_the_list_witness :
  fst (fetchFarmers (apiAnswers (JObj [("data"%string, JArr [JNum 4])])) true
         (signedIn (staleWorld online)))
    = Resolve (JArr [JNum 4]).
Proof.
  pose proof (fetchFarmers_refresh_stores_the_list (signedIn (staleWorld online))
                (apiAnswers (JObj [("data"%string, JArr [JNum 4])]))
                (JObj [("data"%string, JArr [JNum 4])]) 20
                eq_refl eq_refl eq_refl) as H.
  cbv zeta in H.
  destruct (fetchFarmers (apiAnswers (JObj [("data"%string, JArr [JNum 4])])) true
              (signedIn (staleWorld online))) as [r w'].
  apply H.
Defined.

End CallersFacts.

(** ** More properties of the farm queue *)

Module QueueFacts.
Import Sync Queue SyncFacts.

Section Facts.
Context {Api : Type}.
Variable createFarm : string -> JSON -> Api -> Result unit * Api * Z.

Lemma filter_app_one (p : OfflineFarm -> bool) (fs : list OfflineFarm) (f : OfflineFarm) :
  List.filter p (fs ++ [f]) = List.filter p fs ++ (if p f then [f] else []).
Proof. rewrite List.filter_app. simpl. by destruct (p f). Qed.

Lemma saveFarmOffline_run (w : World Api) (offlineId fid : string) (fd fr : JSON) :
  saveFarmOffline offlineId fid fd fr w =
    (Resolve (mkFarm offlineId fid fd fr (clock w) Pending 0 None None),
     setFarms (farms w ++ [mkFarm offlineId fid fd fr (clock w) Pending 0 None None]) w).
Proof. reflexivity. Qed.

Lemma findFarm_app_fresh (i : string) (fs : list OfflineFarm) (f : OfflineFarm) :
  ~ List.In i (List.map id fs) -> id f = i -> findFarm i (fs ++ [f]) = Some f.
Proof.
  intros Hnin Hid. unfold findFarm. induction fs as [|g fs IH]; simpl.
  - unfold hasId. rewrite Hid. by rewrite String.eqb_refl.
  - destruct (hasId i g) eqn:Hg.
    + exfalso. apply Hnin. left. by apply String.eqb_eq.
    + apply IH. intros Hin. apply Hnin. by right.
Qed.

(** X17: [saveFarmOffline] puts the farm at the end of the queue, pending,
    with no retry and no error, stamped with the current time; the entries
    already queued keep their place, the pending count goes up by one, the
    writer is not contacted; under a fresh id the farm is the one found by
    that id. *)
Theorem saveFarmOffline_appends_pending
  (w : World Api) (offlineId fid : string) (fd fr : JSON) :
  let queued := mkFarm offlineId fid fd fr (clock w) Pending 0 None None in
  let '(r, w') := saveFarmOffline offlineId fid fd fr w in
  r = Resolve queued
  /\ farms w' = farms w ++ [queued]
  /\ pendingOrFailed w' = S (pendingOrFailed w)
  /\ trace w' = trace w
  /\ api w' = api w
  /\ (~ List.In offlineId (List.map id (farms w)) ->
      findFarm offlineId (farms w') = Some queued).
Proof.
  cbv zeta. rewrite saveFarmOffline_run. cbn [setFarms farms trace api].
  split; [reflexivity |]. split; [reflexivity |]. split.
  - unfold pendingOrFailed. cbn [farms setFarms]. rewrite filter_app_one. simpl.
    rewrite length_app. simpl. lia.
  - split; [reflexivity |]. split; [reflexivity |].
    intros Hfresh. by apply findFarm_app_fresh.
Qed.



(** *** What a pass reports and what it leaves in the queue *)

Lemma syncAllFarms_offline (w : World Api) :
  connectedOf (netInfo w) = false ->
  syncAllFarms createFarm w =
    (Resolve (mkSummary false NoNetworkConnection 0 0 (pendingOrFailed w) None), w).
Proof.
  intros Hoff. unfold syncAllFarms, isConnected, getPendingCount, getOfflineFarms,
    bind, gets, ret. by rewrite Hoff.
Qed.

Lemma syncAllFarms_online (w : World Api) :
  connectedOf (netInfo w) = true ->
  syncAllFarms createFarm w =
    match List.filter isSelected (farms w) with
    | [] => (Resolve (mkSummary true NoFarmsToSync 0 0 0 None), w)
    | farm :: rest =>
        match syncEach createFarm (farm :: rest) w with
        | (Resolve rs, w1) =>
            let syncedCount := length (List.filter success rs) in
            (Resolve (mkSummary (0 <? syncedCount)%nat (FarmsSynced syncedCount)
                        syncedCount
                        (length (List.filter (fun r => negb (success r)) rs))
                        (pendingOrFailed w1) (Some rs)),
             mkWorld (farms w1) (Some (clock w1)) (netInfo w1) (clock w1)
                     (api w1) (trace w1))
        | (Reject e, w1) => (Reject e, w1)
        end
    end.
Proof.
  intros Hon. unfold syncAllFarms, isConnected, getOfflineFarms.
  unfold bind at 1. unfold bind at 1. unfold gets at 1. unfold ret at 1.
  rewrite Hon. cbn [negb]. unfold bind at 1. unfold gets at 1. cbv beta iota.
  destruct (List.filter isSelected (farms w)) as [|farm rest]; [reflexivity |].
  cbn [length Nat.eqb]. unfold bind at 1.
  destruct (syncEach createFarm (farm :: rest) w) as [[rs|e] w1]; reflexivity.
Qed.

(** X19: a pass with nothing to do changes nothing: offline, or online with
    no farm selected, the queue, the last-sync time and the backend are as
    before and the writer is not called.  Offline the summary reports the
    pending count; with no farm selected it reports success and [pending: 0],
    also when farms that used up their retries still count as pending. *)
Theorem syncAllFarms_with_nothing_to_do (w : World Api) :
  (connectedOf (netInfo w) = false ->
   syncAllFarms createFarm w =
     (Resolve (mkSummary false NoNetworkConnection 0 0 (pendingOrFailed w) None), w))
  /\ (connectedOf (netInfo w) = true ->
      List.filter isSelected (farms w) = [] ->
      syncAllFarms createFarm w =
        (Resolve (mkSummary true NoFarmsToSync 0 0 0 None), w)).
Proof.
  split.
  - apply syncAllFarms_offline.
  - intros Hon Hnone. rewrite (syncAllFarms_online w Hon). by rewrite Hnone.
Qed.

Lemma replayEnd_at_least (outcomes : list (Result unit * Z)) :
  forall now,
  (forall o, List.In o outcomes -> 0 <= snd o) ->
  now + 500 * Z.of_nat (length outcomes) <= replayEnd now outcomes.
Proof.
  induction outcomes as [|[r took] outcomes IH]; intros now Hpos.
  - simpl. lia.
  - cbn [replayEnd length]. specialize (IH (now + took + 500)).
    assert (0 <= took) by (apply (Hpos (r, took)); by left).
    assert (now + took + 500 + 500 * Z.of_nat (length outcomes)
            <= replayEnd (now + took + 500) outcomes).
    { apply IH. intros o Ho. apply Hpos. by right. }
    lia.
Qed.

Lemma writeInOrder_takesTime (pendingFarms : list OfflineFarm) :
  takesTime createFarm ->
  forall (a : Api) o,
    List.In o (fst (writeInOrder createFarm pendingFarms a)) -> 0 <= snd o.
Proof.
  intros Hpos. induction pendingFarms as [|farm rest IH]; intros a o; [done |].
  cbn [writeInOrder]. pose proof (Hpos (farmerId farm) (farmData farm) a) as Htook.
  destruct (createFarm (farmerId farm) (farmData farm) a) as [[r a'] took].
  specialize (IH a' o). destruct (writeInOrder createFarm rest a') as [outcomes a''].
  cbn [fst snd] in *. intros [<- | Hin]; [exact Htook | by apply IH].
Qed.

(** X20: online, with farms selected, the summary accounts for every one of
    them: [synced] plus [failed] is their number, the results list them by
    id in queue order, [success] tells whether at least one was synced,
    [pending] is the pending count of the queue as the pass leaves it, and
    the last-sync time is the time at which the pass ends, which is at
    least 500 ms per farm after its start (no request taking a negative
    time): each request takes its time, and 500 ms pass after each. *)
Theorem syncAllFarms_summary_accounts_for_selected (w : World Api) :
  connectedOf (netInfo w) = true ->
  List.filter isSelected (farms w) <> [] ->
  exists rs w',
    syncAllFarms createFarm w =
      (Resolve (mkSummary (0 <? length (List.filter success rs))%nat
                  (FarmsSynced (length (List.filter success rs)))
                  (length (List.filter success rs))
                  (length (List.filter (fun r => negb (success r)) rs))
                  (pendingOrFailed w') (Some rs)),
       w')
    /\ (length (List.filter success rs)
        + length (List.filter (fun r => negb (success r)) rs)
        = length (List.filter isSelected (farms w)))%nat
    /\ List.map farmId rs = selectedIds (farms w)
    /\ lastSync w' = Some (clock w')
    /\ (takesTime createFarm ->
        clock w + 500 * Z.of_nat (length (List.filter isSelected (farms w)))
          <= clock w').
Proof.
  intros Hon Hsome. rewrite (syncAllFarms_online w Hon). unfold selectedIds.
  destruct (List.filter isSelected (farms w)) as [|farm rest] eqn:Hsel; [done |].
  destruct (syncEach_run createFarm (farm :: rest) w)
    as (rs & w1 & Hrun & Hok & Hids & _ & Hclock & _).
  rewrite Hrun. cbv zeta.
  exists rs, (mkWorld (farms w1) (Some (clock w1)) (netInfo w1) (clock w1)
                      (api w1) (trace w1)).
  assert (Hlen : length rs = length (farm :: rest)).
  { rewrite <- (length_map success rs), Hok, length_map.
    apply writeInOrder_length. }
  split; [reflexivity |].
  split; [| split; [exact Hids | split; [reflexivity |]]].
  - rewrite <- Hlen. clear. induction rs as [|r rs IH]; simpl; [reflexivity |].
    destruct (success r); simpl; lia.
  - intros Hpos. cbn [clock]. rewrite Hclock.
    rewrite <- (writeInOrder_length createFarm (farm :: rest) (api w)).
    apply replayEnd_at_least. by apply writeInOrder_takesTime.
Qed.

Lemma filter_filter_ids (x : string) (rest : list string) (fs : list OfflineFarm) :
  List.filter (fun f => negb (inList (id f) rest))
              (List.filter (fun f => negb (hasId x f)) fs)
  = List.filter (fun f => negb (inList (id f) (x :: rest))) fs.
Proof.
  induction fs as [|f fs IH]; simpl; [reflexivity |].
  unfold hasId in *. destruct (String.eqb (id f) x) eqn:Hx; simpl.
  - exact IH.
  - rewrite IH. reflexivity.
Qed.

Lemma syncEach_accepted (pendingFarms : list OfflineFarm) :
  alwaysAccepted createFarm ->
  forall w : World Api,
  exists rs w',
    syncEach createFarm pendingFarms w = (Resolve rs, w')
    /\ farms w' =
         List.filter (fun f => negb (inList (id f) (List.map id pendingFarms))) (farms w)
    /\ List.filter success rs = rs
    /\ length rs = length pendingFarms.
Proof.
  intros Hacc. induction pendingFarms as [|farm rest IH]; intros w.
  - exists [], w. simpl. unfold ret. repeat split.
    induction (farms w) as [|f fs IHf]; simpl; [reflexivity | by rewrite <- IHf].
  - cbn [syncEach].
    destruct (Hacc (farmerId farm) (farmData farm) (api w)) as (a & took & Hc).
    unfold bind at 1. rewrite (syncSingleFarm_resolved createFarm w farm a took Hc).
    unfold bind at 1. unfold sleep, modify. cbv beta iota. unfold bind at 1.
    match goal with |- context [syncEach createFarm rest ?w1] =>
      destruct (IH w1) as (rs & w' & Hrest & Hfarms & Hall & Hlen) end.
    rewrite Hrest. unfold ret. eexists _, _. split; [reflexivity |].
    cbn [farms] in Hfarms. cbn [List.map length List.filter success].
    split; [| split; [by rewrite Hall | by rewrite Hlen]].
    rewrite Hfarms. apply filter_filter_ids.
Qed.

Lemma filter_not_selected_ids (fs : list OfflineFarm) :
  List.NoDup (List.map id fs) ->
  List.filter (fun f => negb (inList (id f) (selectedIds fs))) fs
    = List.filter (fun f => negb (isSelected f)) fs.
Proof.
  intros Hnd. apply List.filter_ext_in. intros f Hf. f_equal.
  unfold inList, selectedIds.
  destruct (isSelected f) eqn:Hsel.
  - apply List.existsb_exists. exists (id f). split; [| apply String.eqb_refl].
    apply List.in_map. apply List.filter_In. by split.
  - apply not_true_is_false. intros Hex.
    apply List.existsb_exists in Hex as (i & Hin & Heq).
    apply String.eqb_eq in Heq. subst i.
    apply List.in_map_iff in Hin as (g & Hid & Hg).
    apply List.filter_In in Hg as [Hg Hgsel].
    assert (g = f) by (by apply (same_id_same_farm fs)).
    congruence.
Qed.

(** X21: online, with a writer that accepts every farm, a pass empties the
    queue of the farms it selects: with unique ids what is left is exactly
    the farms not selected, in their order, untouched; the summary counts
    every selected farm as synced and none as failed. *)
Theorem accepted_pass_removes_selected (w : World Api) :
  connectedOf (netInfo w) = true ->
  alwaysAccepted createFarm ->
  List.NoDup (List.map id (farms w)) ->
  exists summary w',
    syncAllFarms createFarm w = (Resolve summary, w')
    /\ farms w' = List.filter (fun f => negb (isSelected f)) (farms w)
    /\ synced summary = length (List.filter isSelected (farms w))
    /\ failed summary = 0%nat
    /\ List.filter isSelected (farms w') = [].
Proof.
  intros Hon Hacc Hnd. rewrite (syncAllFarms_online w Hon).
  assert (Hnone : forall fs : list OfflineFarm,
            List.filter isSelected (List.filter (fun f => negb (isSelected f)) fs) = []).
  { intros fs. induction fs as [|f fs IH]; simpl; [reflexivity |].
    destruct (isSelected f) eqn:Hs; simpl; [exact IH | by rewrite Hs]. }
  destruct (List.filter isSelected (farms w)) as [|farm rest] eqn:Hsel.
  - eexists _, w. split; [reflexivity |]. cbn [synced failed length].
    split; [| split; [reflexivity | split; [reflexivity | exact Hsel]]].
    symmetry. clear Hnone. revert Hsel. induction (farms w) as [|f fs IH]; simpl;
      [reflexivity |].
    destruct (isSelected f); simpl; [discriminate |].
    intros Hsel. f_equal. apply IH; [| exact Hsel].
    simpl in Hnd. by apply List.NoDup_cons_iff in Hnd as [_ Hnd].
  - destruct (syncEach_accepted (farm :: rest) Hacc w)
      as (rs & w1 & Hrun & Hfarms & Hall & Hlen).
    rewrite Hrun. cbv zeta. eexists _, _. split; [reflexivity |].
    cbn [farms synced failed].
    assert (Hleft : farms w1 = List.filter (fun f => negb (isSelected f)) (farms w)).
    { rewrite Hfarms, <- Hsel. by apply filter_not_selected_ids. }
    split; [exact Hleft |]. split; [by rewrite Hall, Hlen |]. split.
    + assert (Hnot : List.filter (fun r => negb (success r)) rs = []).
      { rewrite <- Hall. clear. induction rs as [|r rs IH]; simpl; [reflexivity |].
        destruct (success r) eqn:Hs; simpl; [by rewrite Hs | exact IH]. }
      by rewrite Hnot.
    + rewrite Hleft. apply Hnone.
Qed.

Lemma untouchedOrFailed_refl (fs : list OfflineFarm) : untouchedOrFailed fs fs.
Proof. intros g Hg. by left. Qed.

Lemma untouchedOrFailed_trans (fs1 fs2 fs3 : list OfflineFarm) :
  untouchedOrFailed fs1 fs2 -> untouchedOrFailed fs2 fs3 -> untouchedOrFailed fs1 fs3.
Proof.
  intros H12 H23 g Hg.
  destruct (H23 g Hg) as [Hin | (Hst & f & Hf & Hsame & Hlt)]; [by apply H12 |].
  right. split; [exact Hst |].
  destruct (H12 f Hf) as [Hin | (_ & f0 & Hf0 & Hsame0 & Hlt0)].
  - by exists f.
  - exists f0. split; [exact Hf0 |]. split; [| lia].
    unfold samePayload in *. intuition congruence.
Qed.

Lemma syncSingleFarm_untouchedOrFailed (farm : OfflineFarm) (w : World Api) :
  untouchedOrFailed (farms w) (farms (snd (syncSingleFarm createFarm farm w))).
Proof.
  destruct (createFarm (farmerId farm) (farmData farm) (api w))
    as [[[[]|msg] a] took] eqn:Hc.
  - rewrite (syncSingleFarm_resolved createFarm w farm a took Hc). cbn [snd farms].
    intros g Hg. left. by apply List.filter_In in Hg as [Hg _].
  - rewrite (syncSingleFarm_rejected createFarm w farm msg a took Hc). cbn [snd farms].
    intros g Hg. apply List.in_map_iff in Hg as (f & <- & Hf).
    unfold onId. destruct (hasId (id farm) f); [| by left].
    right. split; [reflexivity |]. exists f. split; [exact Hf |].
    split; [by repeat split | simpl; lia].
Qed.

Lemma syncEach_untouchedOrFailed (pendingFarms : list OfflineFarm) :
  forall w : World Api,
  untouchedOrFailed (farms w) (farms (snd (syncEach createFarm pendingFarms w))).
Proof.
  induction pendingFarms as [|farm rest IH]; intros w.
  - apply untouchedOrFailed_refl.
  - rewrite syncEach_cons_world.
    eapply untouchedOrFailed_trans; [| apply IH].
    apply syncSingleFarm_untouchedOrFailed.
Qed.

Lemma syncEach_length (pendingFarms : list OfflineFarm) :
  forall w : World Api,
  (length (farms (snd (syncEach createFarm pendingFarms w))) <= length (farms w))%nat.
Proof.
  induction pendingFarms as [|farm rest IH]; intros w; [reflexivity |].
  rewrite syncEach_cons_world.
  etransitivity; [apply IH |].
  destruct (createFarm (farmerId farm) (farmData farm) (api w))
    as [[[[]|msg] a] took] eqn:Hc.
  - rewrite (syncSingleFarm_resolved createFarm w farm a took Hc). cbn.
    apply List.filter_length_le.
  - rewrite (syncSingleFarm_rejected createFarm w farm msg a took Hc). cbn.
    by rewrite length_map.
Qed.

(** X22: whatever the writer does, a pass only ever removes farms or marks
    them failed: every farm in the queue after [syncAllFarms] was there
    before, either untouched or with the same id and payload, status failed
    and a higher retry count; no farm is added, none is left in the syncing
    or synced state by the pass, and no retry count goes down. *)
Theorem syncAllFarms_leaves_untouched_or_failed (w : World Api) :
  untouchedOrFailed (farms w) (farms (snd (syncAllFarms createFarm w)))
  /\ (length (farms (snd (syncAllFarms createFarm w))) <= length (farms w))%nat.
Proof.
  pose proof (pass_farms createFarm w) as Hfarms. unfold pass in Hfarms.
  rewrite Hfarms. destruct (connectedOf (netInfo w)).
  - split; [apply syncEach_untouchedOrFailed | apply syncEach_length].
  - split; [apply untouchedOrFailed_refl | reflexivity].
Qed.

(** *** Manual retry that succeeds, and clearing synced farms *)

Lemma filter_absent_id (i : string) (fs : list OfflineFarm) :
  ~ List.In i (List.map id fs) ->
  List.filter (fun g => negb (hasId i g)) fs = fs.
Proof.
  induction fs as [|h fs IH]; simpl; intros Hnin; [reflexivity |].
  destruct (hasId i h) eqn:Hh; simpl.
  - exfalso. apply Hnin. left. by apply String.eqb_eq.
  - f_equal. apply IH. intros Hin. apply Hnin. by right.
Qed.

Lemma findFarm_filter_same (i : string) (fs : list OfflineFarm) :
  findFarm i (List.filter (fun g => negb (hasId i g)) fs) = None.
Proof.
  unfold findFarm. induction fs as [|h fs IH]; simpl; [reflexivity |].
  destruct (hasId i h) eqn:Hh; simpl; [exact IH | by rewrite Hh].
Qed.

Lemma pending_count_without (fs : list OfflineFarm) (f : OfflineFarm) :
  List.NoDup (List.map id fs) ->
  findFarm (id f) fs = Some f ->
  isPendingOrFailed f = true ->
  S (length (List.filter isPendingOrFailed
               (List.filter (fun g => negb (hasId (id f) g)) fs)))
    = length (List.filter isPendingOrFailed fs).
Proof.
  induction fs as [|g fs IH]; intros Hnd Hfind Hpf; [discriminate Hfind |].
  simpl in Hnd. apply List.NoDup_cons_iff in Hnd as [Hnin Hnd].
  unfold findFarm in Hfind. simpl in Hfind. simpl.
  destruct (hasId (id f) g) eqn:Hg; simpl.
  - inversion Hfind. subst g. rewrite Hpf. simpl.
    by rewrite (filter_absent_id (id f) fs Hnin).
  - destruct (isPendingOrFailed g); simpl; [f_equal |]; by apply IH.
Qed.

(** X23: a manual retry that the server accepts takes the farm out of the
    queue: with unique ids, online, for a farm in failed state whatever its
    retry count, [retryFailedFarm] reports success, the queue is the old one
    without that farm, every other entry is found unchanged, and the pending
    count drops by one. *)
Theorem retryFailedFarm_accepted_removes_farm
  (w : World Api) (farm : OfflineFarm) (a : Api) (took : Z) :
  List.NoDup (List.map id (farms w)) ->
  findFarm (id farm) (farms w) = Some farm ->
  status farm = Failed ->
  connectedOf (netInfo w) = true ->
  createFarm (farmerId farm) (farmData farm) (api w) = (Resolve tt, a, took) ->
  let '(r, w') := retryFailedFarm createFarm (id farm) w in
  r = Resolve (mkResult true (id farm) None)
  /\ farms w' = List.filter (fun g => negb (hasId (id farm) g)) (farms w)
  /\ findFarm (id farm) (farms w') = None
  /\ (forall other, other <> id farm ->
        findFarm other (farms w') = findFarm other (farms w))
  /\ S (pendingOrFailed w') = pendingOrFailed w.
Proof.
  intros Hnd Hfind Hst Hon Hc.
  rewrite (retryFailedFarm_run createFarm w (id farm)), Hfind, Hst, Hon.
  rewrite bool_decide_eq_true_2 by reflexivity.
  rewrite (syncSingleFarm_resolved createFarm w farm a took Hc). cbn [farms].
  split; [reflexivity |]. split; [reflexivity |]. split; [| split].
  - apply findFarm_filter_same.
  - intros other Hne. by apply findFarm_filter_other.
  - unfold pendingOrFailed. cbn [farms]. apply pending_count_without; try done.
    unfold isPendingOrFailed. rewrite Hst. reflexivity.
Qed.

Lemma filter_idempotent {A} (p : A -> bool) (l : list A) :
  List.filter p (List.filter p l) = List.filter p l.
Proof.
  induction l as [|x l IH]; simpl; [reflexivity |].
  destruct (p x) eqn:Hp; simpl; [by rewrite Hp, IH | exact IH].
Qed.

Lemma countStatus_without_synced (st : Status) (fs : list OfflineFarm) :
  countStatus st (List.filter (fun f => negb (bool_decide (status f = Synced))) fs)
    = if bool_decide (st = Synced) then 0%nat else countStatus st fs.
Proof.
  unfold countStatus. induction fs as [|f fs IH]; simpl; [by destruct st |].
  destruct (status f) eqn:Hs, st; simpl; rewrite ?Hs; simpl in *;
    try (f_equal; exact IH); exact IH.
Qed.

Lemma pending_without_synced (fs : list OfflineFarm) :
  length (List.filter isPendingOrFailed
            (List.filter (fun f => negb (bool_decide (status f = Synced))) fs))
    = length (List.filter isPendingOrFailed fs).
Proof.
  unfold isPendingOrFailed. induction fs as [|f fs IH]; simpl; [reflexivity |].
  destruct (status f) eqn:Hs; simpl; rewrite ?Hs; simpl;
    try (f_equal; exact IH); exact IH.
Qed.

(** X24: [clearSyncedFarms] removes the farms marked synced and nothing
    else: afterwards none is synced, the numbers of pending, failed and
    syncing farms (so the pending count too) are as before, and clearing
    again changes nothing. *)
Theorem clearSyncedFarms_removes_synced_only (w : World Api) :
  let w' := snd (clearSyncedFarms w) in
  countStatus Synced (farms w') = 0%nat
  /\ countStatus Pending (farms w') = countStatus Pending (farms w)
  /\ countStatus Failed (farms w') = countStatus Failed (farms w)
  /\ countStatus Syncing (farms w') = countStatus Syncing (farms w)
  /\ pendingOrFailed w' = pendingOrFailed w
  /\ (forall f, List.In f (farms w') <-> List.In f (farms w) /\ status f <> Synced)
  /\ snd (clearSyncedFarms w') = w'.
Proof.
  assert (Hfs : farms (snd (clearSyncedFarms w))
                = List.filter (fun f => negb (bool_decide (status f = Synced))) (farms w))
    by reflexivity.
  cbv zeta. unfold pendingOrFailed. rewrite Hfs.
  rewrite !countStatus_without_synced, pending_without_synced.
  repeat (split; [reflexivity |]). split.
  - intros f. rewrite List.filter_In. split.
    + intros [Hin Hns]. split; [exact Hin |].
      apply negb_true_iff in Hns. by apply bool_decide_eq_false in Hns.
    + intros [Hin Hns]. split; [exact Hin |].
      apply negb_true_iff. by apply bool_decide_eq_false.
  - unfold clearSyncedFarms, getOfflineFarms, bind, gets, modify, setFarms.
    cbn. by rewrite filter_idempotent.
Qed.

End Facts.

(** *** The theorems at concrete queues *)

Lemma saveFarmOffline_appends_pending_witness :
  ~ List.In "offline_2"%string (List.map id (farms (queue [farm1] offline)))
  /\ findFarm "offline_2"
       (farms (snd (saveFarmOffline "offline_2" "farmer-9"
                      (JObj [("crop"%string, JStr "rice")]) JNull
                      (queue [farm1] offline))))
     = Some (mkFarm "offline_2" "farmer-9"
               (JObj [("crop"%string, JStr "rice")]) JNull 1000 Pending 0
               None None).
Proof.
  assert (Hfresh : ~ List.In "offline_2"%string
                     (List.map id (farms (queue [farm1] offline)))).
  { simpl. intros [Heq | []]. discriminate Heq. }
  split; [exact Hfresh |].
  pose proof (saveFarmOffline_appends_pending (queue [farm1] offline)
                "offline_2" "farmer-9"
                (JObj [("crop"%string, JStr "rice")]) JNull) as Hsave.
  cbv zeta in Hsave.
  destruct (saveFarmOffline "offline_2" "farmer-9"
              (JObj [("crop"%string, JStr "rice")]) JNull
              (queue [farm1] offline)) as [r w'].
  destruct Hsave as (_ & _ & _ & _ & _ & Hfind).
  exact (Hfind Hfresh).
Defined.

Lemma syncAllFarms_with_nothing_to_do_witness :
  syncAllFarms rejectAll (queue [farm1; farm4] offline) =
    (Resolve (mkSummary false NoNetworkConnection 0 0 2 None),
     queue [farm1; farm4] offline)
  /\ syncAllFarms rejectAll (queue [farm4] online) =
       (Resolve (mkSummary true NoFarmsToSync 0 0 0 None),
        queue [farm4] online).
Proof.
  split.
  - destruct (syncAllFarms_with_nothing_to_do rejectAll
                (queue [farm1; farm4] offline)) as [Hoff _].
    exact (Hoff eq_refl).
  - destruct (syncAllFarms_with_nothing_to_do rejectAll
                (queue [farm4] online)) as [_ Hon].
    exact (Hon eq_refl eq_refl).
Defined.

Lemma syncAllFarms_summary_accounts_for_selected_witness :
  exists rs (w' : World unit),
    fst (syncAllFarms rejectAll (queue [farm1; farm4; farm2] online))
      = Resolve (mkSummary (0 <? length (List.filter success rs))%nat
                   (FarmsSynced (length (List.filter success rs)))
                   (length (List.filter success rs))
                   (length (List.filter (fun r => negb (success r)) rs))
                   (pendingOrFailed w') (Some rs))
    /\ List.map farmId rs = ["offline_1"; "offline_2"]%string
    /\ lastSync w' = Some (clock w')
    /\ 2000 <= clock w'.
Proof.
  destruct (syncAllFarms_summary_accounts_for_selected rejectAll
              (queue [farm1; farm4; farm2] online))
    as (rs & w' & Hrun & _ & Hids & Hlast & Hclock);
    [reflexivity | discriminate |].
  exists rs, w'. rewrite Hrun. split; [reflexivity |]. split; [exact Hids |].
  split; [exact Hlast |].
  apply Hclock. intros fid fd a. simpl. lia.
Defined.

Lemma accepted_pass_removes_selected_witness :
  exists summary w',
    syncAllFarms acceptAll (queue [farm1; farm4; farm2] online)
      = (Resolve summary, w')
    /\ farms w' = [farm4]
    /\ synced summary = 2%nat
    /\ failed summary = 0%nat.
Proof.
  destruct (accepted_pass_removes_selected acceptAll
              (queue [farm1; farm4; farm2] online))
    as (summary & w' & Hrun & Hfarms & Hsynced & Hfailed & _).
  - reflexivity.
  - intros fid fd a. exists a, 30. reflexivity.
  - simpl. repeat constructor; simpl; intuition discriminate.
  - exists summary, w'.
    split; [exact Hrun |]. split; [exact Hfarms |].
    split; [exact Hsynced | exact Hfailed].
Defined.

Lemma retryFailedFarm_accepted_removes_farm_witness :
  fst (retryFailedFarm acceptAll "offline_4" (queue [farm1; farm4] online))
    = Resolve (mkResult true "offline_4" None)
  /\ farms (snd (retryFailedFarm acceptAll "offline_4"
                   (queue [farm1; farm4] online)))
     = [farm1].
Proof.
  pose proof (retryFailedFarm_accepted_removes_farm acceptAll
                (queue [farm1; farm4] online) farm4 tt 30) as Hretry.
  change (id farm4) with "offline_4"%string in Hretry.
  destruct (retryFailedFarm acceptAll "offline_4"
              (queue [farm1; farm4] online)) as [r w'].
  destruct Hretry as (Hr & Hfarms & _).
  - simpl. repeat constructor; simpl; intuition discriminate.
  - reflexivity.
  - reflexivity.
  - reflexivity.
  - reflexivity.
  - split; [exact Hr | exact Hfarms].
Defined.

End QueueFacts.

(** ** Properties of the queue of generic operations *)

Module OperationsFacts.
Import Operations.

Section Facts.
Context {Api : Type}.
Variable createFarm : string -> JSON -> Api -> Result unit * Api * Z.

Lemma filter_all_kept {A} (p : A -> bool) (l : list A) :
  length (List.filter p l) = length l -> List.filter p l = l.
Proof.
  induction l as [|x l IH]; simpl; [reflexivity |].
  destruct (p x); simpl; intros Hlen.
  - f_equal. apply IH. lia.
  - pose proof (List.filter_length_le p l). lia.
Qed.

Lemma syncSingleOperation_run (operation : Operation) (w : World Api) :
  let now := Sync.clock (queue w) in
  syncSingleOperation operation w =
    (Resolve true,
     setOperations
       (List.filter (isKept now) (List.map (markSynced (id operation) now) (operations w)))
       w).
Proof.
  cbv zeta. unfold syncSingleOperation, tryCatch, getOfflineOperations, dateNow,
    bind, gets, modify, ret, setOperations. cbn [queue operations].
  destruct (length (List.filter (isKept (Sync.clock (queue w)))
                      (List.map (markSynced (id operation) (Sync.clock (queue w)))
                                (operations w)))
            =? length (List.map (markSynced (id operation) (Sync.clock (queue w)))
                                (operations w)))%nat eqn:Hlen; cbn.
  - apply Nat.eqb_eq in Hlen. by rewrite (filter_all_kept _ _ Hlen).
  - reflexivity.
Qed.

Lemma syncEachOperation_cons (operation : Operation) (rest : list Operation)
      (synced failed : nat) (w : World Api) :
  syncEachOperation (operation :: rest) synced failed w =
    syncEachOperation rest (S synced) failed (snd (syncSingleOperation operation w)).
Proof.
  cbn [syncEachOperation]. unfold bind at 1. unfold tryCatch at 1.
  unfold bind at 1. pose proof (syncSingleOperation_run operation w) as Hrun.
  cbv zeta in Hrun. rewrite Hrun. reflexivity.
Qed.

Lemma markSynced_pending (i : string) (now : Z) (o : Operation) :
  isPending (markSynced i now o) = true ->
  markSynced i now o = o /\ id o <> i /\ isPending o = true.
Proof.
  unfold markSynced. destruct (String.eqb (id o) i) eqn:Heq.
  - discriminate.
  - intros Hp. apply String.eqb_neq in Heq. done.
Qed.

Lemma syncSingleOperation_pending (operation : Operation) (w : World Api) (o : Operation) :
  List.In o (operations (snd (syncSingleOperation operation w))) ->
  isPending o = true ->
  List.In o (operations w) /\ id o <> id operation.
Proof.
  pose proof (syncSingleOperation_run operation w) as Hrun. cbv zeta in Hrun.
  rewrite Hrun. cbn [snd setOperations operations].
  intros Hin Hp. apply List.filter_In in Hin as [Hin _].
  apply List.in_map_iff in Hin as (o0 & <- & Hin0).
  destruct (markSynced_pending _ _ _ Hp) as (Heq & Hne & _).
  rewrite Heq. by split.
Qed.

Lemma syncEachOperation_run (pending : list Operation) :
  forall (synced failed : nat) (w : World Api),
  exists w',
    syncEachOperation pending synced failed w
      = (Resolve ((synced + length pending)%nat, failed), w')
    /\ queue w' = queue w
    /\ (forall o, List.In o (operations w') -> isPending o = true ->
          List.In o (operations w) /\ ~ List.In (id o) (List.map id pending)).
Proof.
  induction pending as [|operation rest IH]; intros synced failed w.
  - exists w. cbn. unfold ret. rewrite Nat.add_0_r. repeat split; tauto.
  - rewrite syncEachOperation_cons.
    destruct (IH (S synced) failed (snd (syncSingleOperation operation w)))
      as (w' & Hrun & Hqueue & Hpend).
    exists w'. rewrite Hrun. cbn [length].
    replace (S synced + length rest)%nat with (synced + S (length rest))%nat by lia.
    split; [reflexivity |]. split.
    + rewrite Hqueue. pose proof (syncSingleOperation_run operation w) as H1.
      cbv zeta in H1. by rewrite H1.
    + intros o Hin Hp. destruct (Hpend o Hin Hp) as [Hin1 Hnin].
      destruct (syncSingleOperation_pending operation w o Hin1 Hp) as [Hin0 Hne].
      split; [exact Hin0 |]. cbn [List.map]. intros [Heq | Hrest]; [congruence | tauto].
Qed.

Lemma syncAllOperations_run (w : World Api) :
  exists w',
    syncAllOperations w
      = (Resolve (length (List.filter isPending (operations w)), 0%nat), w')
    /\ queue w' = queue w
    /\ List.filter isPending (operations w') = [].
Proof.
  unfold syncAllOperations, getOfflineOperations.
  unfold bind at 1. unfold gets at 1. cbv beta iota.
  destruct (length (List.filter isPending (operations w)) =? 0)%nat eqn:Hzero.
  - apply Nat.eqb_eq in Hzero. exists w. rewrite Hzero.
    split; [reflexivity |]. split; [reflexivity |].
    by destruct (List.filter isPending (operations w)).
  - destruct (syncEachOperation_run (List.filter isPending (operations w)) 0 0 w)
      as (w' & Hrun & Hqueue & Hpend).
    exists w'. rewrite Hrun. cbn [Nat.add].
    split; [reflexivity |]. split; [exact Hqueue |].
    destruct (List.filter isPending (operations w')) as [|o os] eqn:Hleft;
      [reflexivity |].
    assert (Ho : List.In o (List.filter isPending (operations w')))
      by (rewrite Hleft; by left).
    apply List.filter_In in Ho as [Hin Hp].
    destruct (Hpend o Hin Hp) as [Hin0 Hnin].
    exfalso. apply Hnin. apply List.in_map. apply List.filter_In. by split.
Qed.

(** X25: [syncAllOperations] marks every pending operation as synced
    without sending anything: afterwards no operation is pending, the result
    counts each of them as synced and none as failed, and the farm queue,
    the backend and the writer's trace are as before. *)
Theorem syncAllOperations_marks_without_sending (w : World Api) :
  exists w',
    syncAllOperations w
      = (Resolve (length (List.filter isPending (operations w)), 0%nat), w')
    /\ Sync.farms (queue w') = Sync.farms (queue w)
    /\ Sync.api (queue w') = Sync.api (queue w)
    /\ Sync.trace (queue w') = Sync.trace (queue w)
    /\ List.filter isPending (operations w') = [].
Proof.
  destruct (syncAllOperations_run w) as (w' & Hrun & Hqueue & Hnone).
  exists w'. rewrite Hqueue. by repeat split.
Qed.

Lemma markSynced_of_synced (i : string) (now : Z) (o : Operation) :
  status o = Sync.Synced -> syncedAt o = Some now -> markSynced i now o = o.
Proof.
  intros Hst Hat. unfold markSynced. destruct (String.eqb (id o) i); [| reflexivity].
  destruct o; simpl in *. by subst.
Qed.

Lemma isKept_just_synced (now : Z) (o : Operation) :
  syncedAt o = Some now -> isKept now o = true.
Proof.
  intros Hat. unfold isKept. rewrite Hat.
  replace (now - now) with 0 by lia. apply orb_true_r.
Qed.

Lemma syncSingleOperation_keeps_synced (operation : Operation) (w : World Api)
      (i : string) :
  (id operation = i
   \/ exists o, List.In o (operations w) /\ id o = i /\ status o = Sync.Synced
                /\ syncedAt o = Some (Sync.clock (queue w))) ->
  (exists o0, List.In o0 (operations w) /\ id o0 = i) ->
  exists o, List.In o (operations (snd (syncSingleOperation operation w)))
            /\ id o = i /\ status o = Sync.Synced
            /\ syncedAt o = Some (Sync.clock (queue w)).
Proof.
  pose proof (syncSingleOperation_run operation w) as Hrun. cbv zeta in Hrun.
  rewrite Hrun. cbn [snd setOperations operations].
  intros [Hthis | (o & Hin & Hid & Hst & Hat)] (o0 & Hin0 & Hid0).
  - exists (markSynced (id operation) (Sync.clock (queue w)) o0).
    assert (Hm : markSynced (id operation) (Sync.clock (queue w)) o0
                 = mkOperation (id o0) (type o0) (entityType o0) (data o0)
                     (timestamp o0) Sync.Synced (retryCount o0) (lastError o0)
                     (Some (Sync.clock (queue w)))).
    { unfold markSynced. rewrite Hid0, Hthis. by rewrite String.eqb_refl. }
    split; [| by rewrite Hm].
    apply List.filter_In. split; [by apply List.in_map |].
    apply isKept_just_synced. by rewrite Hm.
  - exists o. split; [| done].
    apply List.filter_In. split; [| by apply isKept_just_synced].
    apply List.in_map_iff. exists o. split; [| exact Hin].
    by apply markSynced_of_synced.
Qed.

Lemma syncSingleOperation_same_clock (operation : Operation) (w : World Api) :
  queue (snd (syncSingleOperation operation w)) = queue w.
Proof.
  pose proof (syncSingleOperation_run operation w) as Hrun. cbv zeta in Hrun.
  by rewrite Hrun.
Qed.

Lemma syncSingleOperation_ids (operation : Operation) (w : World Api) (i : string) :
  (exists o0, List.In o0 (operations w) /\ id o0 = i /\ isPending o0 = true) ->
  id operation <> i ->
  exists o0, List.In o0 (operations (snd (syncSingleOperation operation w)))
             /\ id o0 = i /\ isPending o0 = true.
Proof.
  pose proof (syncSingleOperation_run operation w) as Hrun. cbv zeta in Hrun.
  rewrite Hrun. cbn [snd setOperations operations].
  intros (o0 & Hin & Hid & Hp) Hne. exists o0.
  assert (Hm : markSynced (id operation) (Sync.clock (queue w)) o0 = o0).
  { unfold markSynced. rewrite Hid.
    assert (Hneq : String.eqb i (id operation) = false)
      by (apply String.eqb_neq; congruence).
    by rewrite Hneq. }
  split; [| by split].
  apply List.filter_In. split.
  - apply List.in_map_iff. by exists o0.
  - unfold isKept. unfold isPending in Hp.
    apply bool_decide_eq_true in Hp. rewrite Hp. reflexivity.
Qed.

Lemma syncEachOperation_history (pending : list Operation) :
  forall (synced failed : nat) (w : World Api) (i : string),
  (List.In i (List.map id pending)
     /\ (exists o0, List.In o0 (operations w) /\ id o0 = i /\ isPending o0 = true)
   \/ exists o, List.In o (operations w) /\ id o = i /\ status o = Sync.Synced
                /\ syncedAt o = Some (Sync.clock (queue w))) ->
  exists o, List.In o (operations (snd (syncEachOperation pending synced failed w)))
            /\ id o = i /\ status o = Sync.Synced
            /\ syncedAt o = Some (Sync.clock (queue w)).
Proof.
  induction pending as [|operation rest IH]; intros synced failed w i Hcase.
  - destruct Hcase as [[[] _] | Hdone]. exact Hdone.
  - rewrite syncEachOperation_cons.
    rewrite <- (syncSingleOperation_same_clock operation w).
    apply IH. rewrite (syncSingleOperation_same_clock operation w).
    destruct Hcase as [[Hin (o0 & Hin0 & Hid0 & Hp0)] | Hdone].
    + destruct (String.eqb_spec (id operation) i) as [Heq | Hne].
      * right. apply syncSingleOperation_keeps_synced; [by left | by exists o0].
      * left. split.
        -- cbn [List.map] in Hin. destruct Hin as [Heq | Hin]; [congruence | exact Hin].
        -- apply syncSingleOperation_ids; [by exists o0 | exact Hne].
    + right. destruct Hdone as (o & Hin & Hid & Hst & Hat).
      apply syncSingleOperation_keeps_synced; [right; by exists o | by exists o].
Qed.

Lemma syncEachOperation_kept (pending : list Operation) :
  forall (synced failed : nat) (w : World Api),
  pending <> [] ->
  forall o, List.In o (operations (snd (syncEachOperation pending synced failed w))) ->
            isKept (Sync.clock (queue w)) o = true.
Proof.
  induction pending as [|operation rest IH]; intros synced failed w Hne o; [done |].
  rewrite syncEachOperation_cons.
  destruct rest as [|next rest'].
  - cbn [syncEachOperation]. unfold ret. cbn [snd].
    pose proof (syncSingleOperation_run operation w) as Hrun. cbv zeta in Hrun.
    rewrite Hrun. cbn [snd setOperations operations].
    intros Hin. by apply List.filter_In in Hin as [_ Hk].
  - intros Hin. rewrite <- (syncSingleOperation_same_clock operation w).
    by apply (IH (S synced) failed (snd (syncSingleOperation operation w))).
Qed.

(** X26: operations are kept for history, for a day: after a
    [syncAllOperations] that had something to sync, every operation that was
    pending is still in the queue under its id, marked synced at the current
    time, and every synced operation left in the queue was synced less than
    24 hours ago, older ones having been pruned. *)
Theorem syncAllOperations_keeps_a_day_of_history (w : World Api) :
  List.filter isPending (operations w) <> [] ->
  let w' := snd (syncAllOperations w) in
  let now := Sync.clock (queue w) in
  (forall op, List.In op (operations w) -> isPending op = true ->
     exists o, List.In o (operations w') /\ id o = id op
               /\ status o = Sync.Synced /\ syncedAt o = Some now)
  /\ (forall o, List.In o (operations w') -> status o = Sync.Synced ->
        exists t, syncedAt o = Some t /\ now - t < 24 * 60 * 60 * 1000).
Proof.
  intros Hsome. cbv zeta.
  assert (Hrun : syncAllOperations w
                 = syncEachOperation (List.filter isPending (operations w)) 0 0 w).
  { unfold syncAllOperations, getOfflineOperations.
    unfold bind at 1. unfold gets at 1. cbv beta iota.
    destruct (List.filter isPending (operations w)); [done | reflexivity]. }
  rewrite Hrun. split.
  - intros op Hin Hp. apply syncEachOperation_history. left. split.
    + apply List.in_map. apply List.filter_In. by split.
    + by exists op.
  - intros o Hin Hst.
    pose proof (syncEachOperation_kept _ 0%nat 0%nat w Hsome o Hin) as Hk.
    unfold isKept in Hk. rewrite Hst in Hk.
    rewrite bool_decide_eq_true_2 in Hk by reflexivity. cbn [negb orb] in Hk.
    destruct (syncedAt o) as [t|]; [| discriminate Hk].
    exists t. split; [reflexivity |]. by apply Z.ltb_lt.
Qed.

Lemma getTotalPendingCount_run (w : World Api) :
  getTotalPendingCount w =
    (Resolve (Sync.countStatus Sync.Pending (Sync.farms (queue w))
              + length (List.filter isPending (operations w)))%nat, w).
Proof.
  unfold getTotalPendingCount, liftQueue, getOfflineOperations,
    Sync.getOfflineFarms, bind, gets, ret. cbn. by destruct w.
Qed.

(** X27: [saveOfflineOperation] appends the operation, pending, with no
    retry, and leaves the farm queue alone; [getTotalPendingCount] goes up
    by one.  That count takes pending farms and pending operations only:
    together with the failed farms it makes up [getPendingCount] plus the
    pending operations. *)
Theorem saveOfflineOperation_raises_total_pending
  (w : World Api) (opId type entityType : string) (data : JSON) :
  let queued :=
    mkOperation opId type entityType data (Sync.clock (queue w)) Sync.Pending 0
                None None in
  let w' := snd (saveOfflineOperation opId type entityType data w) in
  exists n : nat,
    fst (saveOfflineOperation opId type entityType data w) = Resolve queued
    /\ operations w' = operations w ++ [queued]
    /\ queue w' = queue w
    /\ getTotalPendingCount w = (Resolve n, w)
    /\ getTotalPendingCount w' = (Resolve (S n), w')
    /\ (n + Sync.countStatus Sync.Failed (Sync.farms (queue w))
        = Sync.pendingOrFailed (queue w)
          + length (List.filter isPending (operations w)))%nat.
Proof.
  cbv zeta. rewrite !getTotalPendingCount_run.
  eexists. split; [reflexivity |]. split; [reflexivity |]. split; [reflexivity |].
  split; [reflexivity |]. split.
  - assert (Hq : forall q : Operation, status q = Sync.Pending ->
              length (List.filter isPending (operations w ++ [q]))
              = S (length (List.filter isPending (operations w)))).
    { intros q Hst. rewrite List.filter_app, length_app. cbn [List.filter].
      unfold isPending at 2. rewrite Hst.
      rewrite bool_decide_eq_true_2 by reflexivity. cbn [length]. lia. }
    cbn [snd saveOfflineOperation]. cbn. rewrite Hq by reflexivity.
    f_equal. f_equal. lia.
  - unfold Sync.pendingOrFailed, Sync.countStatus, Sync.isPendingOrFailed.
    induction (Sync.farms (queue w)) as [|f fs IH]; simpl; [lia |].
    destruct (Sync.status f); simpl; lia.
Qed.

(** X28: [syncAll] asks the network only for the farms: offline, the farm
    pass reports 'No network connection' and touches nothing, and the
    operations pass that follows still marks every pending operation as
    synced. *)
Theorem syncAll_offline_still_marks_operations (w : World Api) :
  Sync.connectedOf (Sync.netInfo (queue w)) = false ->
  exists w',
    syncAll createFarm w =
      (Resolve (Sync.mkSummary false Sync.NoNetworkConnection 0 0
                  (Sync.pendingOrFailed (queue w)) None,
                (length (List.filter isPending (operations w)), 0%nat)),
       w')
    /\ queue w' = queue w
    /\ List.filter isPending (operations w') = [].
Proof.
  intros Hoff. unfold syncAll. unfold bind at 1. unfold liftQueue at 1.
  rewrite (QueueFacts.syncAllFarms_offline createFarm (queue w) Hoff).
  unfold bind at 1.
  destruct (syncAllOperations_run (mkWorld (queue w) (operations w)))
    as (w' & Hrun & Hqueue & Hnone).
  rewrite Hrun. exists w'. by repeat split.
Qed.

End Facts.

(** *** The theorems at concrete queues *)

Lemma syncAllOperations_keeps_a_day_of_history_witness :
  exists o,
    List.In o (operations (snd (syncAllOperations (opsWorld [] [op1; op2]))))
    /\ id o = "op_1"%string /\ status o = Sync.Synced.
Proof.
  destruct (syncAllOperations_keeps_a_day_of_history (opsWorld [] [op1; op2]))
    as [Hhistory _]; [discriminate |].
  destruct (Hhistory op1) as (o & Hin & Hid & Hst & _); [by left | reflexivity |].
  exists o. repeat split; [exact Hin | exact Hid | exact Hst].
Defined.

Lemma syncAll_offline_still_marks_operations_witness :
  exists w',
    syncAll Sync.rejectAll (mkWorld (Sync.queue [Sync.farm1] offline) [op1]) =
      (Resolve (Sync.mkSummary false Sync.NoNetworkConnection 0 0 1%nat None,
                (1%nat, 0%nat)), w')
    /\ List.filter isPending (operations w') = [].
Proof.
  destruct (syncAll_offline_still_marks_operations Sync.rejectAll
              (mkWorld (Sync.queue [Sync.farm1] offline) [op1]) eq_refl)
    as (w' & Hrun & _ & Hnone).
  exists w'. split; [exact Hrun | exact Hnone].
Defined.

End OperationsFacts.
